(** * Target HTTPS / SSL proxy resources of the Google provider

    A shallow embedding of
      google/resource_compute_target_https_proxy.go
      google/resource_compute_target_ssl_proxy.go
    The four lifecycle functions of each resource are sequences of
    "read field, build request, call, wait, set field" on a mutable
    [*schema.ResourceData] and a remote compute API.  They are embedded as
    computations in a state-and-error monad over
      - the resource data [d],
      - the state of the remote side,
      - the sequence of calls issued so far (a ghost trace).
    Everything the two files consume but do not define (project resolver,
    reference parsers, the generated API client, the operation pollers) is
    an interface, [Externals]; theorems hold for every implementation. *)

From stdpp Require Import base tactics option list gmap strings pretty.

Local Open Scope string_scope.
Local Open Scope list_scope.

(** ** Go errors *)

(** The [error] values that occur: errors produced by the API client or a
    helper ([apiError], with the text its [Error()] method gives and a
    status code), the result of [fmt.Errorf] ([errorString]), and the result
    of [errwrap.Wrapf] ([wrappedError], which keeps the wrapped error). *)
Inductive error : Type :=
| apiError (code : Z) (text : string)
| errorString (text : string)
| wrappedError (outer : error) (inner : error).

Global Instance error_eq_dec : EqDecision error.
Proof. solve_decision. Defined.

(** [err.Error()] *)
Fixpoint Error (e : error) : string :=
  match e with
  | apiError _ text => text
  | errorString text => text
  | wrappedError outer _ => Error outer
  end.

(** [fmt.Errorf(prefix + "%s", err)]: every format string of the two files
    is a literal prefix followed by one [%s]. *)
Definition fmt_Errorf (prefix : string) (err : error) : error :=
  errorString (prefix +:+ Error err).

(** [errwrap.Wrapf(prefix + "{{err}}", err)] *)
Definition errwrap_Wrapf (prefix : string) (err : error) : error :=
  wrappedError (errorString (prefix +:+ Error err)) err.

(** [strconv.FormatUint(i, 10)] *)
Definition strconv_FormatUint (i : N) : string := pretty i.

(** ** The schema framework (helper/schema) *)

Inductive ValueType : Type := TypeString | TypeList.

Inductive DiffSuppressFunc : Type :=
| compareSelfLinkOrResourceName
| compareSelfLinkRelativePaths.

(** [schema.Schema], with the fields the two resources set.  A field left
    out of a Go composite literal has its zero value. *)
Record Schema : Type := mkSchema {
  Type_ : ValueType;
  Required : bool;
  Optional : bool;
  Computed : bool;
  ForceNew : bool;
  MaxItems : nat;
  MinItems : nat;
  Default : option string;
  Elem : option (ValueType * option DiffSuppressFunc);
  DiffSuppress : option DiffSuppressFunc
}.

Definition schemaOf (t : ValueType) : Schema :=
  mkSchema t false false false false 0 0 None None None.

Definition withRequired (s : Schema) : Schema :=
  mkSchema (Type_ s) true (Optional s) (Computed s) (ForceNew s)
           (MaxItems s) (MinItems s) (Default s) (Elem s) (DiffSuppress s).
Definition withOptional (s : Schema) : Schema :=
  mkSchema (Type_ s) (Required s) true (Computed s) (ForceNew s)
           (MaxItems s) (MinItems s) (Default s) (Elem s) (DiffSuppress s).
Definition withComputed (s : Schema) : Schema :=
  mkSchema (Type_ s) (Required s) (Optional s) true (ForceNew s)
           (MaxItems s) (MinItems s) (Default s) (Elem s) (DiffSuppress s).
Definition withForceNew (s : Schema) : Schema :=
  mkSchema (Type_ s) (Required s) (Optional s) (Computed s) true
           (MaxItems s) (MinItems s) (Default s) (Elem s) (DiffSuppress s).
Definition withMaxItems (n : nat) (s : Schema) : Schema :=
  mkSchema (Type_ s) (Required s) (Optional s) (Computed s) (ForceNew s)
           n (MinItems s) (Default s) (Elem s) (DiffSuppress s).
Definition withDefault (v : string) (s : Schema) : Schema :=
  mkSchema (Type_ s) (Required s) (Optional s) (Computed s) (ForceNew s)
           (MaxItems s) (MinItems s) (Some v) (Elem s) (DiffSuppress s).
Definition withElem (t : ValueType) (f : option DiffSuppressFunc) (s : Schema) : Schema :=
  mkSchema (Type_ s) (Required s) (Optional s) (Computed s) (ForceNew s)
           (MaxItems s) (MinItems s) (Default s) (Some (t, f)) (DiffSuppress s).
Definition withDiffSuppress (f : DiffSuppressFunc) (s : Schema) : Schema :=
  mkSchema (Type_ s) (Required s) (Optional s) (Computed s) (ForceNew s)
           (MaxItems s) (MinItems s) (Default s) (Elem s) (Some f).

(** A field value: the resources have string fields and one list of
    strings. *)
Inductive Value : Type :=
| VString (s : string)
| VList (l : list string).

Global Instance Value_eq_dec : EqDecision Value.
Proof. solve_decision. Defined.

Definition isZero (v : Value) : bool :=
  match v with
  | VString s => bool_decide (s = "")
  | VList l => bool_decide (l = [])
  end.

(** An unset field reads as the zero value of its type, so an absent entry
    and a zero entry are the same reading. *)
Definition reading (o : option Value) : option Value :=
  match o with
  | Some v => if isZero v then None else Some v
  | None => None
  end.

(** [*schema.ResourceData].  [rd_state] is the last-known state, [rd_diff]
    the declared values (state merged with the planned diff), [rd_set] what
    [d.Set] has written since.  [d.Get] reads the three levels merged;
    [d.GetChange] and [d.HasChange] compare the first two. *)
Record ResourceData : Type := mkResourceData {
  rd_state : gmap string Value;
  rd_diff : gmap string Value;
  rd_set : gmap string Value;
  rd_id : string;
  rd_partial : bool;
  rd_partialMap : gset string
}.

(** [d.Get(key)] before the type assertion. *)
Definition Get (d : ResourceData) (key : string) : option Value :=
  match rd_set d !! key with
  | Some v => Some v
  | None => rd_diff d !! key
  end.

(** [d.Get(key).(string)]; the framework only stores values of the type the
    schema declares for [key]. *)
Definition Get_string (d : ResourceData) (key : string) : string :=
  match Get d key with
  | Some (VString s) => s
  | _ => ""
  end.

(** [d.Get(key).([]interface{})] with string elements. *)
Definition Get_list (d : ResourceData) (key : string) : list string :=
  match Get d key with
  | Some (VList l) => l
  | _ => []
  end.

(** [d.GetOk(key)] for a string field: the value, and whether it is set to
    something other than the zero value. *)
Definition GetOk_string (d : ResourceData) (key : string) : string * bool :=
  let v := Get_string d key in (v, negb (bool_decide (v = ""))).

(** [d.HasChange(key)]: the old and the new value differ. *)
Definition HasChange (d : ResourceData) (key : string) : bool :=
  negb (bool_decide (reading (rd_state d !! key) = reading (rd_diff d !! key))).

Definition Id (d : ResourceData) : string := rd_id d.

Definition SetId (v : string) (d : ResourceData) : ResourceData :=
  mkResourceData (rd_state d) (rd_diff d) (rd_set d) v (rd_partial d) (rd_partialMap d).

Definition d_Set (key : string) (v : Value) (d : ResourceData) : ResourceData :=
  mkResourceData (rd_state d) (rd_diff d) (<[key := v]> (rd_set d)) (rd_id d)
                 (rd_partial d) (rd_partialMap d).

(** [d.Partial(on)]: turning partial mode off drops the recorded keys. *)
Definition Partial (on : bool) (d : ResourceData) : ResourceData :=
  mkResourceData (rd_state d) (rd_diff d) (rd_set d) (rd_id d) on
                 (if on then rd_partialMap d else ∅).

(** [d.SetPartial(key)]: records the key when partial mode is on. *)
Definition SetPartial (key : string) (d : ResourceData) : ResourceData :=
  mkResourceData (rd_state d) (rd_diff d) (rd_set d) (rd_id d) (rd_partial d)
                 (if rd_partial d then {[key]} ∪ rd_partialMap d else rd_partialMap d).

(** The list checks of the framework's validation: [MaxItems] and
    [MinItems] bound the length when they are positive. *)
Definition validateList (s : Schema) (l : list string) : bool :=
  (bool_decide (MaxItems s = 0) || bool_decide (List.length l ≤ MaxItems s)%nat)
  && (bool_decide (MinItems s = 0) || bool_decide (MinItems s ≤ List.length l)%nat).

(** Validation of one declared field: a required field has to be present;
    a list has to pass the list checks. *)
Definition validateField (s : Schema) (declared : option Value) : bool :=
  match declared with
  | None => negb (Required s)
  | Some (VList l) => match Type_ s with TypeList => validateList s l | TypeString => false end
  | Some (VString _) => match Type_ s with TypeString => true | TypeList => false end
  end.

(** ** The compute API (google.golang.org/api/compute/v1) *)

(** [compute.TargetHttpsProxy], with the fields the resource reads or
    writes. *)
Module TargetHttpsProxy.
Record t : Type := mk {
  Name : string;
  UrlMap : string;
  SslCertificates : list string;
  Description : string;
  Id : N;
  SelfLink : string;
  SslPolicy : string
}.
Definition withDescription (v : string) (p : t) : t :=
  mk (Name p) (UrlMap p) (SslCertificates p) v (Id p) (SelfLink p) (SslPolicy p).
End TargetHttpsProxy.

(** [compute.TargetSslProxy], likewise. *)
Module TargetSslProxy.
Record t : Type := mk {
  Name : string;
  Service : string;
  ProxyHeader : string;
  Description : string;
  SslCertificates : list string;
  Id : N;
  SelfLink : string;
  SslPolicy : string
}.
End TargetSslProxy.

(** The calls that change the remote side.  Each of them is built by a
    method of [config.clientCompute.TargetHttpsProxies] or
    [config.clientCompute.TargetSslProxies], sent with [.Do()], and answers
    with an operation handle. *)
Inductive Request : Type :=
| TargetHttpsProxies_Insert (project : string) (proxy : TargetHttpsProxy.t)
| TargetHttpsProxies_SetUrlMap (project id : string) (UrlMap : string)
| TargetHttpsProxies_SetSslCertificates (project id : string) (SslCertificates : list string)
| TargetHttpsProxies_SetSslPolicy (project id : string) (SslPolicy : string)
| TargetHttpsProxies_Delete (project id : string)
| TargetSslProxies_Insert (project : string) (proxy : TargetSslProxy.t)
| TargetSslProxies_SetProxyHeader (project id : string) (ProxyHeader : string)
| TargetSslProxies_SetBackendService (project id : string) (Service : string)
| TargetSslProxies_SetSslCertificates (project id : string) (SslCertificates : list string)
| TargetSslProxies_SetSslPolicy (project id : string) (SslPolicy : string)
| TargetSslProxies_Delete (project id : string).

Global Instance TargetHttpsProxy_eq_dec : EqDecision TargetHttpsProxy.t.
Proof. solve_decision. Defined.
Global Instance TargetSslProxy_eq_dec : EqDecision TargetSslProxy.t.
Proof. solve_decision. Defined.
Global Instance Request_eq_dec : EqDecision Request.
Proof. solve_decision. Defined.

(** The request attaches a security policy. *)
Definition isSetSslPolicy (r : Request) : bool :=
  match r with
  | TargetHttpsProxies_SetSslPolicy _ _ _ | TargetSslProxies_SetSslPolicy _ _ _ => true
  | _ => false
  end.

Definition isInsert (r : Request) : bool :=
  match r with
  | TargetHttpsProxies_Insert _ _ | TargetSslProxies_Insert _ _ => true
  | _ => false
  end.

(** ** What the two files consume

    A Go function with results [(T, error)] is a function to
    [T * option error]: the value is whatever came back beside the error,
    and [None] is [nil].  A call on the remote side also transforms the
    state [World] of that side. *)
Class Externals : Type := {
  World : Type;
  Config : Type;
  Operation : Type;
  FieldValue : Type;
  (** [getProject(d, config)] *)
  getProject : ResourceData → Config → string * option error;
  (** [ParseSslCertificateFieldValue(v, d, config)] *)
  ParseSslCertificateFieldValue : string → ResourceData → Config → FieldValue * option error;
  (** [ParseSslPolicyFieldValue(v, d, config)] *)
  ParseSslPolicyFieldValue : string → ResourceData → Config → FieldValue * option error;
  (** [fv.RelativeLink()] *)
  RelativeLink : FieldValue → string;
  (** [config.clientCompute.<Service>.<Method>(...).Do()] for the calls of
      [Request] *)
  Do : Config → Request → World → (Operation * option error) * World;
  (** [config.clientCompute.TargetHttpsProxies.Get(project, id).Do()] *)
  TargetHttpsProxies_Get :
    Config → string → string → World → (TargetHttpsProxy.t * option error) * World;
  (** [config.clientCompute.TargetSslProxies.Get(project, id).Do()] *)
  TargetSslProxies_Get :
    Config → string → string → World → (TargetSslProxy.t * option error) * World;
  (** [computeOperationWait(config.clientCompute, op, project, activity)] *)
  computeOperationWait : Config → Operation → string → string → World → option error * World;
  (** [computeSharedOperationWait(config.clientCompute, op, project, activity)] *)
  computeSharedOperationWait : Config → Operation → string → string → World → option error * World;
  (** the classifier of "not found" answers used by [handleNotFoundError] *)
  isNotFound : error → bool;
  (** [fmt.Sprintf("%q", s)] *)
  Sprintf_q : string → string
}.

Section Provider.
Context `{Externals}.

(** ** State, trace and the monad *)

(** What a lifecycle function did that is visible outside of it, in
    order: calls with their answers, and changes of the local identity. *)
Inductive Event : Type :=
| EvDo (req : Request) (op : Operation) (err : option error)
| EvGetHttps (project id : string) (proxy : TargetHttpsProxy.t) (err : option error)
| EvGetSsl (project id : string) (proxy : TargetSslProxy.t) (err : option error)
| EvWait (op : Operation) (project activity : string) (err : option error)
| EvSharedWait (op : Operation) (project activity : string) (err : option error)
| EvSetId (id : string).

Record State : Type := mkState {
  rd : ResourceData;
  world : World;
  trace : list Event
}.

Inductive Result (A : Type) : Type :=
| Ok (a : A)
| Err (e : error).
Global Arguments Ok {A} a.
Global Arguments Err {A} e.

(** A computation either goes on with a value or has returned an error to
    the caller of the lifecycle function. *)
Definition M (A : Type) : Type := State → Result A * State.

Definition ret {A} (a : A) : M A := λ s, (Ok a, s).

Definition bind {A B} (m : M A) (k : A → M B) : M B :=
  λ s, match m s with
       | (Ok a, s') => k a s'
       | (Err e, s') => (Err e, s')
       end.

(** [return err] *)
Definition return_ {A} (e : error) : M A := λ s, (Err e, s).

(** [if err != nil { return f(err) }] *)
Definition returnIf (err : option error) (f : error → error) : M unit :=
  match err with
  | Some e => return_ (f e)
  | None => ret tt
  end.

(** An expression that reads [d]. *)
Definition withD {A} (f : ResourceData → A) : M A := λ s, (Ok (f (rd s)), s).

(** A statement that writes [d]. *)
Definition onD (f : ResourceData → ResourceData) : M unit :=
  λ s, (Ok tt, mkState (f (rd s)) (world s) (trace s)).

Definition emit (e : Event) (s : State) : list Event := trace s ++ [e].

(** [d.SetId(v)] *)
Definition d_SetId (v : string) : M unit :=
  λ s, (Ok tt, mkState (SetId v (rd s)) (world s) (emit (EvSetId v) s)).

Definition call_Do (config : Config) (req : Request) : M (Operation * option error) :=
  λ s, let '(op, err, w) := Do config req (world s) in
       (Ok (op, err), mkState (rd s) w (emit (EvDo req op err) s)).

Definition call_HttpsGet (config : Config) (project id : string)
  : M (TargetHttpsProxy.t * option error) :=
  λ s, let '(proxy, err, w) := TargetHttpsProxies_Get config project id (world s) in
       (Ok (proxy, err), mkState (rd s) w (emit (EvGetHttps project id proxy err) s)).

Definition call_SslGet (config : Config) (project id : string)
  : M (TargetSslProxy.t * option error) :=
  λ s, let '(proxy, err, w) := TargetSslProxies_Get config project id (world s) in
       (Ok (proxy, err), mkState (rd s) w (emit (EvGetSsl project id proxy err) s)).

Definition call_computeOperationWait (config : Config) (op : Operation)
    (project activity : string) : M (option error) :=
  λ s, let '(err, w) := computeOperationWait config op project activity (world s) in
       (Ok err, mkState (rd s) w (emit (EvWait op project activity err) s)).

Definition call_computeSharedOperationWait (config : Config) (op : Operation)
    (project activity : string) : M (option error) :=
  λ s, let '(err, w) := computeSharedOperationWait config op project activity (world s) in
       (Ok err, mkState (rd s) w (emit (EvSharedWait op project activity err) s)).

(** The error a lifecycle function returned ([None] is [nil]). *)
Definition returned (r : Result unit * State) : option error :=
  match r.1 with
  | Ok _ => None
  | Err e => Some e
  end.

Definition final (r : Result unit * State) : State := r.2.

End Provider.

Declare Scope go_scope.
Delimit Scope go_scope with go.
Notation "'let*' x := m 'in' k" := (bind m (λ x, k))
  (at level 10, x name, m at level 100, k at level 200) : go_scope.
Notation "'let*' x , y := m 'in' k" := (bind m (λ '(x, y), k))
  (at level 10, x name, y name, m at level 100, k at level 200) : go_scope.
Notation "m ;; k" := (bind m (λ _, k))
  (at level 100, right associativity) : go_scope.

Section Resources.
Context `{Externals}.
Local Open Scope go_scope.

(** ** Shared helpers *)

(** The loop of [expandSslCertificates]: [certs] is the slice built so far;
    the first element that does not parse ends the function with [nil] and
    the wrapped error. *)
Fixpoint expandSslCertificates_loop (d : ResourceData) (config : Config)
    (configured : list string) (certs : list string) : list string * option error :=
  match configured with
  | [] => (certs, None)
  | sslCertificate :: configured' =>
      let '(sslCertificateFieldValue, err) :=
        ParseSslCertificateFieldValue sslCertificate d config in
      match err with
      | Some err => ([], Some (fmt_Errorf "Invalid ssl certificate: " err))
      | None =>
          expandSslCertificates_loop d config configured'
            (certs ++ [RelativeLink sslCertificateFieldValue])
      end
  end.

Definition expandSslCertificates (d : ResourceData) (config : Config)
  : list string * option error :=
  let configured := Get_list d "ssl_certificates" in
  expandSslCertificates_loop d config configured [].

(** Modelled from the spec: [handleNotFoundError] is defined elsewhere in
    the provider.  The spec has it clear the local identity and report no
    error when the error of the fetch is classified as "not found", and
    otherwise surface the error wrapped with a short context string (the
    text of which is not specified; [resource] is the context the callers
    pass). *)
Definition handleNotFoundError (err : error) (resource : string) : M unit :=
  if isNotFound err then d_SetId ""
  else return_ (fmt_Errorf ("Error reading " +:+ resource +:+ ": ") err).

(** ** resource_compute_target_https_proxy.go

    The [log.Printf] lines have no counterpart: they change neither [d] nor
    the remote side. *)

Definition resourceComputeTargetHttpsProxy_Schema : gmap string Schema :=
  list_to_map [
    ("name", withForceNew (withRequired (schemaOf TypeString)));
    ("ssl_certificates",
      withElem TypeString (Some compareSelfLinkOrResourceName)
        (withRequired (schemaOf TypeList)));
    ("url_map",
      withDiffSuppress compareSelfLinkRelativePaths (withRequired (schemaOf TypeString)));
    ("ssl_policy",
      withDiffSuppress compareSelfLinkRelativePaths (withOptional (schemaOf TypeString)));
    ("description", withForceNew (withOptional (schemaOf TypeString)));
    ("self_link", withComputed (schemaOf TypeString));
    ("proxy_id", withComputed (schemaOf TypeString));
    ("project", withForceNew (withComputed (withOptional (schemaOf TypeString))))
  ].

Definition resourceComputeTargetHttpsProxyRead (meta : Config) : M unit :=
  let config := meta in
  let* project, err := withD (λ d, getProject d config) in
  returnIf err id ;;
  let* id_ := withD Id in
  let* proxy, err := call_HttpsGet config project id_ in
  match err with
  | Some err =>
      let* name := withD (λ d, Get_string d "name") in
      handleNotFoundError err ("Target HTTPS proxy " +:+ Sprintf_q name)
  | None =>
      onD (d_Set "ssl_certificates" (VList (TargetHttpsProxy.SslCertificates proxy))) ;;
      onD (d_Set "proxy_id" (VString (strconv_FormatUint (TargetHttpsProxy.Id proxy)))) ;;
      onD (d_Set "self_link" (VString (TargetHttpsProxy.SelfLink proxy))) ;;
      onD (d_Set "description" (VString (TargetHttpsProxy.Description proxy))) ;;
      onD (d_Set "url_map" (VString (TargetHttpsProxy.UrlMap proxy))) ;;
      onD (d_Set "name" (VString (TargetHttpsProxy.Name proxy))) ;;
      onD (d_Set "project" (VString project)) ;;
      onD (d_Set "ssl_policy" (VString (TargetHttpsProxy.SslPolicy proxy)))
  end.

Definition resourceComputeTargetHttpsProxyCreate (meta : Config) : M unit :=
  let config := meta in
  let* project, err := withD (λ d, getProject d config) in
  returnIf err id ;;
  let* sslCertificates, err := withD (λ d, expandSslCertificates d config) in
  returnIf err id ;;
  let* name := withD (λ d, Get_string d "name") in
  let* url_map := withD (λ d, Get_string d "url_map") in
  let proxy := TargetHttpsProxy.mk name url_map sslCertificates "" 0 "" "" in
  let* v, ok := withD (λ d, GetOk_string d "description") in
  let proxy := if ok then TargetHttpsProxy.withDescription v proxy else proxy in
  let* op, err := call_Do config (TargetHttpsProxies_Insert project proxy) in
  returnIf err (fmt_Errorf "Error creating TargetHttpsProxy: ") ;;
  let* err := call_computeOperationWait config op project "Creating Target Https Proxy" in
  returnIf err id ;;
  d_SetId (TargetHttpsProxy.Name proxy) ;;
  let* v, ok := withD (λ d, GetOk_string d "ssl_policy") in
  (if ok then
     (* [pol, err := ...]: this [err] is not tested; the next statement
        assigns it again *)
     let* pol, err := withD (λ d, ParseSslPolicyFieldValue v d config) in
     let* op, err :=
       call_Do config
         (TargetHttpsProxies_SetSslPolicy project (TargetHttpsProxy.Name proxy)
            (RelativeLink pol)) in
     returnIf err (errwrap_Wrapf "Error setting Target HTTPS Proxy SSL Policy: ") ;;
     let* waitErr :=
       call_computeSharedOperationWait config op project
         "Adding Target HTTPS Proxy SSL Policy" in
     returnIf waitErr id
   else ret tt) ;;
  resourceComputeTargetHttpsProxyRead meta.

Definition resourceComputeTargetHttpsProxyUpdate (meta : Config) : M unit :=
  let config := meta in
  let* project, err := withD (λ d, getProject d config) in
  returnIf err id ;;
  onD (Partial true) ;;
  let* changed := withD (λ d, HasChange d "url_map") in
  (if changed then
     let* url_map := withD (λ d, Get_string d "url_map") in
     let* id_ := withD Id in
     let* op, err := call_Do config (TargetHttpsProxies_SetUrlMap project id_ url_map) in
     returnIf err (fmt_Errorf "Error updating Target HTTPS proxy URL map: ") ;;
     let* err :=
       call_computeOperationWait config op project "Updating Target Https Proxy URL Map" in
     returnIf err id ;;
     onD (SetPartial "url_map")
   else ret tt) ;;
  let* changed := withD (λ d, HasChange d "ssl_certificates") in
  (if changed then
     let* certs, err := withD (λ d, expandSslCertificates d config) in
     returnIf err id ;;
     let* id_ := withD Id in
     let* op, err :=
       call_Do config (TargetHttpsProxies_SetSslCertificates project id_ certs) in
     returnIf err (fmt_Errorf "Error updating Target Https Proxy SSL Certificates: ") ;;
     let* err :=
       call_computeOperationWait config op project
         "Updating Target Https Proxy SSL certificates" in
     returnIf err id ;;
     (* the key is spelt ["ssl_certificate"] in the source *)
     onD (SetPartial "ssl_certificate")
   else ret tt) ;;
  let* changed := withD (λ d, HasChange d "ssl_policy") in
  (if changed then
     let* pol, err :=
       withD (λ d, ParseSslPolicyFieldValue (Get_string d "ssl_policy") d config) in
     returnIf err id ;;
     let* id_ := withD Id in
     let* op, err :=
       call_Do config (TargetHttpsProxies_SetSslPolicy project id_ (RelativeLink pol)) in
     returnIf err id ;;
     let* waitErr :=
       call_computeSharedOperationWait config op project
         "Updating Target HTTPS Proxy SSL Policy" in
     returnIf waitErr id
   else ret tt) ;;
  onD (Partial false) ;;
  resourceComputeTargetHttpsProxyRead meta.

Definition resourceComputeTargetHttpsProxyDelete (meta : Config) : M unit :=
  let config := meta in
  let* project, err := withD (λ d, getProject d config) in
  returnIf err id ;;
  let* id_ := withD Id in
  let* op, err := call_Do config (TargetHttpsProxies_Delete project id_) in
  returnIf err (fmt_Errorf "Error deleting TargetHttpsProxy: ") ;;
  let* err := call_computeOperationWait config op project "Deleting Target Https Proxy" in
  returnIf err id ;;
  d_SetId "".

(** ** resource_compute_target_ssl_proxy.go *)

Definition resourceComputeTargetSslProxy_Schema : gmap string Schema :=
  list_to_map [
    ("name", withForceNew (withRequired (schemaOf TypeString)));
    ("backend_service", withRequired (schemaOf TypeString));
    ("ssl_certificates",
      withElem TypeString (Some compareSelfLinkOrResourceName)
        (withMaxItems 1 (withRequired (schemaOf TypeList))));
    ("description", withForceNew (withOptional (schemaOf TypeString)));
    ("proxy_header", withDefault "NONE" (withOptional (schemaOf TypeString)));
    ("ssl_policy",
      withDiffSuppress compareSelfLinkRelativePaths (withOptional (schemaOf TypeString)));
    ("project", withForceNew (withComputed (withOptional (schemaOf TypeString))));
    ("proxy_id", withComputed (schemaOf TypeString));
    ("self_link", withComputed (schemaOf TypeString))
  ].

Definition resourceComputeTargetSslProxyRead (meta : Config) : M unit :=
  let config := meta in
  let* project, err := withD (λ d, getProject d config) in
  returnIf err id ;;
  let* id_ := withD Id in
  let* proxy, err := call_SslGet config project id_ in
  match err with
  | Some err =>
      let* name := withD (λ d, Get_string d "name") in
      handleNotFoundError err ("Target SSL Proxy " +:+ Sprintf_q name)
  | None =>
      onD (d_Set "name" (VString (TargetSslProxy.Name proxy))) ;;
      onD (d_Set "description" (VString (TargetSslProxy.Description proxy))) ;;
      onD (d_Set "proxy_header" (VString (TargetSslProxy.ProxyHeader proxy))) ;;
      onD (d_Set "backend_service" (VString (TargetSslProxy.Service proxy))) ;;
      onD (d_Set "ssl_certificates" (VList (TargetSslProxy.SslCertificates proxy))) ;;
      onD (d_Set "ssl_policy" (VString (TargetSslProxy.SslPolicy proxy))) ;;
      onD (d_Set "project" (VString project)) ;;
      onD (d_Set "self_link" (VString (TargetSslProxy.SelfLink proxy))) ;;
      onD (d_Set "proxy_id" (VString (strconv_FormatUint (TargetSslProxy.Id proxy))))
  end.

Definition resourceComputeTargetSslProxyCreate (meta : Config) : M unit :=
  let config := meta in
  let* project, err := withD (λ d, getProject d config) in
  returnIf err id ;;
  let* sslCertificates, err := withD (λ d, expandSslCertificates d config) in
  returnIf err id ;;
  let* name := withD (λ d, Get_string d "name") in
  let* backend_service := withD (λ d, Get_string d "backend_service") in
  let* proxy_header := withD (λ d, Get_string d "proxy_header") in
  let* description := withD (λ d, Get_string d "description") in
  let proxy :=
    TargetSslProxy.mk name backend_service proxy_header description sslCertificates
      0 "" "" in
  let* op, err := call_Do config (TargetSslProxies_Insert project proxy) in
  returnIf err (fmt_Errorf "Error creating TargetSslProxy: ") ;;
  let* err := call_computeOperationWait config op project "Creating Target Ssl Proxy" in
  returnIf err id ;;
  d_SetId (TargetSslProxy.Name proxy) ;;
  let* v, ok := withD (λ d, GetOk_string d "ssl_policy") in
  (if ok then
     (* as in the HTTPS proxy: the [err] of the parse is not tested *)
     let* pol, err := withD (λ d, ParseSslPolicyFieldValue v d config) in
     let* op, err :=
       call_Do config
         (TargetSslProxies_SetSslPolicy project (TargetSslProxy.Name proxy)
            (RelativeLink pol)) in
     returnIf err (errwrap_Wrapf "Error setting SSL Policy: ") ;;
     let* waitErr :=
       call_computeSharedOperationWait config op project
         "Adding Target SSL Proxy SSL Policy" in
     returnIf waitErr id
   else ret tt) ;;
  resourceComputeTargetSslProxyRead meta.

Definition resourceComputeTargetSslProxyUpdate (meta : Config) : M unit :=
  let config := meta in
  let* project, err := withD (λ d, getProject d config) in
  returnIf err id ;;
  onD (Partial true) ;;
  let* changed := withD (λ d, HasChange d "proxy_header") in
  (if changed then
     let* proxyHeader := withD (λ d, Get_string d "proxy_header") in
     let* id_ := withD Id in
     let* op, err :=
       call_Do config (TargetSslProxies_SetProxyHeader project id_ proxyHeader) in
     returnIf err (fmt_Errorf "Error updating proxy_header: ") ;;
     let* err := call_computeOperationWait config op project "Updating Target SSL Proxy" in
     returnIf err id ;;
     onD (SetPartial "proxy_header")
   else ret tt) ;;
  let* changed := withD (λ d, HasChange d "backend_service") in
  (if changed then
     let* id_ := withD Id in
     let* service := withD (λ d, Get_string d "backend_service") in
     let* op, err :=
       call_Do config (TargetSslProxies_SetBackendService project id_ service) in
     returnIf err (fmt_Errorf "Error updating backend_service: ") ;;
     let* err := call_computeOperationWait config op project "Updating Target SSL Proxy" in
     returnIf err id ;;
     onD (SetPartial "backend_service")
   else ret tt) ;;
  let* changed := withD (λ d, HasChange d "ssl_certificates") in
  (if changed then
     let* sslCertificates, err := withD (λ d, expandSslCertificates d config) in
     returnIf err id ;;
     let* id_ := withD Id in
     let* op, err :=
       call_Do config (TargetSslProxies_SetSslCertificates project id_ sslCertificates) in
     returnIf err (fmt_Errorf "Error updating backend_service: ") ;;
     let* err := call_computeOperationWait config op project "Updating Target SSL Proxy" in
     returnIf err id ;;
     onD (SetPartial "ssl_certificates")
   else ret tt) ;;
  let* changed := withD (λ d, HasChange d "ssl_policy") in
  (if changed then
     let* pol, err :=
       withD (λ d, ParseSslPolicyFieldValue (Get_string d "ssl_policy") d config) in
     returnIf err id ;;
     let* id_ := withD Id in
     let* op, err :=
       call_Do config (TargetSslProxies_SetSslPolicy project id_ (RelativeLink pol)) in
     returnIf err id ;;
     let* waitErr :=
       call_computeSharedOperationWait config op project
         "Updating Target SSL Proxy SSL Policy" in
     returnIf waitErr id
   else ret tt) ;;
  onD (Partial false) ;;
  resourceComputeTargetSslProxyRead meta.

Definition resourceComputeTargetSslProxyDelete (meta : Config) : M unit :=
  let config := meta in
  let* project, err := withD (λ d, getProject d config) in
  returnIf err id ;;
  let* id_ := withD Id in
  let* op, err := call_Do config (TargetSslProxies_Delete project id_) in
  returnIf err (fmt_Errorf "Error deleting TargetSslProxy: ") ;;
  let* err := call_computeOperationWait config op project "Deleting Target SSL Proxy" in
  returnIf err id ;;
  d_SetId "".

End Resources.

(** ** A reference implementation of the interface

    An in-memory remote side with scripted refusals, used to run the
    lifecycle functions on concrete declarations. *)
Module Sim.

Record remote : Type := mkRemote {
  httpsProxies : gmap (string * string) TargetHttpsProxy.t;
  sslProxies : gmap (string * string) TargetSslProxy.t;
  nextId : N
}.

(** The provider configuration: the default project, the references the
    parsers refuse, the requests the API rejects, and the requests whose
    operation ends in failure. *)
Record config : Type := mkConfig {
  Project : string;
  malformed : string → bool;
  rejects : Request → option error;
  opFails : Request → option error
}.

Definition emptyRemote : remote := mkRemote ∅ ∅ 1.

Definition resolveProject (d : ResourceData) (c : config) : string * option error :=
  let '(res, ok) := GetOk_string d "project" in
  if ok then (res, None)
  else if bool_decide (Project c = "")
       then ("", Some (errorString "project: required field is not set"))
       else (Project c, None).

(** A reference is kept when it already is a relative path and is
    completed with the project otherwise. *)
Definition parseGlobal (resourceType : string) (v : string) (d : ResourceData) (c : config)
  : string * option error :=
  if malformed c v
  then ("", Some (errorString ("Invalid " +:+ resourceType +:+ " reference: " +:+ v)))
  else if String.prefix "projects/" v then (v, None)
  else
    let '(project, err) := resolveProject d c in
    match err with
    | Some e => ("", Some e)
    | None => ("projects/" +:+ project +:+ "/global/" +:+ resourceType +:+ "/" +:+ v, None)
    end.

Definition selfLink (project collection name : string) : string :=
  "https://www.googleapis.com/compute/v1/projects/" +:+ project
    +:+ "/global/" +:+ collection +:+ "/" +:+ name.

Definition notFound : error := apiError 404 "googleapi: Error 404: not found".

Definition alterHttps (project id : string) (f : TargetHttpsProxy.t → TargetHttpsProxy.t)
    (w : remote) : option error * remote :=
  match httpsProxies w !! (project, id) with
  | Some p => (None, mkRemote (<[(project, id) := f p]> (httpsProxies w)) (sslProxies w) (nextId w))
  | None => (Some notFound, w)
  end.

Definition alterSsl (project id : string) (f : TargetSslProxy.t → TargetSslProxy.t)
    (w : remote) : option error * remote :=
  match sslProxies w !! (project, id) with
  | Some p => (None, mkRemote (httpsProxies w) (<[(project, id) := f p]> (sslProxies w)) (nextId w))
  | None => (Some notFound, w)
  end.

Definition apply (req : Request) (w : remote) : option error * remote :=
  match req with
  | TargetHttpsProxies_Insert project p =>
      let name := TargetHttpsProxy.Name p in
      match httpsProxies w !! (project, name) with
      | Some _ => (Some (apiError 409 "googleapi: Error 409: already exists"), w)
      | None =>
          let p' := TargetHttpsProxy.mk name (TargetHttpsProxy.UrlMap p)
                      (TargetHttpsProxy.SslCertificates p) (TargetHttpsProxy.Description p)
                      (nextId w) (selfLink project "targetHttpsProxies" name) "" in
          (None, mkRemote (<[(project, name) := p']> (httpsProxies w)) (sslProxies w)
                         (N.succ (nextId w)))
      end
  | TargetHttpsProxies_SetUrlMap project id v =>
      alterHttps project id (λ p,
        TargetHttpsProxy.mk (TargetHttpsProxy.Name p) v (TargetHttpsProxy.SslCertificates p)
          (TargetHttpsProxy.Description p) (TargetHttpsProxy.Id p)
          (TargetHttpsProxy.SelfLink p) (TargetHttpsProxy.SslPolicy p)) w
  | TargetHttpsProxies_SetSslCertificates project id v =>
      alterHttps project id (λ p,
        TargetHttpsProxy.mk (TargetHttpsProxy.Name p) (TargetHttpsProxy.UrlMap p) v
          (TargetHttpsProxy.Description p) (TargetHttpsProxy.Id p)
          (TargetHttpsProxy.SelfLink p) (TargetHttpsProxy.SslPolicy p)) w
  | TargetHttpsProxies_SetSslPolicy project id v =>
      alterHttps project id (λ p,
        TargetHttpsProxy.mk (TargetHttpsProxy.Name p) (TargetHttpsProxy.UrlMap p)
          (TargetHttpsProxy.SslCertificates p) (TargetHttpsProxy.Description p)
          (TargetHttpsProxy.Id p) (TargetHttpsProxy.SelfLink p) v) w
  | TargetHttpsProxies_Delete project id =>
      match httpsProxies w !! (project, id) with
      | Some _ => (None, mkRemote (delete (project, id) (httpsProxies w)) (sslProxies w) (nextId w))
      | None => (Some notFound, w)
      end
  | TargetSslProxies_Insert project p =>
      let name := TargetSslProxy.Name p in
      match sslProxies w !! (project, name) with
      | Some _ => (Some (apiError 409 "googleapi: Error 409: already exists"), w)
      | None =>
          let p' := TargetSslProxy.mk name (TargetSslProxy.Service p)
                      (TargetSslProxy.ProxyHeader p) (TargetSslProxy.Description p)
                      (TargetSslProxy.SslCertificates p)
                      (nextId w) (selfLink project "targetSslProxies" name) "" in
          (None, mkRemote (httpsProxies w) (<[(project, name) := p']> (sslProxies w))
                         (N.succ (nextId w)))
      end
  | TargetSslProxies_SetProxyHeader project id v =>
      alterSsl project id (λ p,
        TargetSslProxy.mk (TargetSslProxy.Name p) (TargetSslProxy.Service p) v
          (TargetSslProxy.Description p) (TargetSslProxy.SslCertificates p)
          (TargetSslProxy.Id p) (TargetSslProxy.SelfLink p) (TargetSslProxy.SslPolicy p)) w
  | TargetSslProxies_SetBackendService project id v =>
      alterSsl project id (λ p,
        TargetSslProxy.mk (TargetSslProxy.Name p) v (TargetSslProxy.ProxyHeader p)
          (TargetSslProxy.Description p) (TargetSslProxy.SslCertificates p)
          (TargetSslProxy.Id p) (TargetSslProxy.SelfLink p) (TargetSslProxy.SslPolicy p)) w
  | TargetSslProxies_SetSslCertificates project id v =>
      alterSsl project id (λ p,
        TargetSslProxy.mk (TargetSslProxy.Name p) (TargetSslProxy.Service p)
          (TargetSslProxy.ProxyHeader p) (TargetSslProxy.Description p) v
          (TargetSslProxy.Id p) (TargetSslProxy.SelfLink p) (TargetSslProxy.SslPolicy p)) w
  | TargetSslProxies_SetSslPolicy project id v =>
      alterSsl project id (λ p,
        TargetSslProxy.mk (TargetSslProxy.Name p) (TargetSslProxy.Service p)
          (TargetSslProxy.ProxyHeader p) (TargetSslProxy.Description p)
          (TargetSslProxy.SslCertificates p)
          (TargetSslProxy.Id p) (TargetSslProxy.SelfLink p) v) w
  | TargetSslProxies_Delete project id =>
      match sslProxies w !! (project, id) with
      | Some _ => (None, mkRemote (httpsProxies w) (delete (project, id) (sslProxies w)) (nextId w))
      | None => (Some notFound, w)
      end
  end.

(** An operation handle remembers its request; [None] is the [nil]
    handle that comes with an error. *)
Definition send (c : config) (req : Request) (w : remote)
  : (option Request * option error) * remote :=
  match rejects c req with
  | Some e => (None, Some e, w)
  | None =>
      match apply req w with
      | (Some e, w') => (None, Some e, w')
      | (None, w') => (Some req, None, w')
      end
  end.

Definition wait (c : config) (op : option Request) (project activity : string) (w : remote)
  : option error * remote :=
  match op with
  | Some req => (opFails c req, w)
  | None => (Some (errorString "nil operation"), w)
  end.

Definition zeroHttps : TargetHttpsProxy.t := TargetHttpsProxy.mk "" "" [] "" 0 "" "".
Definition zeroSsl : TargetSslProxy.t := TargetSslProxy.mk "" "" "" "" [] 0 "" "".

Definition getHttps (c : config) (project id : string) (w : remote)
  : (TargetHttpsProxy.t * option error) * remote :=
  match httpsProxies w !! (project, id) with
  | Some p => (p, None, w)
  | None => (zeroHttps, Some notFound, w)
  end.

Definition getSsl (c : config) (project id : string) (w : remote)
  : (TargetSslProxy.t * option error) * remote :=
  match sslProxies w !! (project, id) with
  | Some p => (p, None, w)
  | None => (zeroSsl, Some notFound, w)
  end.

Definition is404 (e : error) : bool :=
  match e with
  | apiError code _ => bool_decide (code = 404%Z)
  | _ => false
  end.

Definition quote : string := String (Ascii.ascii_of_nat 34) EmptyString.

#[export] Instance externals : Externals := {|
  World := remote;
  Config := config;
  Operation := option Request;
  FieldValue := string;
  getProject := resolveProject;
  ParseSslCertificateFieldValue := parseGlobal "sslCertificates";
  ParseSslPolicyFieldValue := parseGlobal "sslPolicies";
  RelativeLink := λ fv, fv;
  Do := send;
  TargetHttpsProxies_Get := getHttps;
  TargetSslProxies_Get := getSsl;
  computeOperationWait := wait;
  computeSharedOperationWait := wait;
  isNotFound := is404;
  Sprintf_q := λ s, quote +:+ s +:+ quote
|}.

(** A declaration: nothing known yet, the given fields declared. *)
Definition declare (fields : list (string * Value)) : ResourceData :=
  mkResourceData ∅ (list_to_map fields) ∅ "" false ∅.

(** The resource data the framework hands to Update: the last-known
    state, the new declaration, and the identity. *)
Definition redeclare (old : list (string * Value)) (new : gmap string Value)
    (id : string) : ResourceData :=
  mkResourceData (list_to_map old) new ∅ id false ∅.

Definition defaultConfig : config :=
  mkConfig "my-project" (λ _, false) (λ _, None) (λ _, None).

Definition run (m : M unit) (d : ResourceData) (w : remote) : Result unit * State :=
  m (mkState d w []).

(** *** Declarations and configurations to run *)

Definition httpsFields (ssl_certificates : list string) (ssl_policy : string)
  : list (string * Value) :=
  [("name", VString "px"); ("url_map", VString "um");
   ("ssl_certificates", VList ssl_certificates);
   ("ssl_policy", VString ssl_policy)].

Definition sslFields (proxy_header backend_service : string)
    (ssl_certificates : list string) (ssl_policy : string) : list (string * Value) :=
  [("name", VString "sx"); ("backend_service", VString backend_service);
   ("proxy_header", VString proxy_header);
   ("ssl_certificates", VList ssl_certificates);
   ("ssl_policy", VString ssl_policy)].

(** Two certificates, one by name and one by path, and a policy. *)
Definition httpsDecl : ResourceData :=
  declare (httpsFields ["c1"; "projects/p/global/sslCertificates/c2"] "pol").

Definition sslDecl : ResourceData :=
  declare (sslFields "NONE" "be" ["c1"] "pol").

(** No certificate at all. *)
Definition httpsNoCerts : ResourceData := declare (httpsFields [] "").
Definition sslNoCerts : ResourceData := declare (sslFields "NONE" "be" [] "").

(** A policy reference the parser refuses. *)
Definition httpsBadPolicy : ResourceData := declare (httpsFields ["c1"] "bad policy").
Definition sslBadPolicy : ResourceData := declare (sslFields "NONE" "be" ["c1"] "bad policy").

Definition refusesBadPolicy : config :=
  mkConfig "my-project" (λ v, bool_decide (v = "bad policy")) (λ _, None) (λ _, None).

(** The API rejects every change of the backend service. *)
Definition rejectsBackend : config :=
  mkConfig "my-project" (λ _, false)
    (λ req, match req with
            | TargetSslProxies_SetBackendService _ _ _ =>
                Some (apiError 400 "googleapi: Error 400: invalid backend service")
            | _ => None
            end)
    (λ _, None).

(** The remote side after the two proxies were created. *)
Definition created : remote :=
  world (final (run (resourceComputeTargetSslProxyCreate defaultConfig) sslDecl
    (world (final (run (resourceComputeTargetHttpsProxyCreate defaultConfig) httpsDecl
       emptyRemote))))).

(** Resource data for Update: the state as Read left it, and a new
    declaration. *)
Definition sslRead : list (string * Value) :=
  [("name", VString "sx"); ("backend_service", VString "be");
   ("proxy_header", VString "NONE");
   ("ssl_certificates", VList ["projects/my-project/global/sslCertificates/c1"]);
   ("ssl_policy", VString "projects/my-project/global/sslPolicies/pol");
   ("project", VString "my-project")].

Definition httpsRead : list (string * Value) :=
  [("name", VString "px"); ("url_map", VString "um");
   ("ssl_certificates",
     VList ["projects/my-project/global/sslCertificates/c1";
            "projects/p/global/sslCertificates/c2"]);
   ("ssl_policy", VString "projects/my-project/global/sslPolicies/pol");
   ("project", VString "my-project")].

(** Only [proxy_header] differs. *)
Definition sslNewHeader : ResourceData :=
  redeclare sslRead (<["proxy_header" := VString "PROXY_V1"]> (list_to_map sslRead)) "sx".

(** [proxy_header] and [backend_service] differ. *)
Definition sslNewHeaderAndBackend : ResourceData :=
  redeclare sslRead
    (<["backend_service" := VString "be2"]>
       (<["proxy_header" := VString "PROXY_V1"]> (list_to_map sslRead))) "sx".

(** Only [url_map] differs. *)
Definition httpsNewUrlMap : ResourceData :=
  redeclare httpsRead (<["url_map" := VString "um2"]> (list_to_map httpsRead)) "px".

(** The API rejects every change of the security policy. *)
Definition rejectsPolicy : config :=
  mkConfig "my-project" (λ _, false)
    (λ req, if isSetSslPolicy req
            then Some (apiError 400 "googleapi: Error 400: invalid policy")
            else None)
    (λ _, None).

(** [ssl_certificates] and [ssl_policy] differ. *)
Definition httpsNewCertsAndPolicy : ResourceData :=
  redeclare httpsRead
    (<["ssl_policy" := VString "pol2"]>
       (<["ssl_certificates" := VList ["c3"]]> (list_to_map httpsRead))) "px".

(** Nothing differs. *)
Definition sslSame : ResourceData := redeclare sslRead (list_to_map sslRead) "sx".
Definition httpsSame : ResourceData := redeclare httpsRead (list_to_map httpsRead) "px".

(** A certificate reference the parser refuses. *)
Definition refusesBadCert : config :=
  mkConfig "my-project" (λ v, bool_decide (v = "bad cert")) (λ _, None) (λ _, None).

Definition httpsBadCert : ResourceData :=
  declare (httpsFields ["c1"; "bad cert"; "c3"] "").

(** No default project. *)
Definition noProject : config := mkConfig "" (λ _, false) (λ _, None) (λ _, None).

(** The API rejects every change of the certificates. *)
Definition rejectsCertificates : config :=
  mkConfig "my-project" (λ _, false)
    (λ req, match req with
            | TargetHttpsProxies_SetSslCertificates _ _ _
            | TargetSslProxies_SetSslCertificates _ _ _ =>
                Some (apiError 400 "googleapi: Error 400: invalid certificate")
            | _ => None
            end)
    (λ _, None).

(** Only [ssl_certificates] differs. *)
Definition sslNewCerts : ResourceData :=
  redeclare sslRead (<["ssl_certificates" := VList ["c9"]]> (list_to_map sslRead)) "sx".

(** [url_map] (or [proxy_header]) differs, and the new certificate list
    has a reference the parser refuses. *)
Definition httpsNewUrlMapBadCert : ResourceData :=
  redeclare httpsRead
    (<["ssl_certificates" := VList ["bad cert"]]>
       (<["url_map" := VString "um2"]> (list_to_map httpsRead))) "px".

Definition sslNewHeaderBadCert : ResourceData :=
  redeclare sslRead
    (<["ssl_certificates" := VList ["bad cert"]]>
       (<["proxy_header" := VString "PROXY_V1"]> (list_to_map sslRead))) "sx".

(** Only [ssl_policy] differs, and the parser refuses the new reference. *)
Definition httpsNewBadPolicy : ResourceData :=
  redeclare httpsRead (<["ssl_policy" := VString "bad policy"]> (list_to_map httpsRead)) "px".

Definition sslNewBadPolicy : ResourceData :=
  redeclare sslRead (<["ssl_policy" := VString "bad policy"]> (list_to_map sslRead)) "sx".

(** The API rejects every change of the proxy header. *)
Definition rejectsHeader : config :=
  mkConfig "my-project" (λ _, false)
    (λ req, match req with
            | TargetSslProxies_SetProxyHeader _ _ _ =>
                Some (apiError 400 "googleapi: Error 400: invalid proxy header")
            | _ => None
            end)
    (λ _, None).

(** A remote side that answers a fetch of an HTTPS proxy with its
    certificate references as self links, whatever form the insert call
    had them in. *)
Definition asSelfLink (v : string) : string :=
  "https://www.googleapis.com/compute/v1/" +:+ v.

Definition getHttpsSelfLinks (c : config) (project id : string) (w : remote)
  : (TargetHttpsProxy.t * option error) * remote :=
  match httpsProxies w !! (project, id) with
  | Some p =>
      (TargetHttpsProxy.mk (TargetHttpsProxy.Name p) (TargetHttpsProxy.UrlMap p)
         (map asSelfLink (TargetHttpsProxy.SslCertificates p))
         (TargetHttpsProxy.Description p) (TargetHttpsProxy.Id p)
         (TargetHttpsProxy.SelfLink p) (TargetHttpsProxy.SslPolicy p), None, w)
  | None => (zeroHttps, Some notFound, w)
  end.

Definition answersSelfLinks : Externals := {|
  World := remote;
  Config := config;
  Operation := option Request;
  FieldValue := string;
  getProject := resolveProject;
  ParseSslCertificateFieldValue := parseGlobal "sslCertificates";
  ParseSslPolicyFieldValue := parseGlobal "sslPolicies";
  RelativeLink := λ fv, fv;
  Do := send;
  TargetHttpsProxies_Get := getHttpsSelfLinks;
  TargetSslProxies_Get := getSsl;
  computeOperationWait := wait;
  computeSharedOperationWait := wait;
  isNotFound := is404;
  Sprintf_q := λ s, quote +:+ s +:+ quote
|}.

End Sim.

(** ** Notions the properties are stated with *)

Section Notions.
Context `{Externals}.

(** A lifecycle function is entered with an empty trace. *)
Definition start (d : ResourceData) (w : World) : State := mkState d w [].

(** The calls of a trace that change the remote side, in order. *)
Fixpoint requests (tr : list Event) : list Request :=
  match tr with
  | [] => []
  | EvDo req _ _ :: tr' => req :: requests tr'
  | _ :: tr' => requests tr'
  end.

(** The policy-attach calls of a trace. *)
Definition attachCalls (tr : list Event) : list Request :=
  List.filter isSetSslPolicy (requests tr).

(** The error that came back with a call, if any. *)
Definition failure (ev : Event) : option error :=
  match ev with
  | EvDo _ _ err | EvGetHttps _ _ _ err | EvGetSsl _ _ _ err
  | EvWait _ _ _ err | EvSharedWait _ _ _ err => err
  | EvSetId _ => None
  end.

(** The fetches of a trace. *)
Definition isGet (ev : Event) : bool :=
  match ev with
  | EvGetHttps _ _ _ _ | EvGetSsl _ _ _ _ => true
  | _ => false
  end.

(** [e'] carries the text of [e]: it is [e] itself or [e] behind a context
    string. *)
Definition surfaces (e e' : error) : Prop :=
  ∃ context : string, Error e' = context +:+ Error e.

(** The canonical form of a declared certificate reference. *)
Definition canonical (d : ResourceData) (config : Config) (sslCertificate : string) : string :=
  RelativeLink (ParseSslCertificateFieldValue sslCertificate d config).1.

(** What Read writes for a fetched HTTPS proxy. *)
Definition readHttps (project : string) (proxy : TargetHttpsProxy.t) (d : ResourceData)
  : ResourceData :=
  d_Set "ssl_policy" (VString (TargetHttpsProxy.SslPolicy proxy))
  (d_Set "project" (VString project)
  (d_Set "name" (VString (TargetHttpsProxy.Name proxy))
  (d_Set "url_map" (VString (TargetHttpsProxy.UrlMap proxy))
  (d_Set "description" (VString (TargetHttpsProxy.Description proxy))
  (d_Set "self_link" (VString (TargetHttpsProxy.SelfLink proxy))
  (d_Set "proxy_id" (VString (strconv_FormatUint (TargetHttpsProxy.Id proxy)))
  (d_Set "ssl_certificates" (VList (TargetHttpsProxy.SslCertificates proxy)) d))))))).

(** What Read writes for a fetched SSL proxy. *)
Definition readSsl (project : string) (proxy : TargetSslProxy.t) (d : ResourceData)
  : ResourceData :=
  d_Set "proxy_id" (VString (strconv_FormatUint (TargetSslProxy.Id proxy)))
  (d_Set "self_link" (VString (TargetSslProxy.SelfLink proxy))
  (d_Set "project" (VString project)
  (d_Set "ssl_policy" (VString (TargetSslProxy.SslPolicy proxy))
  (d_Set "ssl_certificates" (VList (TargetSslProxy.SslCertificates proxy))
  (d_Set "backend_service" (VString (TargetSslProxy.Service proxy))
  (d_Set "proxy_header" (VString (TargetSslProxy.ProxyHeader proxy))
  (d_Set "description" (VString (TargetSslProxy.Description proxy))
  (d_Set "name" (VString (TargetSslProxy.Name proxy)) d)))))))).

(** Local state and a remote HTTPS proxy agree field for field. *)
Definition httpsAgrees (d : ResourceData) (project : string) (proxy : TargetHttpsProxy.t)
  : Prop :=
  Get_string d "name" = TargetHttpsProxy.Name proxy
  ∧ Get_string d "description" = TargetHttpsProxy.Description proxy
  ∧ Get_string d "url_map" = TargetHttpsProxy.UrlMap proxy
  ∧ Get_list d "ssl_certificates" = TargetHttpsProxy.SslCertificates proxy
  ∧ Get_string d "ssl_policy" = TargetHttpsProxy.SslPolicy proxy
  ∧ Get_string d "proxy_id" = strconv_FormatUint (TargetHttpsProxy.Id proxy)
  ∧ Get_string d "self_link" = TargetHttpsProxy.SelfLink proxy
  ∧ Get_string d "project" = project.

(** Local state and a remote SSL proxy agree field for field. *)
Definition sslAgrees (d : ResourceData) (project : string) (proxy : TargetSslProxy.t)
  : Prop :=
  Get_string d "name" = TargetSslProxy.Name proxy
  ∧ Get_string d "description" = TargetSslProxy.Description proxy
  ∧ Get_string d "proxy_header" = TargetSslProxy.ProxyHeader proxy
  ∧ Get_string d "backend_service" = TargetSslProxy.Service proxy
  ∧ Get_list d "ssl_certificates" = TargetSslProxy.SslCertificates proxy
  ∧ Get_string d "ssl_policy" = TargetSslProxy.SslPolicy proxy
  ∧ Get_string d "proxy_id" = strconv_FormatUint (TargetSslProxy.Id proxy)
  ∧ Get_string d "self_link" = TargetSslProxy.SelfLink proxy
  ∧ Get_string d "project" = project.

(** The fields Read writes. *)
Definition httpsReadKeys : list string :=
  ["ssl_certificates"; "proxy_id"; "self_link"; "description"; "url_map"; "name";
   "project"; "ssl_policy"].

Definition sslReadKeys : list string :=
  ["name"; "description"; "proxy_header"; "backend_service"; "ssl_certificates";
   "ssl_policy"; "project"; "self_link"; "proxy_id"].

(** The proxy Create sends for a declaration [d] with expanded certificate
    references [sslCertificates]. *)
Definition httpsProxyOf (d : ResourceData) (sslCertificates : list string)
  : TargetHttpsProxy.t :=
  let proxy :=
    TargetHttpsProxy.mk (Get_string d "name") (Get_string d "url_map") sslCertificates
      "" 0 "" "" in
  let '(v, ok) := GetOk_string d "description" in
  if ok then TargetHttpsProxy.withDescription v proxy else proxy.

Definition sslProxyOf (d : ResourceData) (sslCertificates : list string)
  : TargetSslProxy.t :=
  TargetSslProxy.mk (Get_string d "name") (Get_string d "backend_service")
    (Get_string d "proxy_header") (Get_string d "description") sslCertificates 0 "" "".

(** The state in which Create goes on after the insert call [req] was
    answered with [op] and the wait for [op] ended well in [w2]. *)
Definition afterInsert (s : State) (req : Request) (op : Operation)
    (project activity name : string) (w2 : World) : State :=
  mkState (SetId name (rd s)) w2
    (trace s ++ [EvDo req op None; EvWait op project activity None; EvSetId name]).

(** Every fetch of the trace found the remote object. *)
Definition fetchFound (ev : Event) : bool :=
  match ev with
  | EvGetHttps _ _ _ (Some _) | EvGetSsl _ _ _ (Some _) => false
  | _ => true
  end.

Definition fetchesSucceed (tr : list Event) : Prop := forallb fetchFound tr = true.

(** The remote side answers a fetch with the certificate references it was
    sent in the insert call. *)
Definition httpsEchoAt (sslCertificates : list string) (ev : Event) : bool :=
  match ev with
  | EvGetHttps _ _ fetched None =>
      bool_decide (TargetHttpsProxy.SslCertificates fetched = sslCertificates)
  | _ => true
  end.

Definition httpsEchoes (tr : list Event) : Prop :=
  forallb (λ req, match req with
                  | TargetHttpsProxies_Insert _ proxy =>
                      forallb (httpsEchoAt (TargetHttpsProxy.SslCertificates proxy)) tr
                  | _ => true
                  end) (requests tr) = true.

Definition sslEchoAt (sslCertificates : list string) (ev : Event) : bool :=
  match ev with
  | EvGetSsl _ _ fetched None =>
      bool_decide (TargetSslProxy.SslCertificates fetched = sslCertificates)
  | _ => true
  end.

Definition sslEchoes (tr : list Event) : Prop :=
  forallb (λ req, match req with
                  | TargetSslProxies_Insert _ proxy =>
                      forallb (sslEchoAt (TargetSslProxy.SslCertificates proxy)) tr
                  | _ => true
                  end) (requests tr) = true.

(** The state at the end of a cycle: the last fetch found the remote
    object and local state agrees with it field for field, or the last
    fetch was answered "not found" and the local identity is cleared. *)
Definition httpsReconciled (st : State) : Prop :=
  (∃ tr project id proxy,
      trace st = tr ++ [EvGetHttps project id proxy None]
      ∧ httpsAgrees (rd st) project proxy)
  ∨ (∃ tr project id proxy e,
      isNotFound e = true
      ∧ trace st = tr ++ [EvGetHttps project id proxy (Some e); EvSetId ""]
      ∧ Id (rd st) = "").

Definition sslReconciled (st : State) : Prop :=
  (∃ tr project id proxy,
      trace st = tr ++ [EvGetSsl project id proxy None]
      ∧ sslAgrees (rd st) project proxy)
  ∨ (∃ tr project id proxy e,
      isNotFound e = true
      ∧ trace st = tr ++ [EvGetSsl project id proxy (Some e); EvSetId ""]
      ∧ Id (rd st) = "").

(** The calls Update has to issue for a declaration [d], one per field
    group whose declared value differs from the last-known one, in the
    order of the code.  The reference parsers see [d] as it is when they
    are called: in partial mode, with the keys recorded so far. *)
Definition httpsUpdateRequests (meta : Config) (d : ResourceData) (project : string)
  : list Request :=
  let d1 := Partial true d in
  let d2 := if HasChange d "url_map" then SetPartial "url_map" d1 else d1 in
  let d3 := if HasChange d "ssl_certificates" then SetPartial "ssl_certificate" d2 else d2 in
  (if HasChange d "url_map"
   then [TargetHttpsProxies_SetUrlMap project (Id d) (Get_string d "url_map")] else [])
  ++ (if HasChange d "ssl_certificates"
      then [TargetHttpsProxies_SetSslCertificates project (Id d)
              (expandSslCertificates d2 meta).1] else [])
  ++ (if HasChange d "ssl_policy"
      then [TargetHttpsProxies_SetSslPolicy project (Id d)
              (RelativeLink
                 (ParseSslPolicyFieldValue (Get_string d "ssl_policy") d3 meta).1)]
      else []).

Definition sslUpdateRequests (meta : Config) (d : ResourceData) (project : string)
  : list Request :=
  let d1 := Partial true d in
  let d2 := if HasChange d "proxy_header" then SetPartial "proxy_header" d1 else d1 in
  let d3 := if HasChange d "backend_service" then SetPartial "backend_service" d2 else d2 in
  let d4 := if HasChange d "ssl_certificates" then SetPartial "ssl_certificates" d3 else d3 in
  (if HasChange d "proxy_header"
   then [TargetSslProxies_SetProxyHeader project (Id d) (Get_string d "proxy_header")]
   else [])
  ++ (if HasChange d "backend_service"
      then [TargetSslProxies_SetBackendService project (Id d)
              (Get_string d "backend_service")] else [])
  ++ (if HasChange d "ssl_certificates"
      then [TargetSslProxies_SetSslCertificates project (Id d)
              (expandSslCertificates d3 meta).1] else [])
  ++ (if HasChange d "ssl_policy"
      then [TargetSslProxies_SetSslPolicy project (Id d)
              (RelativeLink
                 (ParseSslPolicyFieldValue (Get_string d "ssl_policy") d4 meta).1)]
      else []).

(** The field group a call of Update belongs to. *)
Definition groupOf (req : Request) : option string :=
  match req with
  | TargetHttpsProxies_SetUrlMap _ _ _ => Some "url_map"
  | TargetSslProxies_SetProxyHeader _ _ _ => Some "proxy_header"
  | TargetSslProxies_SetBackendService _ _ _ => Some "backend_service"
  | TargetHttpsProxies_SetSslCertificates _ _ _
  | TargetSslProxies_SetSslCertificates _ _ _ => Some "ssl_certificates"
  | TargetHttpsProxies_SetSslPolicy _ _ _
  | TargetSslProxies_SetSslPolicy _ _ _ => Some "ssl_policy"
  | _ => None
  end.

(** The call or wait was answered without an error. *)
Definition succeeded (ev : Event) : Prop := failure ev = None.

(** [d] as Update hands it to the final Read: partial mode switched on and
    off again, the recorded keys dropped. *)
Definition resetPartial (d : ResourceData) : ResourceData := Partial false (Partial true d).

(** The three ways Update ends once the project is resolved: in Read,
    after every changed group was updated; at the first call or wait that
    is answered with an error; at a reference that does not parse.
    [expected] are the calls the declaration asks for and [read] is the
    Read of the resource. *)
Definition updateOutcome (read : State → Result unit * State) (expected : list Request)
    (d : ResourceData) (r : Result unit * State) : Prop :=
  (∃ s', r = read s'
         ∧ requests (trace s') = expected
         ∧ Forall succeeded (trace s')
         ∧ rd s' = resetPartial d)
  ∨ (∃ tr1 ev e e',
       trace (final r) = tr1 ++ [ev]
       ∧ Forall succeeded tr1
       ∧ failure ev = Some e ∧ isGet ev = false
       ∧ returned r = Some e' ∧ surfaces e e'
       ∧ requests (tr1 ++ [ev]) `prefix_of` expected
       ∧ rd_partial (rd (final r)) = true)
  ∨ (∃ e, returned r = Some e
       ∧ Forall succeeded (trace (final r))
       ∧ requests (trace (final r)) `prefix_of` expected
       ∧ rd_partial (rd (final r)) = true).

(** The field groups Update looks at, by key. *)
Definition httpsGroups : list string := ["url_map"; "ssl_certificates"; "ssl_policy"].

Definition sslGroups : list string :=
  ["proxy_header"; "backend_service"; "ssl_certificates"; "ssl_policy"].

(** A call of the group of [key] was issued. *)
Definition issued (key : string) (tr : list Event) : Prop :=
  ∃ req, req ∈ requests tr ∧ groupOf req = Some key.

(** The calls Create has to issue for a declaration [d]: the insert call,
    and the policy-attach call when a security policy is declared.  The
    policy reference is parsed after the identity was set. *)
Definition httpsCreateRequests (meta : Config) (d : ResourceData) : list Request :=
  let project := (getProject d meta).1 in
  let name := Get_string d "name" in
  let '(v, ok) := GetOk_string d "ssl_policy" in
  TargetHttpsProxies_Insert project (httpsProxyOf d (expandSslCertificates d meta).1)
  :: (if ok
      then [TargetHttpsProxies_SetSslPolicy project name
              (RelativeLink (ParseSslPolicyFieldValue v (SetId name d) meta).1)]
      else []).

Definition sslCreateRequests (meta : Config) (d : ResourceData) : list Request :=
  let project := (getProject d meta).1 in
  let name := Get_string d "name" in
  let '(v, ok) := GetOk_string d "ssl_policy" in
  TargetSslProxies_Insert project (sslProxyOf d (expandSslCertificates d meta).1)
  :: (if ok
      then [TargetSslProxies_SetSslPolicy project name
              (RelativeLink (ParseSslPolicyFieldValue v (SetId name d) meta).1)]
      else []).

(** The key Update records with [d.SetPartial] once the call [req] and its
    wait have succeeded; [None] where it records nothing.  The HTTPS proxy
    records the certificate group under ["ssl_certificate"]. *)
Definition recordedKey (req : Request) : option string :=
  match req with
  | TargetHttpsProxies_SetUrlMap _ _ _ => Some "url_map"
  | TargetHttpsProxies_SetSslCertificates _ _ _ => Some "ssl_certificate"
  | TargetSslProxies_SetProxyHeader _ _ _ => Some "proxy_header"
  | TargetSslProxies_SetBackendService _ _ _ => Some "backend_service"
  | TargetSslProxies_SetSslCertificates _ _ _ => Some "ssl_certificates"
  | _ => None
  end.

(** The call [req] and the wait for its operation both succeeded. *)
Definition completed (req : Request) (tr : list Event) : Prop :=
  ∃ op project activity tr1 tr2,
    tr = tr1 ++ EvDo req op None :: EvWait op project activity None :: tr2.

(** The context Update puts before the error of a rejected call; [None]
    where the error is returned as it is.  The SSL proxy uses the text of
    the backend-service group for the certificate group as well. *)
Definition updateContext (req : Request) : option string :=
  match req with
  | TargetHttpsProxies_SetUrlMap _ _ _ =>
      Some "Error updating Target HTTPS proxy URL map: "
  | TargetHttpsProxies_SetSslCertificates _ _ _ =>
      Some "Error updating Target Https Proxy SSL Certificates: "
  | TargetSslProxies_SetProxyHeader _ _ _ => Some "Error updating proxy_header: "
  | TargetSslProxies_SetBackendService _ _ _ => Some "Error updating backend_service: "
  | TargetSslProxies_SetSslCertificates _ _ _ => Some "Error updating backend_service: "
  | _ => None
  end.

(** The error Update returns when the event [ev] was answered with [e]. *)
Definition updateError (ev : Event) (e : error) : error :=
  match ev with
  | EvDo req _ _ =>
      match updateContext req with
      | Some context => fmt_Errorf context e
      | None => e
      end
  | _ => e
  end.

(** The error Create returns when the event [ev] was answered with [e]:
    a rejected insert call comes back as a plain error with a context, a
    rejected attach call wrapped, with the original error kept inside, and
    the error of a wait as it is. *)
Definition createError (ev : Event) (e : error) : error :=
  match ev with
  | EvDo (TargetHttpsProxies_Insert _ _) _ _ =>
      fmt_Errorf "Error creating TargetHttpsProxy: " e
  | EvDo (TargetSslProxies_Insert _ _) _ _ =>
      fmt_Errorf "Error creating TargetSslProxy: " e
  | EvDo (TargetHttpsProxies_SetSslPolicy _ _ _) _ _ =>
      errwrap_Wrapf "Error setting Target HTTPS Proxy SSL Policy: " e
  | EvDo (TargetSslProxies_SetSslPolicy _ _ _) _ _ =>
      errwrap_Wrapf "Error setting SSL Policy: " e
  | _ => e
  end.

(** A field the configuration can set and whose change does not force a
    new resource: Update has to carry the change to the remote side. *)
Definition updatable (s : Schema) : bool :=
  (Required s || Optional s) && negb (ForceNew s).

(** The type of a value. *)
Definition valueType (v : Value) : ValueType :=
  match v with
  | VString _ => TypeString
  | VList _ => TypeList
  end.

(** The identity of the final state is the one [d] had, or empty. *)
Definition keepsOrClears (d : ResourceData) (st : State) : Prop :=
  Id (rd st) = Id d ∨ Id (rd st) = "".

End Notions.

(** * Properties *)

(** ** Reading [d] after writing it *)

Lemma Get_d_Set_eq k v d : Get (d_Set k v d) k = Some v.
Proof. unfold Get, d_Set; cbn [rd_set]. by rewrite lookup_insert_eq. Qed.

Lemma Get_d_Set_ne k k' v d : k ≠ k' → Get (d_Set k v d) k' = Get d k'.
Proof. intros. unfold Get, d_Set; cbn [rd_set rd_diff]. by rewrite lookup_insert_ne. Qed.

Lemma Get_SetId v d k : Get (SetId v d) k = Get d k.
Proof. reflexivity. Qed.

Lemma Get_string_SetId v d k : Get_string (SetId v d) k = Get_string d k.
Proof. reflexivity. Qed.

Lemma Get_list_SetId v d k : Get_list (SetId v d) k = Get_list d k.
Proof. reflexivity. Qed.

Lemma GetOk_string_SetId v d k : GetOk_string (SetId v d) k = GetOk_string d k.
Proof. reflexivity. Qed.

Lemma Get_string_Partial b d k : Get_string (Partial b d) k = Get_string d k.
Proof. reflexivity. Qed.

Lemma Get_string_SetPartial k' d k : Get_string (SetPartial k' d) k = Get_string d k.
Proof. reflexivity. Qed.

Lemma HasChange_Partial b d k : HasChange (Partial b d) k = HasChange d k.
Proof. reflexivity. Qed.

Lemma HasChange_SetPartial k' d k : HasChange (SetPartial k' d) k = HasChange d k.
Proof. reflexivity. Qed.

Lemma Id_SetId v d : Id (SetId v d) = v.
Proof. reflexivity. Qed.

Lemma Id_Partial b d : Id (Partial b d) = Id d.
Proof. reflexivity. Qed.

Lemma Id_SetPartial k d : Id (SetPartial k d) = Id d.
Proof. reflexivity. Qed.

Lemma Id_d_Set k v d : Id (d_Set k v d) = Id d.
Proof. reflexivity. Qed.

(** ** Running the code *)

(** Reduce the monad. *)
Ltac go_red :=
  cbv beta iota zeta delta
    [bind ret return_ returnIf withD onD d_SetId call_Do call_HttpsGet call_SslGet
     call_computeOperationWait call_computeSharedOperationWait emit id start];
  cbn [rd world trace returned final fst snd
       TargetHttpsProxy.Name TargetHttpsProxy.withDescription TargetSslProxy.Name] in *;
  repeat first
    [ rewrite GetOk_string_SetId | rewrite Get_string_SetId | rewrite Get_list_SetId
    | rewrite Id_SetId | rewrite Get_string_Partial | rewrite Get_string_SetPartial
    | rewrite HasChange_Partial | rewrite HasChange_SetPartial
    | rewrite Id_Partial | rewrite Id_SetPartial ].

Ltac go_case x :=
  let E := fresh "E" in destruct x eqn:E; try rewrite E in *; simplify_eq.

(** Split on the next answer from outside; an equation in the context
    decides the case. *)
Ltac go_ext :=
  match goal with
  | |- context [match ?x with _ => _ end] => is_var x; go_case x
  | |- context [if ?x then _ else _] => is_var x; go_case x
  | |- context [getProject ?a ?b] => go_case (getProject a b)
  | |- context [expandSslCertificates ?a ?b] => go_case (expandSslCertificates a b)
  | |- context [ParseSslPolicyFieldValue ?a ?b ?c] => go_case (ParseSslPolicyFieldValue a b c)
  | |- context [GetOk_string ?a ?b] => go_case (GetOk_string a b)
  | |- context [HasChange ?a ?b] => go_case (HasChange a b)
  | |- context [isNotFound ?a] => go_case (isNotFound a)
  | |- context [Do ?a ?b ?c] => go_case (Do a b c)
  | |- context [TargetHttpsProxies_Get ?a ?b ?c ?d] => go_case (TargetHttpsProxies_Get a b c d)
  | |- context [TargetSslProxies_Get ?a ?b ?c ?d] => go_case (TargetSslProxies_Get a b c d)
  | |- context [computeOperationWait ?a ?b ?c ?d ?e] =>
      go_case (computeOperationWait a b c d e)
  | |- context [computeSharedOperationWait ?a ?b ?c ?d ?e] =>
      go_case (computeSharedOperationWait a b c d e)
  end.

Ltac run_go := repeat (go_red; try go_ext).

Section Theory.
Context `{Externals}.

Lemma Id_readHttps project proxy d : Id (readHttps project proxy d) = Id d.
Proof. reflexivity. Qed.

Lemma Id_readSsl project proxy d : Id (readSsl project proxy d) = Id d.
Proof. reflexivity. Qed.

Lemma readHttps_agrees project proxy d : httpsAgrees (readHttps project proxy d) project proxy.
Proof.
  unfold httpsAgrees, readHttps, Get_string, Get_list.
  repeat split; repeat (rewrite Get_d_Set_ne by discriminate);
    by rewrite Get_d_Set_eq.
Qed.

Lemma readSsl_agrees project proxy d : sslAgrees (readSsl project proxy d) project proxy.
Proof.
  unfold sslAgrees, readSsl, Get_string, Get_list.
  repeat split; repeat (rewrite Get_d_Set_ne by discriminate);
    by rewrite Get_d_Set_eq.
Qed.

Lemma readHttps_frame project proxy d k :
  k ∉ httpsReadKeys → Get (readHttps project proxy d) k = Get d k.
Proof.
  unfold httpsReadKeys, readHttps. intros Hk.
  repeat (rewrite Get_d_Set_ne; [| intros Heq; subst k; apply Hk; set_solver]). done.
Qed.

Lemma readSsl_frame project proxy d k :
  k ∉ sslReadKeys → Get (readSsl project proxy d) k = Get d k.
Proof.
  unfold sslReadKeys, readSsl. intros Hk.
  repeat (rewrite Get_d_Set_ne; [| intros Heq; subst k; apply Hk; set_solver]). done.
Qed.

(** ** Traces *)

Lemma requests_app tr1 tr2 : requests (tr1 ++ tr2) = requests tr1 ++ requests tr2.
Proof.
  induction tr1 as [| ev tr1 IH]; [done |].
  destruct ev; cbn [requests app]; rewrite ?IH; done.
Qed.

Lemma attachCalls_app tr1 tr2 : attachCalls (tr1 ++ tr2) = attachCalls tr1 ++ attachCalls tr2.
Proof. unfold attachCalls. by rewrite requests_app, List.filter_app. Qed.

Lemma attachCalls_no_requests tr : requests tr = [] → attachCalls tr = [].
Proof. unfold attachCalls. by intros ->. Qed.

(** ** Read *)

Lemma https_read_noproject meta s project e :
  getProject (rd s) meta = (project, Some e) →
  resourceComputeTargetHttpsProxyRead meta s = (Err e, s).
Proof. intros. unfold resourceComputeTargetHttpsProxyRead. run_go. done. Qed.

Lemma https_read_found meta s project proxy w' :
  getProject (rd s) meta = (project, None) →
  TargetHttpsProxies_Get meta project (Id (rd s)) (world s) = (proxy, None, w') →
  resourceComputeTargetHttpsProxyRead meta s =
    (Ok tt, mkState (readHttps project proxy (rd s)) w'
              (trace s ++ [EvGetHttps project (Id (rd s)) proxy None])).
Proof. intros. unfold resourceComputeTargetHttpsProxyRead. run_go. done. Qed.

Lemma https_read_absent meta s project proxy e w' :
  getProject (rd s) meta = (project, None) →
  TargetHttpsProxies_Get meta project (Id (rd s)) (world s) = (proxy, Some e, w') →
  isNotFound e = true →
  resourceComputeTargetHttpsProxyRead meta s =
    (Ok tt, mkState (SetId "" (rd s)) w'
              ((trace s ++ [EvGetHttps project (Id (rd s)) proxy (Some e)]) ++ [EvSetId ""])).
Proof.
  intros. unfold resourceComputeTargetHttpsProxyRead, handleNotFoundError. run_go. done.
Qed.

Lemma https_read_error meta s project proxy e w' :
  getProject (rd s) meta = (project, None) →
  TargetHttpsProxies_Get meta project (Id (rd s)) (world s) = (proxy, Some e, w') →
  isNotFound e = false →
  resourceComputeTargetHttpsProxyRead meta s =
    (Err (fmt_Errorf ("Error reading " +:+ ("Target HTTPS proxy "
                        +:+ Sprintf_q (Get_string (rd s) "name")) +:+ ": ") e),
     mkState (rd s) w' (trace s ++ [EvGetHttps project (Id (rd s)) proxy (Some e)])).
Proof.
  intros. unfold resourceComputeTargetHttpsProxyRead, handleNotFoundError. run_go. done.
Qed.

Lemma ssl_read_noproject meta s project e :
  getProject (rd s) meta = (project, Some e) →
  resourceComputeTargetSslProxyRead meta s = (Err e, s).
Proof. intros. unfold resourceComputeTargetSslProxyRead. run_go. done. Qed.

Lemma ssl_read_found meta s project proxy w' :
  getProject (rd s) meta = (project, None) →
  TargetSslProxies_Get meta project (Id (rd s)) (world s) = (proxy, None, w') →
  resourceComputeTargetSslProxyRead meta s =
    (Ok tt, mkState (readSsl project proxy (rd s)) w'
              (trace s ++ [EvGetSsl project (Id (rd s)) proxy None])).
Proof. intros. unfold resourceComputeTargetSslProxyRead. run_go. done. Qed.

Lemma ssl_read_absent meta s project proxy e w' :
  getProject (rd s) meta = (project, None) →
  TargetSslProxies_Get meta project (Id (rd s)) (world s) = (proxy, Some e, w') →
  isNotFound e = true →
  resourceComputeTargetSslProxyRead meta s =
    (Ok tt, mkState (SetId "" (rd s)) w'
              ((trace s ++ [EvGetSsl project (Id (rd s)) proxy (Some e)]) ++ [EvSetId ""])).
Proof.
  intros. unfold resourceComputeTargetSslProxyRead, handleNotFoundError. run_go. done.
Qed.

Lemma ssl_read_error meta s project proxy e w' :
  getProject (rd s) meta = (project, None) →
  TargetSslProxies_Get meta project (Id (rd s)) (world s) = (proxy, Some e, w') →
  isNotFound e = false →
  resourceComputeTargetSslProxyRead meta s =
    (Err (fmt_Errorf ("Error reading " +:+ ("Target SSL Proxy "
                        +:+ Sprintf_q (Get_string (rd s) "name")) +:+ ": ") e),
     mkState (rd s) w' (trace s ++ [EvGetSsl project (Id (rd s)) proxy (Some e)])).
Proof.
  intros. unfold resourceComputeTargetSslProxyRead, handleNotFoundError. run_go. done.
Qed.

(** C3. Read.  When the project resolves and the fetch answers with an
    error classified as "not found", Read returns no error and clears the
    local identity (and changes nothing else of [d]).  When the fetch
    succeeds, Read returns no error and every field of the fetched proxy is
    in local state afterwards: name, description, url map or backend
    service, proxy header, certificate list, security policy, the numeric
    identifier in decimal, the self link; the identity is kept.  Both
    resources. *)
Theorem C3_read_reconciles meta s project :
  getProject (rd s) meta = (project, None) →
  (∀ proxy err w',
     TargetHttpsProxies_Get meta project (Id (rd s)) (world s) = (proxy, err, w') →
     let r := resourceComputeTargetHttpsProxyRead meta s in
     match err with
     | Some e =>
         isNotFound e = true →
         returned r = None ∧ Id (rd (final r)) = "" ∧ rd (final r) = SetId "" (rd s)
     | None =>
         returned r = None ∧ httpsAgrees (rd (final r)) project proxy
         ∧ Get_string (rd (final r)) "proxy_id"
           = strconv_FormatUint (TargetHttpsProxy.Id proxy)
         ∧ Get_string (rd (final r)) "self_link" = TargetHttpsProxy.SelfLink proxy
         ∧ Id (rd (final r)) = Id (rd s)
     end)
  ∧ (∀ proxy err w',
     TargetSslProxies_Get meta project (Id (rd s)) (world s) = (proxy, err, w') →
     let r := resourceComputeTargetSslProxyRead meta s in
     match err with
     | Some e =>
         isNotFound e = true →
         returned r = None ∧ Id (rd (final r)) = "" ∧ rd (final r) = SetId "" (rd s)
     | None =>
         returned r = None ∧ sslAgrees (rd (final r)) project proxy
         ∧ Get_string (rd (final r)) "proxy_id"
           = strconv_FormatUint (TargetSslProxy.Id proxy)
         ∧ Get_string (rd (final r)) "self_link" = TargetSslProxy.SelfLink proxy
         ∧ Id (rd (final r)) = Id (rd s)
     end).
Proof.
  intros Hproject. split.
  - intros proxy [e |] w' Hget r; subst r.
    + intros Hnf. by rewrite (https_read_absent _ _ _ _ _ _ Hproject Hget Hnf).
    + rewrite (https_read_found _ _ _ _ _ Hproject Hget). cbn [returned final fst snd rd].
      pose proof (readHttps_agrees project proxy (rd s)) as Hagree.
      split_and!; try done; apply Hagree.
  - intros proxy [e |] w' Hget r; subst r.
    + intros Hnf. by rewrite (ssl_read_absent _ _ _ _ _ _ Hproject Hget Hnf).
    + rewrite (ssl_read_found _ _ _ _ _ Hproject Hget). cbn [returned final fst snd rd].
      pose proof (readSsl_agrees project proxy (rd s)) as Hagree.
      split_and!; try done; apply Hagree.
Qed.

(** ** Delete *)

Lemma https_delete_noproject meta s project e :
  getProject (rd s) meta = (project, Some e) →
  resourceComputeTargetHttpsProxyDelete meta s = (Err e, s).
Proof. intros. unfold resourceComputeTargetHttpsProxyDelete. run_go. done. Qed.

Lemma ssl_delete_noproject meta s project e :
  getProject (rd s) meta = (project, Some e) →
  resourceComputeTargetSslProxyDelete meta s = (Err e, s).
Proof. intros. unfold resourceComputeTargetSslProxyDelete. run_go. done. Qed.

Lemma https_delete_rejected meta s project op e w1 :
  getProject (rd s) meta = (project, None) →
  Do meta (TargetHttpsProxies_Delete project (Id (rd s))) (world s) = (op, Some e, w1) →
  resourceComputeTargetHttpsProxyDelete meta s =
    (Err (fmt_Errorf "Error deleting TargetHttpsProxy: " e),
     mkState (rd s) w1
       (trace s ++ [EvDo (TargetHttpsProxies_Delete project (Id (rd s))) op (Some e)])).
Proof. intros. unfold resourceComputeTargetHttpsProxyDelete. run_go. done. Qed.

Lemma https_delete_waited meta s project op w1 werr w2 :
  getProject (rd s) meta = (project, None) →
  Do meta (TargetHttpsProxies_Delete project (Id (rd s))) (world s) = (op, None, w1) →
  computeOperationWait meta op project "Deleting Target Https Proxy" w1 = (werr, w2) →
  resourceComputeTargetHttpsProxyDelete meta s =
    match werr with
    | Some e =>
        (Err e,
         mkState (rd s) w2
           (trace s ++ [EvDo (TargetHttpsProxies_Delete project (Id (rd s))) op None;
                        EvWait op project "Deleting Target Https Proxy" (Some e)]))
    | None =>
        (Ok tt,
         mkState (SetId "" (rd s)) w2
           (trace s ++ [EvDo (TargetHttpsProxies_Delete project (Id (rd s))) op None;
                        EvWait op project "Deleting Target Https Proxy" None;
                        EvSetId ""]))
    end.
Proof.
  intros. unfold resourceComputeTargetHttpsProxyDelete. run_go;
    by rewrite <- ?app_assoc.
Qed.

Lemma ssl_delete_rejected meta s project op e w1 :
  getProject (rd s) meta = (project, None) →
  Do meta (TargetSslProxies_Delete project (Id (rd s))) (world s) = (op, Some e, w1) →
  resourceComputeTargetSslProxyDelete meta s =
    (Err (fmt_Errorf "Error deleting TargetSslProxy: " e),
     mkState (rd s) w1
       (trace s ++ [EvDo (TargetSslProxies_Delete project (Id (rd s))) op (Some e)])).
Proof. intros. unfold resourceComputeTargetSslProxyDelete. run_go. done. Qed.

Lemma ssl_delete_waited meta s project op w1 werr w2 :
  getProject (rd s) meta = (project, None) →
  Do meta (TargetSslProxies_Delete project (Id (rd s))) (world s) = (op, None, w1) →
  computeOperationWait meta op project "Deleting Target SSL Proxy" w1 = (werr, w2) →
  resourceComputeTargetSslProxyDelete meta s =
    match werr with
    | Some e =>
        (Err e,
         mkState (rd s) w2
           (trace s ++ [EvDo (TargetSslProxies_Delete project (Id (rd s))) op None;
                        EvWait op project "Deleting Target SSL Proxy" (Some e)]))
    | None =>
        (Ok tt,
         mkState (SetId "" (rd s)) w2
           (trace s ++ [EvDo (TargetSslProxies_Delete project (Id (rd s))) op None;
                        EvWait op project "Deleting Target SSL Proxy" None;
                        EvSetId ""]))
    end.
Proof.
  intros. unfold resourceComputeTargetSslProxyDelete. run_go;
    by rewrite <- ?app_assoc.
Qed.

(** C7. Delete.  When the project does not resolve, Delete returns that
    error and does nothing.  When it resolves, Delete issues the delete
    call; if the call is answered with an operation it waits for that
    operation, and only after a successful wait it clears the local
    identity.  An error of the delete call (a "not found" answer
    included) changes nothing of the local state and comes back as a plain
    error that carries the text behind "Error deleting ...: "; an error of
    the wait comes back as it is and the identity is kept.  Both
    resources. *)
Theorem C7_delete meta s project :
  (∀ e, getProject (rd s) meta = (project, Some e) →
        resourceComputeTargetHttpsProxyDelete meta s = (Err e, s)
        ∧ resourceComputeTargetSslProxyDelete meta s = (Err e, s))
  ∧ (getProject (rd s) meta = (project, None) →
  (∀ op err w1 werr w2,
     Do meta (TargetHttpsProxies_Delete project (Id (rd s))) (world s) = (op, err, w1) →
     computeOperationWait meta op project "Deleting Target Https Proxy" w1 = (werr, w2) →
     let r := resourceComputeTargetHttpsProxyDelete meta s in
     let call := TargetHttpsProxies_Delete project (Id (rd s)) in
     match err, werr with
     | Some e, _ =>
         returned r = Some (errorString ("Error deleting TargetHttpsProxy: " +:+ Error e))
         ∧ rd (final r) = rd s
         ∧ trace (final r) = trace s ++ [EvDo call op (Some e)]
     | None, Some e =>
         returned r = Some e
         ∧ rd (final r) = rd s
         ∧ trace (final r) = trace s ++
             [EvDo call op None; EvWait op project "Deleting Target Https Proxy" (Some e)]
     | None, None =>
         returned r = None
         ∧ rd (final r) = SetId "" (rd s)
         ∧ trace (final r) = trace s ++
             [EvDo call op None; EvWait op project "Deleting Target Https Proxy" None;
              EvSetId ""]
     end)
  ∧ (∀ op err w1 werr w2,
     Do meta (TargetSslProxies_Delete project (Id (rd s))) (world s) = (op, err, w1) →
     computeOperationWait meta op project "Deleting Target SSL Proxy" w1 = (werr, w2) →
     let r := resourceComputeTargetSslProxyDelete meta s in
     let call := TargetSslProxies_Delete project (Id (rd s)) in
     match err, werr with
     | Some e, _ =>
         returned r = Some (errorString ("Error deleting TargetSslProxy: " +:+ Error e))
         ∧ rd (final r) = rd s
         ∧ trace (final r) = trace s ++ [EvDo call op (Some e)]
     | None, Some e =>
         returned r = Some e
         ∧ rd (final r) = rd s
         ∧ trace (final r) = trace s ++
             [EvDo call op None; EvWait op project "Deleting Target SSL Proxy" (Some e)]
     | None, None =>
         returned r = None
         ∧ rd (final r) = SetId "" (rd s)
         ∧ trace (final r) = trace s ++
             [EvDo call op None; EvWait op project "Deleting Target SSL Proxy" None;
              EvSetId ""]
     end)).
Proof.
  split.
  { intros e Hproject.
    by rewrite (https_delete_noproject _ _ _ _ Hproject),
               (ssl_delete_noproject _ _ _ _ Hproject). }
  intros Hproject. split.
  - intros op [e |] w1 werr w2 Hdo Hwait r call; subst r call.
    + by rewrite (https_delete_rejected _ _ _ _ _ _ Hproject Hdo).
    + rewrite (https_delete_waited _ _ _ _ _ _ _ Hproject Hdo Hwait).
      by destruct werr.
  - intros op [e |] w1 werr w2 Hdo Hwait r call; subst r call.
    + by rewrite (ssl_delete_rejected _ _ _ _ _ _ Hproject Hdo).
    + rewrite (ssl_delete_waited _ _ _ _ _ _ _ Hproject Hdo Hwait).
      by destruct werr.
Qed.

(** ** Reference expansion *)

Lemma expandSslCertificates_loop_ok d config configured certs certs' :
  expandSslCertificates_loop d config configured certs = (certs', None) →
  certs' = certs ++ map (canonical d config) configured
  ∧ Forall (λ c, (ParseSslCertificateFieldValue c d config).2 = None) configured.
Proof.
  revert certs. induction configured as [| c configured IH]; intros certs Hloop.
  - cbn in Hloop. simplify_eq. by rewrite app_nil_r.
  - cbn [expandSslCertificates_loop] in Hloop. unfold canonical in *.
    destruct (ParseSslCertificateFieldValue c d config) as [fv [e |]] eqn:Hparse;
      [done |].
    apply IH in Hloop as [-> Hall]. split.
    + cbn [map]. rewrite Hparse. cbn [fst]. by rewrite <- app_assoc.
    + constructor; [by rewrite Hparse | done].
Qed.

Lemma expandSslCertificates_loop_err d config configured certs certs' e :
  expandSslCertificates_loop d config configured certs = (certs', Some e) →
  certs' = []
  ∧ ∃ c fv e0, c ∈ configured
      ∧ ParseSslCertificateFieldValue c d config = (fv, Some e0)
      ∧ e = fmt_Errorf "Invalid ssl certificate: " e0.
Proof.
  revert certs. induction configured as [| c configured IH]; intros certs Hloop.
  - cbn in Hloop. simplify_eq.
  - cbn [expandSslCertificates_loop] in Hloop.
    destruct (ParseSslCertificateFieldValue c d config) as [fv [e0 |]] eqn:Hparse.
    + simplify_eq. split; [done |]. exists c, fv, e0. split_and!; [by constructor | done..].
    + apply IH in Hloop as [-> (c' & fv' & e0 & Hin & Hp & ->)].
      split; [done |]. exists c', fv', e0. split_and!; [by constructor | done..].
Qed.

(** A successful expansion is the declared list, element by element in
    canonical form. *)
Lemma expandSslCertificates_ok d config certs :
  expandSslCertificates d config = (certs, None) →
  certs = map (canonical d config) (Get_list d "ssl_certificates").
Proof.
  unfold expandSslCertificates. intros Hloop.
  by apply expandSslCertificates_loop_ok in Hloop as [-> _].
Qed.

Lemma expandSslCertificates_err d config certs e :
  expandSslCertificates d config = (certs, Some e) →
  ∃ c fv e0, c ∈ Get_list d "ssl_certificates"
    ∧ ParseSslCertificateFieldValue c d config = (fv, Some e0)
    ∧ e = fmt_Errorf "Invalid ssl certificate: " e0.
Proof.
  unfold expandSslCertificates. intros Hloop.
  by apply expandSslCertificates_loop_err in Hloop as [_ ?].
Qed.

(** ** Create: the outcomes one by one *)

Lemma https_create_noproject meta s project e :
  getProject (rd s) meta = (project, Some e) →
  resourceComputeTargetHttpsProxyCreate meta s = (Err e, s).
Proof. intros. unfold resourceComputeTargetHttpsProxyCreate. run_go. done. Qed.

Lemma https_create_badcert meta s project certs e :
  getProject (rd s) meta = (project, None) →
  expandSslCertificates (rd s) meta = (certs, Some e) →
  resourceComputeTargetHttpsProxyCreate meta s = (Err e, s).
Proof. intros. unfold resourceComputeTargetHttpsProxyCreate. run_go. done. Qed.

Lemma https_create_rejected meta s project certs op e w1 :
  getProject (rd s) meta = (project, None) →
  expandSslCertificates (rd s) meta = (certs, None) →
  Do meta (TargetHttpsProxies_Insert project (httpsProxyOf (rd s) certs)) (world s)
    = (op, Some e, w1) →
  resourceComputeTargetHttpsProxyCreate meta s =
    (Err (fmt_Errorf "Error creating TargetHttpsProxy: " e),
     mkState (rd s) w1
       (trace s ++ [EvDo (TargetHttpsProxies_Insert project (httpsProxyOf (rd s) certs))
                      op (Some e)])).
Proof.
  intros. unfold resourceComputeTargetHttpsProxyCreate, httpsProxyOf in *. run_go; done.
Qed.

Lemma https_create_wait_failed meta s project certs op w1 e w2 :
  getProject (rd s) meta = (project, None) →
  expandSslCertificates (rd s) meta = (certs, None) →
  let req := TargetHttpsProxies_Insert project (httpsProxyOf (rd s) certs) in
  Do meta req (world s) = (op, None, w1) →
  computeOperationWait meta op project "Creating Target Https Proxy" w1 = (Some e, w2) →
  resourceComputeTargetHttpsProxyCreate meta s =
    (Err e,
     mkState (rd s) w2
       (trace s ++ [EvDo req op None;
                    EvWait op project "Creating Target Https Proxy" (Some e)])).
Proof.
  intros ?? req ??. subst req.
  unfold resourceComputeTargetHttpsProxyCreate, httpsProxyOf in *.
  run_go; by rewrite <- ?app_assoc.
Qed.

Lemma https_create_nopolicy meta s project certs op w1 w2 v :
  getProject (rd s) meta = (project, None) →
  expandSslCertificates (rd s) meta = (certs, None) →
  let req := TargetHttpsProxies_Insert project (httpsProxyOf (rd s) certs) in
  Do meta req (world s) = (op, None, w1) →
  computeOperationWait meta op project "Creating Target Https Proxy" w1 = (None, w2) →
  GetOk_string (rd s) "ssl_policy" = (v, false) →
  resourceComputeTargetHttpsProxyCreate meta s =
    resourceComputeTargetHttpsProxyRead meta
      (afterInsert s req op project "Creating Target Https Proxy"
         (Get_string (rd s) "name") w2).
Proof.
  intros ?? req ???. subst req.
  unfold resourceComputeTargetHttpsProxyCreate, httpsProxyOf, afterInsert in *.
  run_go; by rewrite <- ?app_assoc.
Qed.

Lemma https_create_policy meta s project certs op w1 w2 v pol perr op' err' w3 werr w4 :
  getProject (rd s) meta = (project, None) →
  expandSslCertificates (rd s) meta = (certs, None) →
  let req := TargetHttpsProxies_Insert project (httpsProxyOf (rd s) certs) in
  let name := Get_string (rd s) "name" in
  let s3 := afterInsert s req op project "Creating Target Https Proxy" name w2 in
  let attach := TargetHttpsProxies_SetSslPolicy project name (RelativeLink pol) in
  Do meta req (world s) = (op, None, w1) →
  computeOperationWait meta op project "Creating Target Https Proxy" w1 = (None, w2) →
  GetOk_string (rd s) "ssl_policy" = (v, true) →
  ParseSslPolicyFieldValue v (rd s3) meta = (pol, perr) →
  Do meta attach w2 = (op', err', w3) →
  computeSharedOperationWait meta op' project "Adding Target HTTPS Proxy SSL Policy" w3
    = (werr, w4) →
  resourceComputeTargetHttpsProxyCreate meta s =
    match err', werr with
    | Some e', _ =>
        (Err (errwrap_Wrapf "Error setting Target HTTPS Proxy SSL Policy: " e'),
         mkState (rd s3) w3 (trace s3 ++ [EvDo attach op' (Some e')]))
    | None, Some e'' =>
        (Err e'',
         mkState (rd s3) w4
           (trace s3 ++ [EvDo attach op' None;
                         EvSharedWait op' project "Adding Target HTTPS Proxy SSL Policy"
                           (Some e'')]))
    | None, None =>
        resourceComputeTargetHttpsProxyRead meta
          (mkState (rd s3) w4
             (trace s3 ++ [EvDo attach op' None;
                           EvSharedWait op' project "Adding Target HTTPS Proxy SSL Policy"
                             None]))
    end.
Proof.
  intros ?? req name s3 attach. intros. subst req name s3 attach.
  unfold resourceComputeTargetHttpsProxyCreate, httpsProxyOf, afterInsert in *.
  run_go; by rewrite <- ?app_assoc.
Qed.

Lemma ssl_create_noproject meta s project e :
  getProject (rd s) meta = (project, Some e) →
  resourceComputeTargetSslProxyCreate meta s = (Err e, s).
Proof. intros. unfold resourceComputeTargetSslProxyCreate. run_go. done. Qed.

Lemma ssl_create_badcert meta s project certs e :
  getProject (rd s) meta = (project, None) →
  expandSslCertificates (rd s) meta = (certs, Some e) →
  resourceComputeTargetSslProxyCreate meta s = (Err e, s).
Proof. intros. unfold resourceComputeTargetSslProxyCreate. run_go. done. Qed.

Lemma ssl_create_rejected meta s project certs op e w1 :
  getProject (rd s) meta = (project, None) →
  expandSslCertificates (rd s) meta = (certs, None) →
  Do meta (TargetSslProxies_Insert project (sslProxyOf (rd s) certs)) (world s)
    = (op, Some e, w1) →
  resourceComputeTargetSslProxyCreate meta s =
    (Err (fmt_Errorf "Error creating TargetSslProxy: " e),
     mkState (rd s) w1
       (trace s ++ [EvDo (TargetSslProxies_Insert project (sslProxyOf (rd s) certs))
                      op (Some e)])).
Proof.
  intros. unfold resourceComputeTargetSslProxyCreate, sslProxyOf in *. run_go; done.
Qed.

Lemma ssl_create_wait_failed meta s project certs op w1 e w2 :
  getProject (rd s) meta = (project, None) →
  expandSslCertificates (rd s) meta = (certs, None) →
  let req := TargetSslProxies_Insert project (sslProxyOf (rd s) certs) in
  Do meta req (world s) = (op, None, w1) →
  computeOperationWait meta op project "Creating Target Ssl Proxy" w1 = (Some e, w2) →
  resourceComputeTargetSslProxyCreate meta s =
    (Err e,
     mkState (rd s) w2
       (trace s ++ [EvDo req op None;
                    EvWait op project "Creating Target Ssl Proxy" (Some e)])).
Proof.
  intros ?? req. intros. subst req.
  unfold resourceComputeTargetSslProxyCreate, sslProxyOf in *.
  run_go; by rewrite <- ?app_assoc.
Qed.

Lemma ssl_create_nopolicy meta s project certs op w1 w2 v :
  getProject (rd s) meta = (project, None) →
  expandSslCertificates (rd s) meta = (certs, None) →
  let req := TargetSslProxies_Insert project (sslProxyOf (rd s) certs) in
  Do meta req (world s) = (op, None, w1) →
  computeOperationWait meta op project "Creating Target Ssl Proxy" w1 = (None, w2) →
  GetOk_string (rd s) "ssl_policy" = (v, false) →
  resourceComputeTargetSslProxyCreate meta s =
    resourceComputeTargetSslProxyRead meta
      (afterInsert s req op project "Creating Target Ssl Proxy"
         (Get_string (rd s) "name") w2).
Proof.
  intros ?? req. intros. subst req.
  unfold resourceComputeTargetSslProxyCreate, sslProxyOf, afterInsert in *.
  run_go; by rewrite <- ?app_assoc.
Qed.

Lemma ssl_create_policy meta s project certs op w1 w2 v pol perr op' err' w3 werr w4 :
  getProject (rd s) meta = (project, None) →
  expandSslCertificates (rd s) meta = (certs, None) →
  let req := TargetSslProxies_Insert project (sslProxyOf (rd s) certs) in
  let name := Get_string (rd s) "name" in
  let s3 := afterInsert s req op project "Creating Target Ssl Proxy" name w2 in
  let attach := TargetSslProxies_SetSslPolicy project name (RelativeLink pol) in
  Do meta req (world s) = (op, None, w1) →
  computeOperationWait meta op project "Creating Target Ssl Proxy" w1 = (None, w2) →
  GetOk_string (rd s) "ssl_policy" = (v, true) →
  ParseSslPolicyFieldValue v (rd s3) meta = (pol, perr) →
  Do meta attach w2 = (op', err', w3) →
  computeSharedOperationWait meta op' project "Adding Target SSL Proxy SSL Policy" w3
    = (werr, w4) →
  resourceComputeTargetSslProxyCreate meta s =
    match err', werr with
    | Some e', _ =>
        (Err (errwrap_Wrapf "Error setting SSL Policy: " e'),
         mkState (rd s3) w3 (trace s3 ++ [EvDo attach op' (Some e')]))
    | None, Some e'' =>
        (Err e'',
         mkState (rd s3) w4
           (trace s3 ++ [EvDo attach op' None;
                         EvSharedWait op' project "Adding Target SSL Proxy SSL Policy"
                           (Some e'')]))
    | None, None =>
        resourceComputeTargetSslProxyRead meta
          (mkState (rd s3) w4
             (trace s3 ++ [EvDo attach op' None;
                           EvSharedWait op' project "Adding Target SSL Proxy SSL Policy"
                             None]))
    end.
Proof.
  intros ?? req name s3 attach. intros. subst req name s3 attach.
  unfold resourceComputeTargetSslProxyCreate, sslProxyOf, afterInsert in *.
  run_go; by rewrite <- ?app_assoc.
Qed.

(** ** What Read adds to a trace *)

(** Read issues at most one call, a fetch, and no call that changes the
    remote side. *)
Lemma https_read_trace meta s :
  ∃ evs, trace (final (resourceComputeTargetHttpsProxyRead meta s)) = trace s ++ evs
    ∧ requests evs = []
    ∧ (List.length (List.filter isGet evs) ≤ 1)%nat
    ∧ Forall (λ ev, isGet ev = true ∨ failure ev = None) evs.
Proof.
  unfold resourceComputeTargetHttpsProxyRead, handleNotFoundError. run_go.
  all: try (exists []; rewrite app_nil_r; cbn; split_and!; [done | done | lia | done]).
  all: rewrite <- ?app_assoc; eexists; split_and!; [done | done | cbn; lia |].
  all: repeat first
         [ apply Forall_nil_2 | apply Forall_cons_2; [first [by left | by right] |] ].
Qed.

Lemma ssl_read_trace meta s :
  ∃ evs, trace (final (resourceComputeTargetSslProxyRead meta s)) = trace s ++ evs
    ∧ requests evs = []
    ∧ (List.length (List.filter isGet evs) ≤ 1)%nat
    ∧ Forall (λ ev, isGet ev = true ∨ failure ev = None) evs.
Proof.
  unfold resourceComputeTargetSslProxyRead, handleNotFoundError. run_go.
  all: try (exists []; rewrite app_nil_r; cbn; split_and!; [done | done | lia | done]).
  all: rewrite <- ?app_assoc; eexists; split_and!; [done | done | cbn; lia |].
  all: repeat first
         [ apply Forall_nil_2 | apply Forall_cons_2; [first [by left | by right] |] ].
Qed.

Lemma attachCalls_read_https meta s :
  attachCalls (trace (final (resourceComputeTargetHttpsProxyRead meta s)))
  = attachCalls (trace s).
Proof.
  destruct (https_read_trace meta s) as (evs & -> & Hreq & _).
  by rewrite attachCalls_app, (attachCalls_no_requests evs), app_nil_r.
Qed.

Lemma attachCalls_read_ssl meta s :
  attachCalls (trace (final (resourceComputeTargetSslProxyRead meta s)))
  = attachCalls (trace s).
Proof.
  destruct (ssl_read_trace meta s) as (evs & -> & Hreq & _).
  by rewrite attachCalls_app, (attachCalls_no_requests evs), app_nil_r.
Qed.

(** Without a declared security policy Create attaches none, however far
    it gets. *)
Lemma https_create_no_attach meta d w :
  (GetOk_string d "ssl_policy").2 = false →
  attachCalls (trace (final (resourceComputeTargetHttpsProxyCreate meta (start d w)))) = [].
Proof.
  intros Hno. destruct (GetOk_string d "ssl_policy") as [v ok] eqn:Hok.
  cbn in Hno. subst ok.
  destruct (getProject d meta) as [project [e |]] eqn:Hproject;
    [by erewrite https_create_noproject |].
  destruct (expandSslCertificates d meta) as [certs [e |]] eqn:Hcerts;
    [by erewrite https_create_badcert |].
  destruct (Do meta (TargetHttpsProxies_Insert project (httpsProxyOf d certs)) w)
    as [[op [e |]] w1] eqn:Hdo; [by erewrite https_create_rejected |].
  destruct (computeOperationWait meta op project "Creating Target Https Proxy" w1)
    as [[e |] w2] eqn:Hwait; [by erewrite https_create_wait_failed |].
  erewrite https_create_nopolicy by done. by rewrite attachCalls_read_https.
Qed.

Lemma ssl_create_no_attach meta d w :
  (GetOk_string d "ssl_policy").2 = false →
  attachCalls (trace (final (resourceComputeTargetSslProxyCreate meta (start d w)))) = [].
Proof.
  intros Hno. destruct (GetOk_string d "ssl_policy") as [v ok] eqn:Hok.
  cbn in Hno. subst ok.
  destruct (getProject d meta) as [project [e |]] eqn:Hproject;
    [by erewrite ssl_create_noproject |].
  destruct (expandSslCertificates d meta) as [certs [e |]] eqn:Hcerts;
    [by erewrite ssl_create_badcert |].
  destruct (Do meta (TargetSslProxies_Insert project (sslProxyOf d certs)) w)
    as [[op [e |]] w1] eqn:Hdo; [by erewrite ssl_create_rejected |].
  destruct (computeOperationWait meta op project "Creating Target Ssl Proxy" w1)
    as [[e |] w2] eqn:Hwait; [by erewrite ssl_create_wait_failed |].
  erewrite ssl_create_nopolicy by done. by rewrite attachCalls_read_ssl.
Qed.

(** With a declared security policy and a completed insert, the trace of
    Create starts with insert, wait, identity, attach; the attach call is
    the only one; a successful attach call is followed by the wait for its
    operation. *)
Lemma https_create_one_attach meta d w project certs op w1 w2 v pol perr op' err' w3 :
  getProject d meta = (project, None) →
  expandSslCertificates d meta = (certs, None) →
  let req := TargetHttpsProxies_Insert project (httpsProxyOf d certs) in
  let name := Get_string d "name" in
  let attach := TargetHttpsProxies_SetSslPolicy project name (RelativeLink pol) in
  Do meta req w = (op, None, w1) →
  computeOperationWait meta op project "Creating Target Https Proxy" w1 = (None, w2) →
  GetOk_string d "ssl_policy" = (v, true) →
  ParseSslPolicyFieldValue v (SetId name d) meta = (pol, perr) →
  Do meta attach w2 = (op', err', w3) →
  let tr := trace (final (resourceComputeTargetHttpsProxyCreate meta (start d w))) in
  attachCalls tr = [attach]
  ∧ ∃ rest,
      tr = [EvDo req op None; EvWait op project "Creating Target Https Proxy" None;
            EvSetId name; EvDo attach op' err'] ++ rest
      ∧ match err' with
        | Some _ => rest = []
        | None =>
            ∃ werr rest',
              rest = EvSharedWait op' project "Adding Target HTTPS Proxy SSL Policy" werr
                       :: rest'
        end.
Proof.
  intros Hproject Hcerts req name attach Hdo Hwait Hok Hparse Hattach tr.
  destruct (computeSharedOperationWait meta op' project
              "Adding Target HTTPS Proxy SSL Policy" w3) as [werr w4] eqn:Hshared.
  pose proof (https_create_policy meta (start d w) project certs op w1 w2 v pol perr
                op' err' w3 werr w4 Hproject Hcerts Hdo Hwait Hok Hparse Hattach Hshared)
    as Hrun.
  subst tr. rewrite Hrun. clear Hrun. unfold afterInsert. cbn [rd world trace start app].
  destruct err' as [e' |]; [| destruct werr as [e'' |]]; cbn [final snd trace].
  - split; [done |]. by eexists.
  - split; [done |]. eexists. split; [done |]. by eexists _, _.
  - rewrite attachCalls_read_https. cbn [trace]. split; [done |].
    edestruct https_read_trace as (evs & -> & _). cbn [trace app].
    eexists. split; [done |]. by eexists _, _.
Qed.

Lemma ssl_create_one_attach meta d w project certs op w1 w2 v pol perr op' err' w3 :
  getProject d meta = (project, None) →
  expandSslCertificates d meta = (certs, None) →
  let req := TargetSslProxies_Insert project (sslProxyOf d certs) in
  let name := Get_string d "name" in
  let attach := TargetSslProxies_SetSslPolicy project name (RelativeLink pol) in
  Do meta req w = (op, None, w1) →
  computeOperationWait meta op project "Creating Target Ssl Proxy" w1 = (None, w2) →
  GetOk_string d "ssl_policy" = (v, true) →
  ParseSslPolicyFieldValue v (SetId name d) meta = (pol, perr) →
  Do meta attach w2 = (op', err', w3) →
  let tr := trace (final (resourceComputeTargetSslProxyCreate meta (start d w))) in
  attachCalls tr = [attach]
  ∧ ∃ rest,
      tr = [EvDo req op None; EvWait op project "Creating Target Ssl Proxy" None;
            EvSetId name; EvDo attach op' err'] ++ rest
      ∧ match err' with
        | Some _ => rest = []
        | None =>
            ∃ werr rest',
              rest = EvSharedWait op' project "Adding Target SSL Proxy SSL Policy" werr
                       :: rest'
        end.
Proof.
  intros Hproject Hcerts req name attach Hdo Hwait Hok Hparse Hattach tr.
  destruct (computeSharedOperationWait meta op' project
              "Adding Target SSL Proxy SSL Policy" w3) as [werr w4] eqn:Hshared.
  pose proof (ssl_create_policy meta (start d w) project certs op w1 w2 v pol perr
                op' err' w3 werr w4 Hproject Hcerts Hdo Hwait Hok Hparse Hattach Hshared)
    as Hrun.
  subst tr. rewrite Hrun. clear Hrun. unfold afterInsert. cbn [rd world trace start app].
  destruct err' as [e' |]; [| destruct werr as [e'' |]]; cbn [final snd trace].
  - split; [done |]. by eexists.
  - split; [done |]. eexists. split; [done |]. by eexists _, _.
  - rewrite attachCalls_read_ssl. cbn [trace]. split; [done |].
    edestruct ssl_read_trace as (evs & -> & _). cbn [trace app].
    eexists. split; [done |]. by eexists _, _.
Qed.

(** C4. Create and the security policy.  Without a declared [ssl_policy]
    the calls of Create contain no policy-attach call, whatever else
    happens.  With a declared [ssl_policy], once the insert call was
    answered with an operation and the wait for it ended well, the trace of
    Create begins: insert, wait, identity set to the declared name, attach;
    that attach call is the only one of the whole run; and when the attach
    call is answered with an operation, the next thing Create does is wait
    for that operation.  Both resources. *)
Theorem C4_create_policy_attach meta d w :
  let https := trace (final (resourceComputeTargetHttpsProxyCreate meta (start d w))) in
  let ssl := trace (final (resourceComputeTargetSslProxyCreate meta (start d w))) in
  ((GetOk_string d "ssl_policy").2 = false → attachCalls https = [] ∧ attachCalls ssl = [])
  ∧ (∀ project certs v pol perr name,
       getProject d meta = (project, None) →
       expandSslCertificates d meta = (certs, None) →
       name = Get_string d "name" →
       GetOk_string d "ssl_policy" = (v, true) →
       ParseSslPolicyFieldValue v (SetId name d) meta = (pol, perr) →
       (∀ op w1 w2 op' err' w3,
          let req := TargetHttpsProxies_Insert project (httpsProxyOf d certs) in
          let attach := TargetHttpsProxies_SetSslPolicy project name (RelativeLink pol) in
          Do meta req w = (op, None, w1) →
          computeOperationWait meta op project "Creating Target Https Proxy" w1
            = (None, w2) →
          Do meta attach w2 = (op', err', w3) →
          attachCalls https = [attach]
          ∧ ∃ rest,
              https = [EvDo req op None;
                       EvWait op project "Creating Target Https Proxy" None;
                       EvSetId name; EvDo attach op' err'] ++ rest
              ∧ match err' with
                | Some _ => rest = []
                | None =>
                    ∃ werr rest',
                      rest = EvSharedWait op' project
                               "Adding Target HTTPS Proxy SSL Policy" werr :: rest'
                end)
       ∧ (∀ op w1 w2 op' err' w3,
          let req := TargetSslProxies_Insert project (sslProxyOf d certs) in
          let attach := TargetSslProxies_SetSslPolicy project name (RelativeLink pol) in
          Do meta req w = (op, None, w1) →
          computeOperationWait meta op project "Creating Target Ssl Proxy" w1
            = (None, w2) →
          Do meta attach w2 = (op', err', w3) →
          attachCalls ssl = [attach]
          ∧ ∃ rest,
              ssl = [EvDo req op None;
                     EvWait op project "Creating Target Ssl Proxy" None;
                     EvSetId name; EvDo attach op' err'] ++ rest
              ∧ match err' with
                | Some _ => rest = []
                | None =>
                    ∃ werr rest',
                      rest = EvSharedWait op' project
                               "Adding Target SSL Proxy SSL Policy" werr :: rest'
                end)).
Proof.
  intros https ssl. split.
  - intros Hno. split; [by apply https_create_no_attach | by apply ssl_create_no_attach].
  - intros project certs v pol perr name Hproject Hcerts -> Hok Hparse. split.
    + intros op w1 w2 op' err' w3 req attach Hdo Hwait Hattach.
      by eapply https_create_one_attach.
    + intros op w1 w2 op' err' w3 req attach Hdo Hwait Hattach.
      by eapply ssl_create_one_attach.
Qed.

(** C9. The parse error of [ssl_policy] in Create.  When Create reaches
    the policy branch and [ParseSslPolicyFieldValue] answers with a value
    [pol] and an error, the error is dropped: Create issues the attach call
    with [pol.RelativeLink()], and what it returns is decided by that call,
    the wait for its operation and the final Read alone — the error of the
    attach call behind its context string, the error of the wait, or the
    result of Read.  Both resources. *)
Theorem C9_create_drops_policy_parse_error meta d w project certs v pol e name :
  getProject d meta = (project, None) →
  expandSslCertificates d meta = (certs, None) →
  name = Get_string d "name" →
  GetOk_string d "ssl_policy" = (v, true) →
  ParseSslPolicyFieldValue v (SetId name d) meta = (pol, Some e) →
  (∀ op w1 w2 op' err' w3 werr w4,
     let req := TargetHttpsProxies_Insert project (httpsProxyOf d certs) in
     let attach := TargetHttpsProxies_SetSslPolicy project name (RelativeLink pol) in
     let r := resourceComputeTargetHttpsProxyCreate meta (start d w) in
     let s3 := afterInsert (start d w) req op project "Creating Target Https Proxy"
                 name w2 in
     Do meta req w = (op, None, w1) →
     computeOperationWait meta op project "Creating Target Https Proxy" w1 = (None, w2) →
     Do meta attach w2 = (op', err', w3) →
     computeSharedOperationWait meta op' project "Adding Target HTTPS Proxy SSL Policy" w3
       = (werr, w4) →
     EvDo attach op' err' ∈ trace (final r)
     ∧ returned r =
         match err', werr with
         | Some e', _ =>
             Some (errwrap_Wrapf "Error setting Target HTTPS Proxy SSL Policy: " e')
         | None, Some e'' => Some e''
         | None, None =>
             returned (resourceComputeTargetHttpsProxyRead meta
               (mkState (rd s3) w4
                  (trace s3 ++
                     [EvDo attach op' None;
                      EvSharedWait op' project "Adding Target HTTPS Proxy SSL Policy"
                        None])))
         end)
  ∧ (∀ op w1 w2 op' err' w3 werr w4,
     let req := TargetSslProxies_Insert project (sslProxyOf d certs) in
     let attach := TargetSslProxies_SetSslPolicy project name (RelativeLink pol) in
     let r := resourceComputeTargetSslProxyCreate meta (start d w) in
     let s3 := afterInsert (start d w) req op project "Creating Target Ssl Proxy"
                 name w2 in
     Do meta req w = (op, None, w1) →
     computeOperationWait meta op project "Creating Target Ssl Proxy" w1 = (None, w2) →
     Do meta attach w2 = (op', err', w3) →
     computeSharedOperationWait meta op' project "Adding Target SSL Proxy SSL Policy" w3
       = (werr, w4) →
     EvDo attach op' err' ∈ trace (final r)
     ∧ returned r =
         match err', werr with
         | Some e', _ => Some (errwrap_Wrapf "Error setting SSL Policy: " e')
         | None, Some e'' => Some e''
         | None, None =>
             returned (resourceComputeTargetSslProxyRead meta
               (mkState (rd s3) w4
                  (trace s3 ++
                     [EvDo attach op' None;
                      EvSharedWait op' project "Adding Target SSL Proxy SSL Policy"
                        None])))
         end).
Proof.
  intros Hproject Hcerts -> Hok Hparse. split.
  - intros op w1 w2 op' err' w3 werr w4 req attach r s3 Hdo Hwait Hattach Hshared.
    subst r. erewrite https_create_policy by done. fold req attach s3.
    destruct err' as [e' |]; [| destruct werr as [e'' |]].
    + split; [| done]. subst s3. unfold afterInsert. cbn. set_solver.
    + split; [| done]. subst s3. unfold afterInsert. cbn. set_solver.
    + split; [| done].
      edestruct https_read_trace as (evs & -> & _).
      subst s3. unfold afterInsert. cbn. set_solver.
  - intros op w1 w2 op' err' w3 werr w4 req attach r s3 Hdo Hwait Hattach Hshared.
    subst r. erewrite ssl_create_policy by done. fold req attach s3.
    destruct err' as [e' |]; [| destruct werr as [e'' |]].
    + split; [| done]. subst s3. unfold afterInsert. cbn. set_solver.
    + split; [| done]. subst s3. unfold afterInsert. cbn. set_solver.
    + split; [| done].
      edestruct ssl_read_trace as (evs & -> & _).
      subst s3. unfold afterInsert. cbn. set_solver.
Qed.

(** ** Successful runs *)

Lemma https_read_success meta s :
  returned (resourceComputeTargetHttpsProxyRead meta s) = None →
  (∃ project proxy w',
      resourceComputeTargetHttpsProxyRead meta s =
        (Ok tt, mkState (readHttps project proxy (rd s)) w'
                  (trace s ++ [EvGetHttps project (Id (rd s)) proxy None])))
  ∨ (∃ project proxy e w',
      isNotFound e = true
      ∧ resourceComputeTargetHttpsProxyRead meta s =
          (Ok tt, mkState (SetId "" (rd s)) w'
                    (trace s ++ [EvGetHttps project (Id (rd s)) proxy (Some e);
                                 EvSetId ""]))).
Proof.
  destruct (getProject (rd s) meta) as [project [e |]] eqn:Hproject;
    [by erewrite https_read_noproject |].
  destruct (TargetHttpsProxies_Get meta project (Id (rd s)) (world s))
    as [[proxy [e |]] w'] eqn:Hget.
  - destruct (isNotFound e) eqn:Hnf.
    + intros _. right. exists project, proxy, e, w'. split; [done |].
      erewrite https_read_absent by done. by rewrite <- app_assoc.
    + by erewrite https_read_error.
  - intros _. left. exists project, proxy, w'. by erewrite https_read_found.
Qed.

Lemma ssl_read_success meta s :
  returned (resourceComputeTargetSslProxyRead meta s) = None →
  (∃ project proxy w',
      resourceComputeTargetSslProxyRead meta s =
        (Ok tt, mkState (readSsl project proxy (rd s)) w'
                  (trace s ++ [EvGetSsl project (Id (rd s)) proxy None])))
  ∨ (∃ project proxy e w',
      isNotFound e = true
      ∧ resourceComputeTargetSslProxyRead meta s =
          (Ok tt, mkState (SetId "" (rd s)) w'
                    (trace s ++ [EvGetSsl project (Id (rd s)) proxy (Some e);
                                 EvSetId ""]))).
Proof.
  destruct (getProject (rd s) meta) as [project [e |]] eqn:Hproject;
    [by erewrite ssl_read_noproject |].
  destruct (TargetSslProxies_Get meta project (Id (rd s)) (world s))
    as [[proxy [e |]] w'] eqn:Hget.
  - destruct (isNotFound e) eqn:Hnf.
    + intros _. right. exists project, proxy, e, w'. split; [done |].
      erewrite ssl_read_absent by done. by rewrite <- app_assoc.
    + by erewrite ssl_read_error.
  - intros _. left. exists project, proxy, w'. by erewrite ssl_read_found.
Qed.

Lemma https_read_reconciles meta s :
  returned (resourceComputeTargetHttpsProxyRead meta s) = None →
  httpsReconciled (final (resourceComputeTargetHttpsProxyRead meta s)).
Proof.
  intros [(project & proxy & w' & ->) | (project & proxy & e & w' & Hnf & ->)]%https_read_success.
  - left. exists (trace s), project, (Id (rd s)), proxy. split; [done |].
    apply readHttps_agrees.
  - right. by exists (trace s), project, (Id (rd s)), proxy, e.
Qed.

Lemma ssl_read_reconciles meta s :
  returned (resourceComputeTargetSslProxyRead meta s) = None →
  sslReconciled (final (resourceComputeTargetSslProxyRead meta s)).
Proof.
  intros [(project & proxy & w' & ->) | (project & proxy & e & w' & Hnf & ->)]%ssl_read_success.
  - left. exists (trace s), project, (Id (rd s)), proxy. split; [done |].
    apply readSsl_agrees.
  - right. by exists (trace s), project, (Id (rd s)), proxy, e.
Qed.

(** A Create that returns no error resolved the project, expanded the
    certificate references, sent them in the insert call, and ended in
    Read. *)
Lemma https_create_success meta s :
  returned (resourceComputeTargetHttpsProxyCreate meta s) = None →
  ∃ project certs s' evs,
    getProject (rd s) meta = (project, None)
    ∧ expandSslCertificates (rd s) meta = (certs, None)
    ∧ resourceComputeTargetHttpsProxyCreate meta s
      = resourceComputeTargetHttpsProxyRead meta s'
    ∧ trace s' = trace s ++ evs
    ∧ TargetHttpsProxies_Insert project (httpsProxyOf (rd s) certs) ∈ requests evs.
Proof.
  destruct (getProject (rd s) meta) as [project [e |]] eqn:Hproject;
    [by erewrite https_create_noproject |].
  destruct (expandSslCertificates (rd s) meta) as [certs [e |]] eqn:Hcerts;
    [by erewrite https_create_badcert |].
  destruct (Do meta (TargetHttpsProxies_Insert project (httpsProxyOf (rd s) certs))
              (world s)) as [[op [e |]] w1] eqn:Hdo;
    [by erewrite https_create_rejected |].
  destruct (computeOperationWait meta op project "Creating Target Https Proxy" w1)
    as [[e |] w2] eqn:Hwait; [by erewrite https_create_wait_failed |].
  destruct (GetOk_string (rd s) "ssl_policy") as [v [|]] eqn:Hok.
  - destruct (ParseSslPolicyFieldValue v
                (SetId (Get_string (rd s) "name") (rd s)) meta) as [pol perr] eqn:Hparse.
    destruct (Do meta (TargetHttpsProxies_SetSslPolicy project (Get_string (rd s) "name")
                         (RelativeLink pol)) w2) as [[op' err'] w3] eqn:Hattach.
    destruct (computeSharedOperationWait meta op' project
                "Adding Target HTTPS Proxy SSL Policy" w3) as [werr w4] eqn:Hshared.
    erewrite https_create_policy by done.
    destruct err' as [e' |]; [done |]. destruct werr as [e'' |]; [done |].
    intros _. eexists project, certs, _, _. split_and!; [done | done | done | | ].
    + unfold afterInsert. cbn [trace]. by rewrite <- app_assoc.
    + cbn. set_solver.
  - erewrite https_create_nopolicy by done.
    intros _. eexists project, certs, _, _. split_and!; [done | done | done | | ].
    + by unfold afterInsert.
    + cbn. set_solver.
Qed.

Lemma ssl_create_success meta s :
  returned (resourceComputeTargetSslProxyCreate meta s) = None →
  ∃ project certs s' evs,
    getProject (rd s) meta = (project, None)
    ∧ expandSslCertificates (rd s) meta = (certs, None)
    ∧ resourceComputeTargetSslProxyCreate meta s
      = resourceComputeTargetSslProxyRead meta s'
    ∧ trace s' = trace s ++ evs
    ∧ TargetSslProxies_Insert project (sslProxyOf (rd s) certs) ∈ requests evs.
Proof.
  destruct (getProject (rd s) meta) as [project [e |]] eqn:Hproject;
    [by erewrite ssl_create_noproject |].
  destruct (expandSslCertificates (rd s) meta) as [certs [e |]] eqn:Hcerts;
    [by erewrite ssl_create_badcert |].
  destruct (Do meta (TargetSslProxies_Insert project (sslProxyOf (rd s) certs))
              (world s)) as [[op [e |]] w1] eqn:Hdo;
    [by erewrite ssl_create_rejected |].
  destruct (computeOperationWait meta op project "Creating Target Ssl Proxy" w1)
    as [[e |] w2] eqn:Hwait; [by erewrite ssl_create_wait_failed |].
  destruct (GetOk_string (rd s) "ssl_policy") as [v [|]] eqn:Hok.
  - destruct (ParseSslPolicyFieldValue v
                (SetId (Get_string (rd s) "name") (rd s)) meta) as [pol perr] eqn:Hparse.
    destruct (Do meta (TargetSslProxies_SetSslPolicy project (Get_string (rd s) "name")
                         (RelativeLink pol)) w2) as [[op' err'] w3] eqn:Hattach.
    destruct (computeSharedOperationWait meta op' project
                "Adding Target SSL Proxy SSL Policy" w3) as [werr w4] eqn:Hshared.
    erewrite ssl_create_policy by done.
    destruct err' as [e' |]; [done |]. destruct werr as [e'' |]; [done |].
    intros _. eexists project, certs, _, _. split_and!; [done | done | done | | ].
    + unfold afterInsert. cbn [trace]. by rewrite <- app_assoc.
    + cbn. set_solver.
  - erewrite ssl_create_nopolicy by done.
    intros _. eexists project, certs, _, _. split_and!; [done | done | done | | ].
    + by unfold afterInsert.
    + cbn. set_solver.
Qed.

Lemma httpsProxyOf_SslCertificates d certs :
  TargetHttpsProxy.SslCertificates (httpsProxyOf d certs) = certs.
Proof. unfold httpsProxyOf. by destruct (GetOk_string d "description") as [v []]. Qed.

Lemma sslProxyOf_SslCertificates d certs :
  TargetSslProxy.SslCertificates (sslProxyOf d certs) = certs.
Proof. done. Qed.

Lemma Get_list_readHttps project proxy d :
  Get_list (readHttps project proxy d) "ssl_certificates"
  = TargetHttpsProxy.SslCertificates proxy.
Proof. apply readHttps_agrees. Qed.

Lemma Get_list_readSsl project proxy d :
  Get_list (readSsl project proxy d) "ssl_certificates"
  = TargetSslProxy.SslCertificates proxy.
Proof. apply readSsl_agrees. Qed.

(** Create, then Read, on a remote side that still has the object and
    echoes the certificate references. *)
Lemma https_create_read_certificates meta d w :
  let r1 := resourceComputeTargetHttpsProxyCreate meta (start d w) in
  let r2 := resourceComputeTargetHttpsProxyRead meta (final r1) in
  returned r1 = None → returned r2 = None →
  fetchesSucceed (trace (final r2)) → httpsEchoes (trace (final r2)) →
  Get_list (rd (final r2)) "ssl_certificates"
  = map (canonical d meta) (Get_list d "ssl_certificates").
Proof.
  intros r1 r2 Hr1 Hr2 Hfetch Hecho.
  destruct (https_create_success _ _ Hr1)
    as (project & certs & s' & evs & Hproject & Hcerts & Hrun & Htrace & Hinsert).
  cbn [rd start trace app] in *. apply expandSslCertificates_ok in Hcerts.
  assert (∃ evs1, trace (final r1) = evs ++ evs1) as [evs1 Htr1].
  { subst r1. rewrite Hrun. destruct (https_read_trace meta s') as (evs1 & -> & _).
    rewrite Htrace. by eexists. }
  destruct (https_read_success _ _ Hr2)
    as [(project2 & proxy & w' & Hread) | (project2 & proxy & e & w' & Hnf & Hread)];
    subst r2; rewrite Hread in *; cbn [final snd rd trace] in *.
  - rewrite Get_list_readHttps, <- Hcerts, <- (httpsProxyOf_SslCertificates d certs).
    unfold httpsEchoes in Hecho. rewrite forallb_forall in Hecho.
    specialize (Hecho (TargetHttpsProxies_Insert project (httpsProxyOf d certs))).
    cbn beta iota in Hecho. rewrite forallb_forall in Hecho.
    rename Hecho into Hecho0.
    assert (In (TargetHttpsProxies_Insert project (httpsProxyOf d certs))
              (requests (trace (final r1) ++
                 [EvGetHttps project2 (Id (rd (final r1))) proxy None]))) as Hin.
    { rewrite Htr1, <- app_assoc, requests_app. apply in_or_app. left.
      by apply list_elem_of_In. }
    specialize (Hecho0 Hin (EvGetHttps project2 (Id (rd (final r1))) proxy None)).
    cbn [httpsEchoAt] in Hecho0. apply bool_decide_eq_true in Hecho0; [done |].
    apply in_or_app. right. by left.
  - unfold fetchesSucceed in Hfetch. rewrite forallb_forall in Hfetch.
    specialize (Hfetch (EvGetHttps project2 (Id (rd (final r1))) proxy (Some e))).
    cbn in Hfetch. discriminate Hfetch. apply in_or_app. right. by left.
Qed.

Lemma ssl_create_read_certificates meta d w :
  let r1 := resourceComputeTargetSslProxyCreate meta (start d w) in
  let r2 := resourceComputeTargetSslProxyRead meta (final r1) in
  returned r1 = None → returned r2 = None →
  fetchesSucceed (trace (final r2)) → sslEchoes (trace (final r2)) →
  Get_list (rd (final r2)) "ssl_certificates"
  = map (canonical d meta) (Get_list d "ssl_certificates").
Proof.
  intros r1 r2 Hr1 Hr2 Hfetch Hecho.
  destruct (ssl_create_success _ _ Hr1)
    as (project & certs & s' & evs & Hproject & Hcerts & Hrun & Htrace & Hinsert).
  cbn [rd start trace app] in *. apply expandSslCertificates_ok in Hcerts.
  assert (∃ evs1, trace (final r1) = evs ++ evs1) as [evs1 Htr1].
  { subst r1. rewrite Hrun. destruct (ssl_read_trace meta s') as (evs1 & -> & _).
    rewrite Htrace. by eexists. }
  destruct (ssl_read_success _ _ Hr2)
    as [(project2 & proxy & w' & Hread) | (project2 & proxy & e & w' & Hnf & Hread)];
    subst r2; rewrite Hread in *; cbn [final snd rd trace] in *.
  - rewrite Get_list_readSsl, <- Hcerts, <- (sslProxyOf_SslCertificates d certs).
    unfold sslEchoes in Hecho. rewrite forallb_forall in Hecho.
    specialize (Hecho (TargetSslProxies_Insert project (sslProxyOf d certs))).
    cbn beta iota in Hecho. rewrite forallb_forall in Hecho.
    rename Hecho into Hecho0.
    assert (In (TargetSslProxies_Insert project (sslProxyOf d certs))
              (requests (trace (final r1) ++
                 [EvGetSsl project2 (Id (rd (final r1))) proxy None]))) as Hin.
    { rewrite Htr1, <- app_assoc, requests_app. apply in_or_app. left.
      by apply list_elem_of_In. }
    specialize (Hecho0 Hin (EvGetSsl project2 (Id (rd (final r1))) proxy None)).
    cbn [sslEchoAt] in Hecho0. apply bool_decide_eq_true in Hecho0; [done |].
    apply in_or_app. right. by left.
  - unfold fetchesSucceed in Hfetch. rewrite forallb_forall in Hfetch.
    specialize (Hfetch (EvGetSsl project2 (Id (rd (final r1))) proxy (Some e))).
    cbn in Hfetch. discriminate Hfetch. apply in_or_app. right. by left.
Qed.

(** ** Update *)

Lemma requests_read_https meta s :
  requests (trace (final (resourceComputeTargetHttpsProxyRead meta s)))
  = requests (trace s).
Proof.
  destruct (https_read_trace meta s) as (evs & -> & Hreq & _).
  by rewrite requests_app, Hreq, app_nil_r.
Qed.

Lemma requests_read_ssl meta s :
  requests (trace (final (resourceComputeTargetSslProxyRead meta s)))
  = requests (trace s).
Proof.
  destruct (ssl_read_trace meta s) as (evs & -> & Hreq & _).
  by rewrite requests_app, Hreq, app_nil_r.
Qed.

Lemma surfaces_refl e : surfaces e e.
Proof. by exists "". Qed.

Lemma surfaces_Errorf prefix e : surfaces e (fmt_Errorf prefix e).
Proof. by exists prefix. Qed.

Lemma surfaces_Wrapf prefix e : surfaces e (errwrap_Wrapf prefix e).
Proof. by exists prefix. Qed.

Ltac use_equations :=
  repeat match goal with
         | H : ?x = _ |- context [?x] => rewrite H
         end.

Ltac update_leaf :=
  lazymatch goal with
  | |- updateOutcome ?read _ _ (?read _) =>
      left; eexists; split_and!;
        [ reflexivity | cbn [trace requests app]; use_equations; reflexivity
        | cbn [trace app]; repeat constructor
        | reflexivity ]
  | |- _ =>
      right;
      first
        [ solve [ left; eexists _, _, _, _; split_and!;
                  [ reflexivity | cbn [app]; repeat constructor | reflexivity
                  | reflexivity | reflexivity
                  | first [ apply surfaces_refl | apply surfaces_Errorf ]
                  | cbn [requests app]; use_equations; cbn [fst snd app]; by eexists
                  | reflexivity ] ]
        | right; eexists; split_and!;
            [ reflexivity | cbn [trace final snd app]; repeat constructor
            | cbn [trace final snd requests app]; use_equations;
              cbn [fst snd app]; by eexists
            | reflexivity ] ]
  end.

Lemma https_update_outcome meta d w project :
  getProject d meta = (project, None) →
  updateOutcome (resourceComputeTargetHttpsProxyRead meta)
    (httpsUpdateRequests meta d project) d
    (resourceComputeTargetHttpsProxyUpdate meta (start d w)).
Proof.
  intros Hproject. unfold resourceComputeTargetHttpsProxyUpdate.
  run_go.
  all: unfold httpsUpdateRequests; update_leaf.
Qed.

Lemma ssl_update_outcome meta d w project :
  getProject d meta = (project, None) →
  updateOutcome (resourceComputeTargetSslProxyRead meta)
    (sslUpdateRequests meta d project) d
    (resourceComputeTargetSslProxyUpdate meta (start d w)).
Proof.
  intros Hproject. unfold resourceComputeTargetSslProxyUpdate.
  run_go.
  all: unfold sslUpdateRequests; update_leaf.
Qed.

Lemma https_update_noproject meta s project e :
  getProject (rd s) meta = (project, Some e) →
  resourceComputeTargetHttpsProxyUpdate meta s = (Err e, s).
Proof. intros. unfold resourceComputeTargetHttpsProxyUpdate. run_go. done. Qed.

Lemma ssl_update_noproject meta s project e :
  getProject (rd s) meta = (project, Some e) →
  resourceComputeTargetSslProxyUpdate meta s = (Err e, s).
Proof. intros. unfold resourceComputeTargetSslProxyUpdate. run_go. done. Qed.

Ltac pick_request :=
  first
    [ solve [eexists; split; [by constructor | reflexivity]]
    | solve [eexists; split; [by do 1 constructor; constructor | reflexivity]]
    | solve [eexists; split; [by do 2 constructor; constructor | reflexivity]]
    | solve [eexists; split; [by do 3 constructor; constructor | reflexivity]] ].

Lemma httpsUpdateRequests_changed meta d project req :
  req ∈ httpsUpdateRequests meta d project →
  ∃ k, k ∈ httpsGroups ∧ groupOf req = Some k ∧ HasChange d k = true.
Proof.
  unfold httpsUpdateRequests, httpsGroups.
  destruct (HasChange d "url_map") eqn:?, (HasChange d "ssl_certificates") eqn:?,
    (HasChange d "ssl_policy") eqn:?; cbn [app];
    intros Hin; repeat (apply elem_of_cons in Hin as [-> | Hin]);
    try (by apply elem_of_nil in Hin);
    cbn [groupOf]; eexists; (split; [| split; [reflexivity | done]]); set_solver.
Qed.

Lemma httpsUpdateRequests_issued meta d project k :
  k ∈ httpsGroups → HasChange d k = true →
  ∃ req, req ∈ httpsUpdateRequests meta d project ∧ groupOf req = Some k.
Proof.
  unfold httpsUpdateRequests, httpsGroups. intros Hk Hc.
  destruct (HasChange d "url_map") eqn:?, (HasChange d "ssl_certificates") eqn:?,
    (HasChange d "ssl_policy") eqn:?; cbn [app];
    repeat (apply elem_of_cons in Hk as [-> | Hk]); try (by apply elem_of_nil in Hk);
    try congruence; pick_request.
Qed.

Lemma sslUpdateRequests_changed meta d project req :
  req ∈ sslUpdateRequests meta d project →
  ∃ k, k ∈ sslGroups ∧ groupOf req = Some k ∧ HasChange d k = true.
Proof.
  unfold sslUpdateRequests, sslGroups.
  destruct (HasChange d "proxy_header") eqn:?, (HasChange d "backend_service") eqn:?,
    (HasChange d "ssl_certificates") eqn:?, (HasChange d "ssl_policy") eqn:?; cbn [app];
    intros Hin; repeat (apply elem_of_cons in Hin as [-> | Hin]);
    try (by apply elem_of_nil in Hin);
    cbn [groupOf]; eexists; (split; [| split; [reflexivity | done]]); set_solver.
Qed.

Lemma sslUpdateRequests_issued meta d project k :
  k ∈ sslGroups → HasChange d k = true →
  ∃ req, req ∈ sslUpdateRequests meta d project ∧ groupOf req = Some k.
Proof.
  unfold sslUpdateRequests, sslGroups. intros Hk Hc.
  destruct (HasChange d "proxy_header") eqn:?, (HasChange d "backend_service") eqn:?,
    (HasChange d "ssl_certificates") eqn:?, (HasChange d "ssl_policy") eqn:?; cbn [app];
    repeat (apply elem_of_cons in Hk as [-> | Hk]); try (by apply elem_of_nil in Hk);
    try congruence; pick_request.
Qed.

Lemma updateOutcome_prefix read expected d r :
  (∀ s, requests (trace (final (read s))) = requests (trace s)) →
  updateOutcome read expected d r →
  requests (trace (final r)) `prefix_of` expected.
Proof.
  intros Hread [(s' & -> & <- & _) | [(tr1 & ev & e & e' & -> & _ & _ & _ & _ & _ & Hp & _)
                                     | (e & _ & _ & Hp & _)]]; [| done..].
  by rewrite Hread.
Qed.

Lemma updateOutcome_complete read expected d r :
  (∀ s, requests (trace (final (read s))) = requests (trace s)) →
  updateOutcome read expected d r →
  returned r = None →
  requests (trace (final r)) = expected ∧ ∃ s', r = read s' ∧ rd s' = resetPartial d.
Proof.
  intros Hread [(s' & -> & <- & _ & Hrd) | [(tr1 & ev & e & e' & _ & _ & _ & _ & Hr & _)
                                     | (e & Hr & _)]] Hnone; [| congruence..].
  split; [by rewrite Hread | by exists s'].
Qed.

Lemma https_update_only_url_map meta d w project :
  getProject d meta = (project, None) →
  HasChange d "url_map" = true →
  HasChange d "ssl_certificates" = false →
  HasChange d "ssl_policy" = false →
  requests (trace (final (resourceComputeTargetHttpsProxyUpdate meta (start d w))))
  = [TargetHttpsProxies_SetUrlMap project (Id d) (Get_string d "url_map")].
Proof.
  intros. unfold resourceComputeTargetHttpsProxyUpdate. run_go.
  all: by rewrite ?requests_read_https.
Qed.

Lemma ssl_update_only_proxy_header meta d w project :
  getProject d meta = (project, None) →
  HasChange d "proxy_header" = true →
  HasChange d "backend_service" = false →
  HasChange d "ssl_certificates" = false →
  HasChange d "ssl_policy" = false →
  requests (trace (final (resourceComputeTargetSslProxyUpdate meta (start d w))))
  = [TargetSslProxies_SetProxyHeader project (Id d) (Get_string d "proxy_header")].
Proof.
  intros. unfold resourceComputeTargetSslProxyUpdate. run_go.
  all: by rewrite ?requests_read_ssl.
Qed.

(** C5, as the code has it.  Update issues the call of a field group only
    if the declared value of the group differs from the last-known one.
    When the project is resolved, the calls come in the order of the
    groups, each at most once: they are an initial part of the list of the
    calls of the changed groups.  When Update returns no error, the calls
    are that whole list, so that the call of a group was issued if and
    only if the group changed.  When only [proxy_header] changed (SSL
    proxy), the one call issued is the one that sets the proxy header;
    when only [url_map] changed (HTTPS proxy), the one that sets the URL
    map. *)
Theorem C5_update_calls_follow_changes meta d w :
  let https := resourceComputeTargetHttpsProxyUpdate meta (start d w) in
  let ssl := resourceComputeTargetSslProxyUpdate meta (start d w) in
  (∀ k, issued k (trace (final https)) ∨ issued k (trace (final ssl)) →
        HasChange d k = true)
  ∧ (∀ project,
       getProject d meta = (project, None) →
       (requests (trace (final https)) `prefix_of` httpsUpdateRequests meta d project
        ∧ requests (trace (final ssl)) `prefix_of` sslUpdateRequests meta d project)
       ∧ (returned https = None →
            requests (trace (final https)) = httpsUpdateRequests meta d project
            ∧ ∀ k, k ∈ httpsGroups →
                   (issued k (trace (final https)) ↔ HasChange d k = true))
       ∧ (returned ssl = None →
            requests (trace (final ssl)) = sslUpdateRequests meta d project
            ∧ ∀ k, k ∈ sslGroups →
                   (issued k (trace (final ssl)) ↔ HasChange d k = true))
       ∧ (HasChange d "proxy_header" = true →
          HasChange d "backend_service" = false →
          HasChange d "ssl_certificates" = false →
          HasChange d "ssl_policy" = false →
          requests (trace (final ssl))
          = [TargetSslProxies_SetProxyHeader project (Id d)
               (Get_string d "proxy_header")])
       ∧ (HasChange d "url_map" = true →
          HasChange d "ssl_certificates" = false →
          HasChange d "ssl_policy" = false →
          requests (trace (final https))
          = [TargetHttpsProxies_SetUrlMap project (Id d) (Get_string d "url_map")])).
Proof.
  intros https ssl.
  destruct (getProject d meta) as [project [e0 |]] eqn:Hproject.
  { split; [| by intros].
    subst https ssl.
    rewrite (https_update_noproject meta (start d w) project e0 Hproject),
            (ssl_update_noproject meta (start d w) project e0 Hproject).
    intros k [(req & Hin & _) | (req & Hin & _)]; by apply elem_of_nil in Hin. }
  pose proof (https_update_outcome meta d w project Hproject) as Hhttps.
  pose proof (ssl_update_outcome meta d w project Hproject) as Hssl.
  pose proof (updateOutcome_prefix _ _ _ _ (requests_read_https meta) Hhttps) as Hp1.
  pose proof (updateOutcome_prefix _ _ _ _ (requests_read_ssl meta) Hssl) as Hp2.
  fold https in Hp1, Hhttps. fold ssl in Hp2, Hssl.
  assert (∀ k, issued k (trace (final https)) → HasChange d k = true) as Honly1.
  { intros k (req & Hin & Hg). destruct Hp1 as [rest Hp1].
    destruct (httpsUpdateRequests_changed meta d project req) as (k' & _ & Hg' & Hc).
    - rewrite Hp1. apply elem_of_app. by left.
    - congruence. }
  assert (∀ k, issued k (trace (final ssl)) → HasChange d k = true) as Honly2.
  { intros k (req & Hin & Hg). destruct Hp2 as [rest Hp2].
    destruct (sslUpdateRequests_changed meta d project req) as (k' & _ & Hg' & Hc).
    - rewrite Hp2. apply elem_of_app. by left.
    - congruence. }
  split; [intros k [? | ?]; auto |].
  intros project' Heq. simplify_eq. split_and!.
  - done.
  - done.
  - intros Hnone.
    destruct (updateOutcome_complete _ _ _ _ (requests_read_https meta) Hhttps Hnone)
      as [Heq _].
    split; [done |]. intros k Hk. split; [by apply Honly1 |].
    intros Hc. unfold issued. rewrite Heq. by apply httpsUpdateRequests_issued.
  - intros Hnone.
    destruct (updateOutcome_complete _ _ _ _ (requests_read_ssl meta) Hssl Hnone)
      as [Heq _].
    split; [done |]. intros k Hk. split; [by apply Honly2 |].
    intros Hc. unfold issued. rewrite Heq. by apply sslUpdateRequests_issued.
  - intros. by apply ssl_update_only_proxy_header.
  - intros. by apply https_update_only_url_map.
Qed.

Lemma failing_event_is_last tr1' ev' tr1 ev tr2 :
  tr1' ++ [ev'] = tr1 ++ ev :: tr2 →
  Forall succeeded tr1' → failure ev ≠ None →
  tr2 = [] ∧ tr1 = tr1' ∧ ev = ev'.
Proof.
  intros Heq Hok Hfail.
  destruct tr2 as [| x tr2 _] using rev_ind.
  - apply app_inj_tail in Heq as [-> ->]. done.
  - rewrite app_comm_cons, app_assoc in Heq.
    apply app_inj_tail in Heq as [-> _].
    apply Forall_app in Hok as [_ Hok]. apply Forall_cons in Hok as [Hok _].
    by destruct Hfail.
Qed.

Lemma updateOutcome_stops read expected d r tr1 ev tr2 e :
  (∀ s, ∃ evs, trace (final (read s)) = trace s ++ evs
               ∧ Forall (λ ev, isGet ev = true ∨ failure ev = None) evs) →
  updateOutcome read expected d r →
  trace (final r) = tr1 ++ ev :: tr2 →
  isGet ev = false → failure ev = Some e →
  tr2 = [] ∧ Forall succeeded tr1
  ∧ (∃ e', returned r = Some e' ∧ surfaces e e')
  ∧ rd_partial (rd (final r)) = true
  ∧ requests (tr1 ++ [ev]) `prefix_of` expected.
Proof.
  intros Hread Hout Htrace Hget Hfail.
  assert (ev ∈ trace (final r)) as Hin.
  { rewrite Htrace. apply elem_of_app. right. by constructor. }
  destruct Hout as [(s' & -> & _ & Hok & _)
                   | [(tr1' & ev' & e0 & e' & Htr & Hok & Hf & _ & Hr & Hs & Hp & Hpartial)
                     | (e0 & _ & Hok & _)]].
  - destruct (Hread s') as (evs & Hevs & Hall). rewrite Hevs in Hin.
    apply elem_of_app in Hin as [Hin | Hin].
    + rewrite Forall_forall in Hok. apply Hok in Hin. unfold succeeded in Hin. congruence.
    + rewrite Forall_forall in Hall. apply Hall in Hin as [? | ?]; congruence.
  - rewrite Htr in Htrace.
    apply failing_event_is_last in Htrace as (-> & -> & ->); [| done | congruence].
    split_and!; try done. exists e'. split; [done |]. congruence.
  - rewrite Forall_forall in Hok. apply Hok in Hin. unfold succeeded in Hin. congruence.
Qed.

Lemma https_read_events meta s :
  ∃ evs, trace (final (resourceComputeTargetHttpsProxyRead meta s)) = trace s ++ evs
         ∧ Forall (λ ev, isGet ev = true ∨ failure ev = None) evs.
Proof. destruct (https_read_trace meta s) as (evs & ? & _ & _ & ?). by exists evs. Qed.

Lemma ssl_read_events meta s :
  ∃ evs, trace (final (resourceComputeTargetSslProxyRead meta s)) = trace s ++ evs
         ∧ Forall (λ ev, isGet ev = true ∨ failure ev = None) evs.
Proof. destruct (ssl_read_trace meta s) as (evs & ? & _ & _ & ?). by exists evs. Qed.

(** C6. A failure in Update.  When a call of a field group, or the wait
    for its operation, is answered with an error, that event is the last
    of the trace: Update issues nothing after it (no later group, no call
    that undoes an earlier one, no Read); everything before it was answered
    without error, so the groups updated before stay updated; Update
    returns an error that carries the text of the failure; and [d] is left
    in partial mode.  The calls issued up to and including the failing
    group are an initial part of the calls of the changed groups.  Both
    resources. *)
Theorem C6_update_stops_at_first_failure meta d w tr1 ev tr2 e :
  isGet ev = false → failure ev = Some e →
  (let r := resourceComputeTargetHttpsProxyUpdate meta (start d w) in
   trace (final r) = tr1 ++ ev :: tr2 →
   tr2 = [] ∧ Forall succeeded tr1
   ∧ (∃ e', returned r = Some e' ∧ surfaces e e')
   ∧ rd_partial (rd (final r)) = true
   ∧ ∃ project, getProject d meta = (project, None)
       ∧ requests (tr1 ++ [ev]) `prefix_of` httpsUpdateRequests meta d project)
  ∧ (let r := resourceComputeTargetSslProxyUpdate meta (start d w) in
     trace (final r) = tr1 ++ ev :: tr2 →
     tr2 = [] ∧ Forall succeeded tr1
     ∧ (∃ e', returned r = Some e' ∧ surfaces e e')
     ∧ rd_partial (rd (final r)) = true
     ∧ ∃ project, getProject d meta = (project, None)
         ∧ requests (tr1 ++ [ev]) `prefix_of` sslUpdateRequests meta d project).
Proof.
  intros Hget Hfail. split.
  - intros r Htrace. subst r.
    destruct (getProject d meta) as [project [e0 |]] eqn:Hproject.
    { erewrite https_update_noproject in Htrace by done. cbn in Htrace.
      by destruct tr1. }
    destruct (updateOutcome_stops _ _ _ _ _ _ _ _ (https_read_events meta)
                (https_update_outcome meta d w project Hproject) Htrace Hget Hfail)
      as (? & ? & ? & ? & ?).
    split_and!; try done. by exists project.
  - intros r Htrace. subst r.
    destruct (getProject d meta) as [project [e0 |]] eqn:Hproject.
    { erewrite ssl_update_noproject in Htrace by done. cbn in Htrace.
      by destruct tr1. }
    destruct (updateOutcome_stops _ _ _ _ _ _ _ _ (ssl_read_events meta)
                (ssl_update_outcome meta d w project Hproject) Htrace Hget Hfail)
      as (? & ? & ? & ? & ?).
    split_and!; try done. by exists project.
Qed.

(** ** Update without changes *)

Lemma https_update_unchanged meta d w project :
  getProject d meta = (project, None) →
  Forall (λ k, HasChange d k = false) httpsGroups →
  resourceComputeTargetHttpsProxyUpdate meta (start d w)
  = resourceComputeTargetHttpsProxyRead meta (mkState (resetPartial d) w []).
Proof.
  intros Hproject Hsame. unfold httpsGroups in Hsame.
  repeat (apply Forall_cons in Hsame as [? Hsame]). clear Hsame.
  unfold resourceComputeTargetHttpsProxyUpdate. run_go. done.
Qed.

Lemma ssl_update_unchanged meta d w project :
  getProject d meta = (project, None) →
  Forall (λ k, HasChange d k = false) sslGroups →
  resourceComputeTargetSslProxyUpdate meta (start d w)
  = resourceComputeTargetSslProxyRead meta (mkState (resetPartial d) w []).
Proof.
  intros Hproject Hsame. unfold sslGroups in Hsame.
  repeat (apply Forall_cons in Hsame as [? Hsame]). clear Hsame.
  unfold resourceComputeTargetSslProxyUpdate. run_go. done.
Qed.

(** What Read does to [d]: nothing, or it clears the identity, or it
    writes the fields of the fetched proxy. *)
Lemma https_read_rd meta s :
  let d' := rd (final (resourceComputeTargetHttpsProxyRead meta s)) in
  d' = rd s ∨ d' = SetId "" (rd s) ∨ ∃ project proxy, d' = readHttps project proxy (rd s).
Proof.
  unfold resourceComputeTargetHttpsProxyRead, handleNotFoundError. run_go; eauto.
Qed.

Lemma ssl_read_rd meta s :
  let d' := rd (final (resourceComputeTargetSslProxyRead meta s)) in
  d' = rd s ∨ d' = SetId "" (rd s) ∨ ∃ project proxy, d' = readSsl project proxy (rd s).
Proof.
  unfold resourceComputeTargetSslProxyRead, handleNotFoundError. run_go; eauto.
Qed.

Lemma https_read_frame meta s :
  let d' := rd (final (resourceComputeTargetHttpsProxyRead meta s)) in
  (∀ k, k ∉ httpsReadKeys → Get d' k = Get (rd s) k)
  ∧ rd_state d' = rd_state (rd s) ∧ rd_diff d' = rd_diff (rd s).
Proof.
  intros d'. destruct (https_read_rd meta s) as [Hd | [Hd | (project & proxy & Hd)]];
    fold d' in Hd; rewrite Hd; split_and!; try done.
  intros k Hk. by apply readHttps_frame.
Qed.

Lemma ssl_read_frame meta s :
  let d' := rd (final (resourceComputeTargetSslProxyRead meta s)) in
  (∀ k, k ∉ sslReadKeys → Get d' k = Get (rd s) k)
  ∧ rd_state d' = rd_state (rd s) ∧ rd_diff d' = rd_diff (rd s).
Proof.
  intros d'. destruct (ssl_read_rd meta s) as [Hd | [Hd | (project & proxy & Hd)]];
    fold d' in Hd; rewrite Hd; split_and!; try done.
  intros k Hk. by apply readSsl_frame.
Qed.

(** C10. Update of a declaration in which no field group changed.  It
    issues no call that changes the remote side and at most one fetch; when
    the project resolves it is exactly Read run on [d] (partial mode
    switched on and off again), and when the project does not resolve it
    returns that error and touches nothing; afterwards every field that
    Read does not write reads as before, and the last-known and declared
    values are as before.  Both resources. *)
Theorem C10_update_without_changes meta d w :
  (Forall (λ k, HasChange d k = false) httpsGroups →
   let r := resourceComputeTargetHttpsProxyUpdate meta (start d w) in
   requests (trace (final r)) = []
   ∧ (List.length (List.filter isGet (trace (final r))) ≤ 1)%nat
   ∧ (∀ project, getProject d meta = (project, None) →
        r = resourceComputeTargetHttpsProxyRead meta (mkState (resetPartial d) w []))
   ∧ (∀ project e, getProject d meta = (project, Some e) → r = (Err e, start d w))
   ∧ (∀ k, k ∉ httpsReadKeys → Get (rd (final r)) k = Get d k)
   ∧ rd_state (rd (final r)) = rd_state d ∧ rd_diff (rd (final r)) = rd_diff d)
  ∧ (Forall (λ k, HasChange d k = false) sslGroups →
     let r := resourceComputeTargetSslProxyUpdate meta (start d w) in
     requests (trace (final r)) = []
     ∧ (List.length (List.filter isGet (trace (final r))) ≤ 1)%nat
     ∧ (∀ project, getProject d meta = (project, None) →
          r = resourceComputeTargetSslProxyRead meta (mkState (resetPartial d) w []))
     ∧ (∀ project e, getProject d meta = (project, Some e) → r = (Err e, start d w))
     ∧ (∀ k, k ∉ sslReadKeys → Get (rd (final r)) k = Get d k)
     ∧ rd_state (rd (final r)) = rd_state d ∧ rd_diff (rd (final r)) = rd_diff d).
Proof.
  split.
  - intros Hsame r. subst r.
    destruct (getProject d meta) as [project [e |]] eqn:Hproject.
    + erewrite https_update_noproject by done. cbn. split_and!; try done; try lia.
      all: intros; by simplify_eq.
    + rewrite (https_update_unchanged meta d w project Hproject Hsame).
      destruct (https_read_trace meta (mkState (resetPartial d) w []))
        as (evs & Htrace & Hreq & Hlen & _).
      destruct (https_read_frame meta (mkState (resetPartial d) w []))
        as (Hframe & Hstate & Hdiff).
      cbn [rd trace app] in *. rewrite Htrace.
      split_and!; try done.
      all: intros; by simplify_eq.
  - intros Hsame r. subst r.
    destruct (getProject d meta) as [project [e |]] eqn:Hproject.
    + erewrite ssl_update_noproject by done. cbn. split_and!; try done; try lia.
      all: intros; by simplify_eq.
    + rewrite (ssl_update_unchanged meta d w project Hproject Hsame).
      destruct (ssl_read_trace meta (mkState (resetPartial d) w []))
        as (evs & Htrace & Hreq & Hlen & _).
      destruct (ssl_read_frame meta (mkState (resetPartial d) w []))
        as (Hframe & Hstate & Hdiff).
      cbn [rd trace app] in *. rewrite Htrace.
      split_and!; try done.
      all: intros; by simplify_eq.
Qed.

(** ** Cycles *)

Lemma https_create_reconciles meta s :
  returned (resourceComputeTargetHttpsProxyCreate meta s) = None →
  httpsReconciled (final (resourceComputeTargetHttpsProxyCreate meta s)).
Proof.
  intros Hnone. destruct (https_create_success _ _ Hnone) as (? & ? & s' & ? & _ & _ & Hrun & _).
  rewrite Hrun in *. by apply https_read_reconciles.
Qed.

Lemma ssl_create_reconciles meta s :
  returned (resourceComputeTargetSslProxyCreate meta s) = None →
  sslReconciled (final (resourceComputeTargetSslProxyCreate meta s)).
Proof.
  intros Hnone. destruct (ssl_create_success _ _ Hnone) as (? & ? & s' & ? & _ & _ & Hrun & _).
  rewrite Hrun in *. by apply ssl_read_reconciles.
Qed.

Lemma https_update_reconciles meta d w :
  returned (resourceComputeTargetHttpsProxyUpdate meta (start d w)) = None →
  httpsReconciled (final (resourceComputeTargetHttpsProxyUpdate meta (start d w))).
Proof.
  intros Hnone. destruct (getProject d meta) as [project [e |]] eqn:Hproject.
  { by erewrite https_update_noproject in Hnone. }
  destruct (updateOutcome_complete _ _ _ _ (requests_read_https meta)
              (https_update_outcome meta d w project Hproject) Hnone)
    as (_ & s' & Hrun & _).
  rewrite Hrun in *. by apply https_read_reconciles.
Qed.

Lemma ssl_update_reconciles meta d w :
  returned (resourceComputeTargetSslProxyUpdate meta (start d w)) = None →
  sslReconciled (final (resourceComputeTargetSslProxyUpdate meta (start d w))).
Proof.
  intros Hnone. destruct (getProject d meta) as [project [e |]] eqn:Hproject.
  { by erewrite ssl_update_noproject in Hnone. }
  destruct (updateOutcome_complete _ _ _ _ (requests_read_ssl meta)
              (ssl_update_outcome meta d w project Hproject) Hnone)
    as (_ & s' & Hrun & _).
  rewrite Hrun in *. by apply ssl_read_reconciles.
Qed.

(** C1, as the code has it.  Local state after a cycle.  Create followed
    by Read, both returning no error, on a remote side that still has the
    object at every fetch and answers a fetch with the certificate
    references of the insert call: the local [ssl_certificates] is the
    declared list with every reference in canonical form, same length,
    same order.  And after any Create, Update or Read that returns no
    error, either the last fetch found the remote object and every local
    field equals the field of the fetched object, or the last fetch was
    answered "not found" and the local identity is cleared.  Both
    resources. *)
Theorem C1_local_state_matches_remote meta d w :
  (let r1 := resourceComputeTargetHttpsProxyCreate meta (start d w) in
   let r2 := resourceComputeTargetHttpsProxyRead meta (final r1) in
   returned r1 = None → returned r2 = None →
   fetchesSucceed (trace (final r2)) → httpsEchoes (trace (final r2)) →
   Get_list (rd (final r2)) "ssl_certificates"
   = map (canonical d meta) (Get_list d "ssl_certificates")
   ∧ List.length (Get_list (rd (final r2)) "ssl_certificates")
     = List.length (Get_list d "ssl_certificates"))
  ∧ (let r1 := resourceComputeTargetSslProxyCreate meta (start d w) in
     let r2 := resourceComputeTargetSslProxyRead meta (final r1) in
     returned r1 = None → returned r2 = None →
     fetchesSucceed (trace (final r2)) → sslEchoes (trace (final r2)) →
     Get_list (rd (final r2)) "ssl_certificates"
     = map (canonical d meta) (Get_list d "ssl_certificates")
     ∧ List.length (Get_list (rd (final r2)) "ssl_certificates")
       = List.length (Get_list d "ssl_certificates"))
  ∧ (∀ r, r = resourceComputeTargetHttpsProxyCreate meta (start d w)
          ∨ r = resourceComputeTargetHttpsProxyUpdate meta (start d w)
          ∨ r = resourceComputeTargetHttpsProxyRead meta (start d w) →
          returned r = None → httpsReconciled (final r))
  ∧ (∀ r, r = resourceComputeTargetSslProxyCreate meta (start d w)
          ∨ r = resourceComputeTargetSslProxyUpdate meta (start d w)
          ∨ r = resourceComputeTargetSslProxyRead meta (start d w) →
          returned r = None → sslReconciled (final r)).
Proof.
  split_and!.
  - intros r1 r2 H1 H2 Hfetch Hecho.
    pose proof (https_create_read_certificates meta d w H1 H2 Hfetch Hecho) as Heq.
    fold r1 r2 in Heq. split; [done |]. by rewrite Heq, length_map.
  - intros r1 r2 H1 H2 Hfetch Hecho.
    pose proof (ssl_create_read_certificates meta d w H1 H2 Hfetch Hecho) as Heq.
    fold r1 r2 in Heq. split; [done |]. by rewrite Heq, length_map.
  - intros r [-> | [-> | ->]] Hnone.
    + by apply https_create_reconciles.
    + by apply https_update_reconciles.
    + by apply https_read_reconciles.
  - intros r [-> | [-> | ->]] Hnone.
    + by apply ssl_create_reconciles.
    + by apply ssl_update_reconciles.
    + by apply ssl_read_reconciles.
Qed.

(** ** The schema of [ssl_certificates] *)

(** Once the project is resolved and the references are expanded, the
    first thing Create does is send the insert call. *)
Lemma https_create_issues_insert meta d w project certs :
  getProject d meta = (project, None) →
  expandSslCertificates d meta = (certs, None) →
  ∃ op err rest,
    trace (final (resourceComputeTargetHttpsProxyCreate meta (start d w)))
    = EvDo (TargetHttpsProxies_Insert project (httpsProxyOf d certs)) op err :: rest.
Proof.
  intros. unfold resourceComputeTargetHttpsProxyCreate, httpsProxyOf. run_go.
  all: try (edestruct https_read_trace as (evs & -> & _)); cbn [trace app].
  all: by eexists _, _, _.
Qed.

Lemma ssl_create_issues_insert meta d w project certs :
  getProject d meta = (project, None) →
  expandSslCertificates d meta = (certs, None) →
  ∃ op err rest,
    trace (final (resourceComputeTargetSslProxyCreate meta (start d w)))
    = EvDo (TargetSslProxies_Insert project (sslProxyOf d certs)) op err :: rest.
Proof.
  intros. unfold resourceComputeTargetSslProxyCreate, sslProxyOf. run_go.
  all: try (edestruct ssl_read_trace as (evs & -> & _)); cbn [trace app].
  all: by eexists _, _, _.
Qed.

(** C8, as the code has it.  In both resources [ssl_certificates] is a required
    list of strings, compared as self links or names; the schema sets no
    minimum length (the SSL proxy sets a maximum of one item), so the list
    checks accept the empty list.  Create does not check the length
    either: for a declaration with an empty list, once the project is
    resolved, the expansion gives the empty list without error and Create
    sends the insert call with no certificate reference. *)
Theorem C8_ssl_certificates_schema meta d w project :
  (∃ s, resourceComputeTargetHttpsProxy_Schema !! "ssl_certificates" = Some s
        ∧ Type_ s = TypeList
        ∧ Elem s = Some (TypeString, Some compareSelfLinkOrResourceName)
        ∧ Required s = true ∧ MinItems s = 0 ∧ MaxItems s = 0
        ∧ validateField s None = false
        ∧ ∀ l, validateField s (Some (VList l)) = true)
  ∧ (∃ s, resourceComputeTargetSslProxy_Schema !! "ssl_certificates" = Some s
          ∧ Type_ s = TypeList
          ∧ Elem s = Some (TypeString, Some compareSelfLinkOrResourceName)
          ∧ Required s = true ∧ MinItems s = 0 ∧ MaxItems s = 1
          ∧ validateField s None = false
          ∧ ∀ l, validateField s (Some (VList l)) = bool_decide (List.length l ≤ 1)%nat)
  ∧ (getProject d meta = (project, None) →
     Get_list d "ssl_certificates" = [] →
     expandSslCertificates d meta = ([], None)
     ∧ (∃ op err rest,
          trace (final (resourceComputeTargetHttpsProxyCreate meta (start d w)))
          = EvDo (TargetHttpsProxies_Insert project (httpsProxyOf d [])) op err :: rest)
     ∧ (∃ op err rest,
          trace (final (resourceComputeTargetSslProxyCreate meta (start d w)))
          = EvDo (TargetSslProxies_Insert project (sslProxyOf d [])) op err :: rest)).
Proof.
  split_and!.
  - eexists. split; [reflexivity |]. split_and!; reflexivity.
  - eexists. split; [reflexivity |]. split_and!; try reflexivity.
    intros l. unfold validateField, validateList. cbn. apply andb_true_r.
  - intros Hproject Hempty.
    assert (expandSslCertificates d meta = ([], None)) as Hexpand.
    { unfold expandSslCertificates. by rewrite Hempty. }
    split_and!; [done | by apply https_create_issues_insert
                | by apply ssl_create_issues_insert].
Qed.

End Theory.

Section Further.
Context `{Externals}.

(** * Further properties of the code *)

(** Hold the property back as [P] while the code runs. *)
Ltac hold_property r :=
  pattern r;
  match goal with
  | |- ?Q _ => let P := fresh "P" in set (P := Q)
  end.

Ltac release_property :=
  match goal with
  | P := _ |- _ => subst P; cbv beta
  end.

Ltac no_failure Hok :=
  repeat (apply Forall_cons in Hok as [? Hok]); unfold succeeded in *;
  cbn [failure] in *; by simplify_eq.

(** ** Reference expansion *)

Lemma expandSslCertificates_loop_all d config configured certs :
  Forall (λ c, (ParseSslCertificateFieldValue c d config).2 = None) configured →
  expandSslCertificates_loop d config configured certs
  = (certs ++ map (canonical d config) configured, None).
Proof.
  revert certs. induction configured as [| c configured IH]; intros certs Hall.
  - cbn. by rewrite app_nil_r.
  - apply Forall_cons in Hall as [Hc Hall].
    cbn [expandSslCertificates_loop map]. unfold canonical at 1.
    destruct (ParseSslCertificateFieldValue c d config) as [fv err].
    cbn [fst snd] in *. subst err. rewrite (IH _ Hall). by rewrite <- app_assoc.
Qed.

Lemma expandSslCertificates_loop_first d config pre c post fv e0 certs :
  Forall (λ c, (ParseSslCertificateFieldValue c d config).2 = None) pre →
  ParseSslCertificateFieldValue c d config = (fv, Some e0) →
  expandSslCertificates_loop d config (pre ++ c :: post) certs
  = ([], Some (fmt_Errorf "Invalid ssl certificate: " e0)).
Proof.
  revert certs. induction pre as [| c' pre IH]; intros certs Hall Hc.
  - cbn [app expandSslCertificates_loop]. by rewrite Hc.
  - apply Forall_cons in Hall as [Hc' Hall].
    cbn [app expandSslCertificates_loop].
    destruct (ParseSslCertificateFieldValue c' d config) as [fv' err].
    cbn [snd] in Hc'. subst err. by apply IH.
Qed.

Lemma expandSslCertificates_loop_split d config configured certs certs' e :
  expandSslCertificates_loop d config configured certs = (certs', Some e) →
  ∃ pre c post fv e0,
    configured = pre ++ c :: post
    ∧ Forall (λ c, (ParseSslCertificateFieldValue c d config).2 = None) pre
    ∧ ParseSslCertificateFieldValue c d config = (fv, Some e0)
    ∧ e = fmt_Errorf "Invalid ssl certificate: " e0.
Proof.
  revert certs. induction configured as [| c configured IH]; intros certs Hloop.
  - cbn in Hloop. simplify_eq.
  - cbn [expandSslCertificates_loop] in Hloop.
    destruct (ParseSslCertificateFieldValue c d config) as [fv [e0 |]] eqn:Hparse.
    + simplify_eq. by exists [], c, configured, fv, e0.
    + apply IH in Hloop as (pre & c' & post & fv' & e0 & -> & Hall & Hc & ->).
      exists (c :: pre), c', post, fv', e0. split_and!; try done.
      constructor; [by rewrite Hparse | done].
Qed.

(** X1. [expandSslCertificates] succeeds exactly when every declared
    reference parses; the result is then the declared list, reference by
    reference in canonical form: same length, position by position. *)
Theorem X1_expand_succeeds_iff_all_parse d config :
  let configured := Get_list d "ssl_certificates" in
  let parses := λ c, (ParseSslCertificateFieldValue c d config).2 = None in
  ((expandSslCertificates d config).2 = None ↔ Forall parses configured)
  ∧ (Forall parses configured →
     let certs := (expandSslCertificates d config).1 in
     certs = map (canonical d config) configured
     ∧ List.length certs = List.length configured
     ∧ ∀ i c, configured !! i = Some c → certs !! i = Some (canonical d config c)).
Proof.
  intros configured parses. split; [split |].
  - destruct (expandSslCertificates d config) as [certs [e |]] eqn:Hrun; [done |].
    intros _. unfold expandSslCertificates in Hrun.
    by apply expandSslCertificates_loop_ok in Hrun as [_ ?].
  - intros Hall. unfold expandSslCertificates.
    by rewrite (expandSslCertificates_loop_all _ _ _ _ Hall).
  - intros Hall certs. subst certs. unfold expandSslCertificates.
    rewrite (expandSslCertificates_loop_all _ _ _ _ Hall). cbn [fst app].
    fold configured. split_and!; [done | by rewrite length_map |].
    intros i c Hi. change (map (canonical d config) configured)
      with (canonical d config <$> configured).
    by rewrite list_lookup_fmap, Hi.
Qed.

(** X2. [expandSslCertificates] stops at the first reference that does
    not parse: the result is [nil] (nothing of what was expanded before is
    returned), the error is that reference's error behind "Invalid ssl
    certificate: ", and the references after it play no part.  Every
    failure is of this kind. *)
Theorem X2_expand_fails_at_first_bad_reference d config :
  (∀ pre c post fv e0,
     Get_list d "ssl_certificates" = pre ++ c :: post →
     Forall (λ c, (ParseSslCertificateFieldValue c d config).2 = None) pre →
     ParseSslCertificateFieldValue c d config = (fv, Some e0) →
     expandSslCertificates d config
     = ([], Some (errorString ("Invalid ssl certificate: " +:+ Error e0))))
  ∧ (∀ certs e,
       expandSslCertificates d config = (certs, Some e) →
       certs = []
       ∧ ∃ pre c post fv e0,
           Get_list d "ssl_certificates" = pre ++ c :: post
           ∧ Forall (λ c, (ParseSslCertificateFieldValue c d config).2 = None) pre
           ∧ ParseSslCertificateFieldValue c d config = (fv, Some e0)
           ∧ e = errorString ("Invalid ssl certificate: " +:+ Error e0)).
Proof.
  split.
  - intros pre c post fv e0 Hlist Hall Hc. unfold expandSslCertificates.
    rewrite Hlist. by erewrite expandSslCertificates_loop_first.
  - intros certs e Hrun. unfold expandSslCertificates in Hrun. split.
    + by apply expandSslCertificates_loop_err in Hrun as [-> _].
    + by apply expandSslCertificates_loop_split in Hrun.
Qed.

(** ** Read *)

(** A Read that returns an error has written nothing: the project did not
    resolve and nothing was called, or the one fetch was answered with an
    error that is not "not found". *)
Lemma https_read_failure meta s e :
  returned (resourceComputeTargetHttpsProxyRead meta s) = Some e →
  rd (final (resourceComputeTargetHttpsProxyRead meta s)) = rd s
  ∧ ((getProject (rd s) meta).2 = Some e
     ∧ final (resourceComputeTargetHttpsProxyRead meta s) = s
     ∨ ∃ proxy e0,
         trace (final (resourceComputeTargetHttpsProxyRead meta s))
         = trace s ++ [EvGetHttps (getProject (rd s) meta).1 (Id (rd s)) proxy (Some e0)]
         ∧ isNotFound e0 = false ∧ surfaces e0 e).
Proof.
  destruct (getProject (rd s) meta) as [project [e' |]] eqn:Hproject.
  { erewrite https_read_noproject by done. intros [= ->]. split; [done |]. by left. }
  destruct (TargetHttpsProxies_Get meta project (Id (rd s)) (world s))
    as [[proxy [e0 |]] w'] eqn:Hget; [destruct (isNotFound e0) eqn:Hnf |].
  - by erewrite https_read_absent.
  - erewrite https_read_error by done. intros [= <-]. split; [done |]. right.
    exists proxy, e0. split_and!; [done | done | apply surfaces_Errorf].
  - by erewrite https_read_found.
Qed.

Lemma ssl_read_failure meta s e :
  returned (resourceComputeTargetSslProxyRead meta s) = Some e →
  rd (final (resourceComputeTargetSslProxyRead meta s)) = rd s
  ∧ ((getProject (rd s) meta).2 = Some e
     ∧ final (resourceComputeTargetSslProxyRead meta s) = s
     ∨ ∃ proxy e0,
         trace (final (resourceComputeTargetSslProxyRead meta s))
         = trace s ++ [EvGetSsl (getProject (rd s) meta).1 (Id (rd s)) proxy (Some e0)]
         ∧ isNotFound e0 = false ∧ surfaces e0 e).
Proof.
  destruct (getProject (rd s) meta) as [project [e' |]] eqn:Hproject.
  { erewrite ssl_read_noproject by done. intros [= ->]. split; [done |]. by left. }
  destruct (TargetSslProxies_Get meta project (Id (rd s)) (world s))
    as [[proxy [e0 |]] w'] eqn:Hget; [destruct (isNotFound e0) eqn:Hnf |].
  - by erewrite ssl_read_absent.
  - erewrite ssl_read_error by done. intros [= <-]. split; [done |]. right.
    exists proxy, e0. split_and!; [done | done | apply surfaces_Errorf].
  - by erewrite ssl_read_found.
Qed.

Lemma https_read_extends meta s :
  trace s `prefix_of` trace (final (resourceComputeTargetHttpsProxyRead meta s)).
Proof. destruct (https_read_trace meta s) as (evs & -> & _). by exists evs. Qed.

Lemma ssl_read_extends meta s :
  trace s `prefix_of` trace (final (resourceComputeTargetSslProxyRead meta s)).
Proof. destruct (ssl_read_trace meta s) as (evs & -> & _). by exists evs. Qed.

Lemma https_read_only meta s :
  let r := resourceComputeTargetHttpsProxyRead meta s in
  let project := (getProject (rd s) meta).1 in
  ((getProject (rd s) meta).2 ≠ None →
   final r = s ∧ returned r = (getProject (rd s) meta).2)
  ∧ ((getProject (rd s) meta).2 = None →
     ∃ proxy err,
       TargetHttpsProxies_Get meta project (Id (rd s)) (world s)
       = (proxy, err, world (final r))
       ∧ (trace (final r) = trace s ++ [EvGetHttps project (Id (rd s)) proxy err]
          ∨ trace (final r)
            = trace s ++ [EvGetHttps project (Id (rd s)) proxy err; EvSetId ""]))
  ∧ (∀ e, returned r = Some e → rd (final r) = rd s).
Proof.
  cbv zeta. split_and!.
  - destruct (getProject (rd s) meta) as [project [e |]] eqn:Hproject; [| done].
    intros _. by erewrite https_read_noproject.
  - destruct (getProject (rd s) meta) as [project [e |]] eqn:Hproject; [done |].
    intros _. cbn [fst].
    destruct (TargetHttpsProxies_Get meta project (Id (rd s)) (world s))
      as [[proxy [e0 |]] w'] eqn:Hget; [destruct (isNotFound e0) eqn:Hnf |].
    + erewrite https_read_absent by done. exists proxy, (Some e0). split; [done |].
      right. by rewrite <- app_assoc.
    + erewrite https_read_error by done. exists proxy, (Some e0). split; [done |]. by left.
    + erewrite https_read_found by done. exists proxy, None. split; [done |]. by left.
  - intros e He. by apply https_read_failure in He as [? _].
Qed.

Lemma ssl_read_only meta s :
  let r := resourceComputeTargetSslProxyRead meta s in
  let project := (getProject (rd s) meta).1 in
  ((getProject (rd s) meta).2 ≠ None →
   final r = s ∧ returned r = (getProject (rd s) meta).2)
  ∧ ((getProject (rd s) meta).2 = None →
     ∃ proxy err,
       TargetSslProxies_Get meta project (Id (rd s)) (world s)
       = (proxy, err, world (final r))
       ∧ (trace (final r) = trace s ++ [EvGetSsl project (Id (rd s)) proxy err]
          ∨ trace (final r)
            = trace s ++ [EvGetSsl project (Id (rd s)) proxy err; EvSetId ""]))
  ∧ (∀ e, returned r = Some e → rd (final r) = rd s).
Proof.
  cbv zeta. split_and!.
  - destruct (getProject (rd s) meta) as [project [e |]] eqn:Hproject; [| done].
    intros _. by erewrite ssl_read_noproject.
  - destruct (getProject (rd s) meta) as [project [e |]] eqn:Hproject; [done |].
    intros _. cbn [fst].
    destruct (TargetSslProxies_Get meta project (Id (rd s)) (world s))
      as [[proxy [e0 |]] w'] eqn:Hget; [destruct (isNotFound e0) eqn:Hnf |].
    + erewrite ssl_read_absent by done. exists proxy, (Some e0). split; [done |].
      right. by rewrite <- app_assoc.
    + erewrite ssl_read_error by done. exists proxy, (Some e0). split; [done |]. by left.
    + erewrite ssl_read_found by done. exists proxy, None. split; [done |]. by left.
  - intros e He. by apply ssl_read_failure in He as [? _].
Qed.

(** X3. Read only reads.  When the project does not resolve, Read returns
    that error and does nothing.  When it resolves, Read issues exactly
    one call, the fetch of the proxy under the resolved project and the
    identity of [d] (not its name), and the remote side is left as that
    fetch left it; the only other event is the clearing of the identity.
    No run of Read issues a call that changes the remote side, and a Read
    that returns an error has written nothing to [d].  Both resources. *)
Theorem X3_read_only_reads meta s :
  (let r := resourceComputeTargetHttpsProxyRead meta s in
   let project := (getProject (rd s) meta).1 in
   requests (trace (final r)) = requests (trace s)
   ∧ ((getProject (rd s) meta).2 ≠ None →
      final r = s ∧ returned r = (getProject (rd s) meta).2)
   ∧ ((getProject (rd s) meta).2 = None →
      ∃ proxy err,
        TargetHttpsProxies_Get meta project (Id (rd s)) (world s)
        = (proxy, err, world (final r))
        ∧ (trace (final r) = trace s ++ [EvGetHttps project (Id (rd s)) proxy err]
           ∨ trace (final r)
             = trace s ++ [EvGetHttps project (Id (rd s)) proxy err; EvSetId ""]))
   ∧ (∀ e, returned r = Some e → rd (final r) = rd s))
  ∧ (let r := resourceComputeTargetSslProxyRead meta s in
     let project := (getProject (rd s) meta).1 in
     requests (trace (final r)) = requests (trace s)
     ∧ ((getProject (rd s) meta).2 ≠ None →
        final r = s ∧ returned r = (getProject (rd s) meta).2)
     ∧ ((getProject (rd s) meta).2 = None →
        ∃ proxy err,
          TargetSslProxies_Get meta project (Id (rd s)) (world s)
          = (proxy, err, world (final r))
          ∧ (trace (final r) = trace s ++ [EvGetSsl project (Id (rd s)) proxy err]
             ∨ trace (final r)
               = trace s ++ [EvGetSsl project (Id (rd s)) proxy err; EvSetId ""]))
     ∧ (∀ e, returned r = Some e → rd (final r) = rd s)).
Proof.
  split; cbv zeta.
  - split; [apply requests_read_https | apply https_read_only].
  - split; [apply requests_read_ssl | apply ssl_read_only].
Qed.

(** *** Reading twice *)

Lemma ResourceData_eq d1 d2 :
  rd_state d1 = rd_state d2 → rd_diff d1 = rd_diff d2 → rd_set d1 = rd_set d2 →
  rd_id d1 = rd_id d2 → rd_partial d1 = rd_partial d2 →
  rd_partialMap d1 = rd_partialMap d2 → d1 = d2.
Proof. destruct d1, d2. cbn. by intros -> -> -> -> -> ->. Qed.

Lemma Get_ext d1 d2 :
  rd_state d1 = rd_state d2 → rd_diff d1 = rd_diff d2 →
  rd_id d1 = rd_id d2 → rd_partial d1 = rd_partial d2 →
  rd_partialMap d1 = rd_partialMap d2 →
  (∀ k, rd_set d1 !! k = rd_set d2 !! k) → d1 = d2.
Proof. intros. apply ResourceData_eq; try done. by apply map_eq. Qed.

Lemma rd_set_d_Set k v d k' :
  rd_set (d_Set k v d) !! k' = if decide (k = k') then Some v else rd_set d !! k'.
Proof.
  cbn. destruct (decide (k = k')) as [-> |]; [by rewrite lookup_insert_eq |].
  by rewrite lookup_insert_ne.
Qed.

Ltac by_key :=
  rewrite !rd_set_d_Set; repeat (destruct (decide _); [done |]); done.

(** What a Read wrote is overwritten entirely by the next Read that finds
    the proxy. *)
Lemma readHttps_absorbs project proxy project' proxy' d :
  readHttps project' proxy' (readHttps project proxy d) = readHttps project' proxy' d.
Proof. apply Get_ext; try done. intros k. unfold readHttps. by_key. Qed.

Lemma readSsl_absorbs project proxy project' proxy' d :
  readSsl project' proxy' (readSsl project proxy d) = readSsl project' proxy' d.
Proof. apply Get_ext; try done. intros k. unfold readSsl. by_key. Qed.

(** X4. Two Reads in a row, both finding the proxy: local state after the
    second is what the second alone would have written on the original
    [d]; nothing of the first answer survives.  In particular a second
    Read with the same answer changes nothing.  Both resources. *)
Theorem X4_read_twice meta s :
  (∀ project proxy w1 project' proxy' w2,
     let s1 := final (resourceComputeTargetHttpsProxyRead meta s) in
     getProject (rd s) meta = (project, None) →
     TargetHttpsProxies_Get meta project (Id (rd s)) (world s) = (proxy, None, w1) →
     getProject (rd s1) meta = (project', None) →
     TargetHttpsProxies_Get meta project' (Id (rd s)) w1 = (proxy', None, w2) →
     let s2 := final (resourceComputeTargetHttpsProxyRead meta s1) in
     rd s2 = readHttps project' proxy' (rd s)
     ∧ ((project', proxy') = (project, proxy) → rd s2 = rd s1))
  ∧ (∀ project proxy w1 project' proxy' w2,
       let s1 := final (resourceComputeTargetSslProxyRead meta s) in
       getProject (rd s) meta = (project, None) →
       TargetSslProxies_Get meta project (Id (rd s)) (world s) = (proxy, None, w1) →
       getProject (rd s1) meta = (project', None) →
       TargetSslProxies_Get meta project' (Id (rd s)) w1 = (proxy', None, w2) →
       let s2 := final (resourceComputeTargetSslProxyRead meta s1) in
       rd s2 = readSsl project' proxy' (rd s)
       ∧ ((project', proxy') = (project, proxy) → rd s2 = rd s1)).
Proof.
  split.
  - intros project proxy w1 project' proxy' w2 s1 Hproject Hget Hproject' Hget' s2.
    subst s2. revert Hproject'. subst s1.
    rewrite (https_read_found _ _ _ _ _ Hproject Hget). cbn [final snd rd].
    intros Hproject'.
    erewrite https_read_found by done. cbn [final snd rd].
    rewrite readHttps_absorbs. split; [done |]. by intros [= -> ->].
  - intros project proxy w1 project' proxy' w2 s1 Hproject Hget Hproject' Hget' s2.
    subst s2. revert Hproject'. subst s1.
    rewrite (ssl_read_found _ _ _ _ _ Hproject Hget). cbn [final snd rd].
    intros Hproject'.
    erewrite ssl_read_found by done. cbn [final snd rd].
    rewrite readSsl_absorbs. split; [done |]. by intros [= -> ->].
Qed.

(** *** Read and the schema *)

Lemma Get_readHttps project proxy d k s :
  resourceComputeTargetHttpsProxy_Schema !! k = Some s →
  ∃ v, Get (readHttps project proxy d) k = Some v ∧ valueType v = Type_ s.
Proof.
  intros Hlookup. unfold resourceComputeTargetHttpsProxy_Schema in Hlookup.
  apply elem_of_list_to_map_2 in Hlookup.
  repeat (apply elem_of_cons in Hlookup as [[= -> ->] | Hlookup]);
    try (by apply elem_of_nil in Hlookup).
  all: unfold readHttps; repeat (rewrite Get_d_Set_ne by discriminate);
    rewrite Get_d_Set_eq; by eexists.
Qed.

Lemma Get_readSsl project proxy d k s :
  resourceComputeTargetSslProxy_Schema !! k = Some s →
  ∃ v, Get (readSsl project proxy d) k = Some v ∧ valueType v = Type_ s.
Proof.
  intros Hlookup. unfold resourceComputeTargetSslProxy_Schema in Hlookup.
  apply elem_of_list_to_map_2 in Hlookup.
  repeat (apply elem_of_cons in Hlookup as [[= -> ->] | Hlookup]);
    try (by apply elem_of_nil in Hlookup).
  all: unfold readSsl; repeat (rewrite Get_d_Set_ne by discriminate);
    rewrite Get_d_Set_eq; by eexists.
Qed.

Lemma https_read_keys k :
  k ∈ httpsReadKeys ↔ is_Some (resourceComputeTargetHttpsProxy_Schema !! k).
Proof.
  split.
  - unfold httpsReadKeys. intros Hk.
    repeat (apply elem_of_cons in Hk as [-> | Hk]); try (by apply elem_of_nil in Hk).
    all: by eexists.
  - intros [s Hlookup]. unfold resourceComputeTargetHttpsProxy_Schema in Hlookup.
    apply elem_of_list_to_map_2 in Hlookup.
    repeat (apply elem_of_cons in Hlookup as [[= -> ->] | Hlookup]);
      try (by apply elem_of_nil in Hlookup).
    all: unfold httpsReadKeys; set_solver.
Qed.

Lemma ssl_read_keys k :
  k ∈ sslReadKeys ↔ is_Some (resourceComputeTargetSslProxy_Schema !! k).
Proof.
  split.
  - unfold sslReadKeys. intros Hk.
    repeat (apply elem_of_cons in Hk as [-> | Hk]); try (by apply elem_of_nil in Hk).
    all: by eexists.
  - intros [s Hlookup]. unfold resourceComputeTargetSslProxy_Schema in Hlookup.
    apply elem_of_list_to_map_2 in Hlookup.
    repeat (apply elem_of_cons in Hlookup as [[= -> ->] | Hlookup]);
      try (by apply elem_of_nil in Hlookup).
    all: unfold sslReadKeys; set_solver.
Qed.

(** X5. Read and the schema cover each other.  A Read that finds the
    proxy leaves every field of the schema set, to a value of the type the
    schema declares for it; and no run of Read changes what [d] holds
    under a key that is not in the schema.  Both resources. *)
Theorem X5_read_writes_the_schema meta s :
  (∀ project proxy w',
     getProject (rd s) meta = (project, None) →
     TargetHttpsProxies_Get meta project (Id (rd s)) (world s) = (proxy, None, w') →
     ∀ k sch, resourceComputeTargetHttpsProxy_Schema !! k = Some sch →
       ∃ v, Get (rd (final (resourceComputeTargetHttpsProxyRead meta s))) k = Some v
            ∧ valueType v = Type_ sch)
  ∧ (∀ k, resourceComputeTargetHttpsProxy_Schema !! k = None →
       Get (rd (final (resourceComputeTargetHttpsProxyRead meta s))) k = Get (rd s) k)
  ∧ (∀ project proxy w',
       getProject (rd s) meta = (project, None) →
       TargetSslProxies_Get meta project (Id (rd s)) (world s) = (proxy, None, w') →
       ∀ k sch, resourceComputeTargetSslProxy_Schema !! k = Some sch →
         ∃ v, Get (rd (final (resourceComputeTargetSslProxyRead meta s))) k = Some v
              ∧ valueType v = Type_ sch)
  ∧ (∀ k, resourceComputeTargetSslProxy_Schema !! k = None →
       Get (rd (final (resourceComputeTargetSslProxyRead meta s))) k = Get (rd s) k).
Proof.
  split_and!.
  - intros project proxy w' Hproject Hget k sch Hlookup.
    erewrite https_read_found by done. by apply Get_readHttps.
  - intros k Hnone. apply https_read_frame. rewrite https_read_keys, Hnone.
    by intros [? ?].
  - intros project proxy w' Hproject Hget k sch Hlookup.
    erewrite ssl_read_found by done. by apply Get_readSsl.
  - intros k Hnone. apply ssl_read_frame. rewrite ssl_read_keys, Hnone.
    by intros [? ?].
Qed.

(** ** The calls of Create *)

Lemma isGet_read_https meta s :
  (List.length (List.filter isGet (trace (final (resourceComputeTargetHttpsProxyRead meta s))))
   ≤ List.length (List.filter isGet (trace s)) + 1)%nat.
Proof.
  destruct (https_read_trace meta s) as (evs & -> & _ & Hle & _).
  rewrite List.filter_app, length_app. lia.
Qed.

Lemma isGet_read_ssl meta s :
  (List.length (List.filter isGet (trace (final (resourceComputeTargetSslProxyRead meta s))))
   ≤ List.length (List.filter isGet (trace s)) + 1)%nat.
Proof.
  destruct (ssl_read_trace meta s) as (evs & -> & _ & Hle & _).
  rewrite List.filter_app, length_app. lia.
Qed.

(** The calls Create issues are an initial part of insert, attach; all of
    them when Create returns no error; and Create fetches at most once. *)
Lemma https_create_requests meta d w :
  let r := resourceComputeTargetHttpsProxyCreate meta (start d w) in
  requests (trace (final r)) `prefix_of` httpsCreateRequests meta d
  ∧ (returned r = None → requests (trace (final r)) = httpsCreateRequests meta d)
  ∧ (List.length (List.filter isGet (trace (final r))) ≤ 1)%nat.
Proof.
  cbv zeta. unfold httpsCreateRequests.
  destruct (GetOk_string d "ssl_policy") as [v ok] eqn:Hok.
  destruct (getProject d meta) as [project [e |]] eqn:Hproject.
  { erewrite https_create_noproject by done.
    split_and!; [apply prefix_nil | done | cbn; lia]. }
  destruct (expandSslCertificates d meta) as [certs [e |]] eqn:Hcerts.
  { erewrite https_create_badcert by done.
    split_and!; [apply prefix_nil | done | cbn; lia]. }
  cbn [fst].
  destruct (Do meta (TargetHttpsProxies_Insert project (httpsProxyOf d certs)) w)
    as [[op [e |]] w1] eqn:Hdo.
  { erewrite https_create_rejected by done.
    split_and!; [by eexists | done | cbn; lia]. }
  destruct (computeOperationWait meta op project "Creating Target Https Proxy" w1)
    as [[e |] w2] eqn:Hwait.
  { erewrite https_create_wait_failed by done.
    split_and!; [by eexists | done | cbn; lia]. }
  destruct ok.
  - destruct (ParseSslPolicyFieldValue v (SetId (Get_string d "name") d) meta)
      as [pol perr] eqn:Hparse.
    destruct (Do meta (TargetHttpsProxies_SetSslPolicy project (Get_string d "name")
                         (RelativeLink pol)) w2) as [[op' err'] w3] eqn:Hattach.
    destruct (computeSharedOperationWait meta op' project
                "Adding Target HTTPS Proxy SSL Policy" w3) as [werr w4] eqn:Hshared.
    erewrite https_create_policy by done. cbn [fst].
    destruct err' as [e' |]; [| destruct werr as [e'' |]].
    + split_and!; [by eexists | done | cbn; lia].
    + split_and!; [by eexists | done | cbn; lia].
    + rewrite requests_read_https. split_and!; [by eexists | done |].
      etrans; [apply isGet_read_https |]. cbn. lia.
  - erewrite https_create_nopolicy by done.
    rewrite requests_read_https. split_and!; [by eexists | done |].
    etrans; [apply isGet_read_https |]. cbn. lia.
Qed.

Lemma ssl_create_requests meta d w :
  let r := resourceComputeTargetSslProxyCreate meta (start d w) in
  requests (trace (final r)) `prefix_of` sslCreateRequests meta d
  ∧ (returned r = None → requests (trace (final r)) = sslCreateRequests meta d)
  ∧ (List.length (List.filter isGet (trace (final r))) ≤ 1)%nat.
Proof.
  cbv zeta. unfold sslCreateRequests.
  destruct (GetOk_string d "ssl_policy") as [v ok] eqn:Hok.
  destruct (getProject d meta) as [project [e |]] eqn:Hproject.
  { erewrite ssl_create_noproject by done.
    split_and!; [apply prefix_nil | done | cbn; lia]. }
  destruct (expandSslCertificates d meta) as [certs [e |]] eqn:Hcerts.
  { erewrite ssl_create_badcert by done.
    split_and!; [apply prefix_nil | done | cbn; lia]. }
  cbn [fst].
  destruct (Do meta (TargetSslProxies_Insert project (sslProxyOf d certs)) w)
    as [[op [e |]] w1] eqn:Hdo.
  { erewrite ssl_create_rejected by done.
    split_and!; [by eexists | done | cbn; lia]. }
  destruct (computeOperationWait meta op project "Creating Target Ssl Proxy" w1)
    as [[e |] w2] eqn:Hwait.
  { erewrite ssl_create_wait_failed by done.
    split_and!; [by eexists | done | cbn; lia]. }
  destruct ok.
  - destruct (ParseSslPolicyFieldValue v (SetId (Get_string d "name") d) meta)
      as [pol perr] eqn:Hparse.
    destruct (Do meta (TargetSslProxies_SetSslPolicy project (Get_string d "name")
                         (RelativeLink pol)) w2) as [[op' err'] w3] eqn:Hattach.
    destruct (computeSharedOperationWait meta op' project
                "Adding Target SSL Proxy SSL Policy" w3) as [werr w4] eqn:Hshared.
    erewrite ssl_create_policy by done. cbn [fst].
    destruct err' as [e' |]; [| destruct werr as [e'' |]].
    + split_and!; [by eexists | done | cbn; lia].
    + split_and!; [by eexists | done | cbn; lia].
    + rewrite requests_read_ssl. split_and!; [by eexists | done |].
      etrans; [apply isGet_read_ssl |]. cbn. lia.
  - erewrite ssl_create_nopolicy by done.
    rewrite requests_read_ssl. split_and!; [by eexists | done |].
    etrans; [apply isGet_read_ssl |]. cbn. lia.
Qed.

(** X6. The calls of Create that change the remote side are, in this
    order, the insert call and, when a security policy is declared, the
    policy-attach call: every run issues an initial part of that list (so
    never a delete call or a call that sets another field, and none
    twice), a run that returns no error issues all of it, and every run
    fetches at most once.  Both resources. *)
Theorem X6_create_issues_insert_then_attach meta d w :
  let https := resourceComputeTargetHttpsProxyCreate meta (start d w) in
  let ssl := resourceComputeTargetSslProxyCreate meta (start d w) in
  (requests (trace (final https)) `prefix_of` httpsCreateRequests meta d
   ∧ (returned https = None → requests (trace (final https)) = httpsCreateRequests meta d)
   ∧ (List.length (List.filter isGet (trace (final https))) ≤ 1)%nat)
  ∧ (requests (trace (final ssl)) `prefix_of` sslCreateRequests meta d
     ∧ (returned ssl = None → requests (trace (final ssl)) = sslCreateRequests meta d)
     ∧ (List.length (List.filter isGet (trace (final ssl))) ≤ 1)%nat)
  ∧ (List.length (httpsCreateRequests meta d) ≤ 2)%nat
  ∧ (List.length (sslCreateRequests meta d) ≤ 2)%nat.
Proof.
  intros https ssl. split_and!.
  1-3: apply https_create_requests.
  1-3: apply ssl_create_requests.
  - unfold httpsCreateRequests. destruct (GetOk_string d "ssl_policy") as [v []]; cbn; lia.
  - unfold sslCreateRequests. destruct (GetOk_string d "ssl_policy") as [v []]; cbn; lia.
Qed.

(** *** What a failed Create leaves behind *)

Lemma https_create_failure meta d w e :
  let r := resourceComputeTargetHttpsProxyCreate meta (start d w) in
  let name := Get_string d "name" in
  returned r = Some e →
  (rd (final r) = d ∧ ∀ id, EvSetId id ∉ trace (final r))
  ∨ (rd (final r) = SetId name d
     ∧ ∃ project certs op,
         [EvDo (TargetHttpsProxies_Insert project (httpsProxyOf d certs)) op None;
          EvWait op project "Creating Target Https Proxy" None;
          EvSetId name] `prefix_of` trace (final r)).
Proof.
  cbv zeta.
  destruct (getProject d meta) as [project [e' |]] eqn:Hproject.
  { erewrite https_create_noproject by done. intros _. left. split; [done |]. set_solver. }
  destruct (expandSslCertificates d meta) as [certs [e' |]] eqn:Hcerts.
  { erewrite https_create_badcert by done. intros _. left. split; [done |]. set_solver. }
  destruct (Do meta (TargetHttpsProxies_Insert project (httpsProxyOf d certs)) w)
    as [[op [e' |]] w1] eqn:Hdo.
  { erewrite https_create_rejected by done. intros _. left. split; [done |].
    cbn. set_solver. }
  destruct (computeOperationWait meta op project "Creating Target Https Proxy" w1)
    as [[e' |] w2] eqn:Hwait.
  { erewrite https_create_wait_failed by done. intros _. left. split; [done |].
    cbn. set_solver. }
  intros Hreturned. right.
  destruct (GetOk_string d "ssl_policy") as [v [|]] eqn:Hok.
  - destruct (ParseSslPolicyFieldValue v (SetId (Get_string d "name") d) meta)
      as [pol perr] eqn:Hparse.
    destruct (Do meta (TargetHttpsProxies_SetSslPolicy project (Get_string d "name")
                         (RelativeLink pol)) w2) as [[op' err'] w3] eqn:Hattach.
    destruct (computeSharedOperationWait meta op' project
                "Adding Target HTTPS Proxy SSL Policy" w3) as [werr w4] eqn:Hshared.
    erewrite https_create_policy in * by done.
    destruct err' as [e' |]; [| destruct werr as [e'' |]].
    + split; [done |]. exists project, certs, op. by eexists.
    + split; [done |]. exists project, certs, op. by eexists.
    + apply https_read_failure in Hreturned as [-> _]. split; [done |].
      exists project, certs, op. etrans; [| apply https_read_extends]. by eexists.
  - erewrite https_create_nopolicy in * by done.
    apply https_read_failure in Hreturned as [-> _]. split; [done |].
    exists project, certs, op. etrans; [| apply https_read_extends]. by eexists.
Qed.

Lemma ssl_create_failure meta d w e :
  let r := resourceComputeTargetSslProxyCreate meta (start d w) in
  let name := Get_string d "name" in
  returned r = Some e →
  (rd (final r) = d ∧ ∀ id, EvSetId id ∉ trace (final r))
  ∨ (rd (final r) = SetId name d
     ∧ ∃ project certs op,
         [EvDo (TargetSslProxies_Insert project (sslProxyOf d certs)) op None;
          EvWait op project "Creating Target Ssl Proxy" None;
          EvSetId name] `prefix_of` trace (final r)).
Proof.
  cbv zeta.
  destruct (getProject d meta) as [project [e' |]] eqn:Hproject.
  { erewrite ssl_create_noproject by done. intros _. left. split; [done |]. set_solver. }
  destruct (expandSslCertificates d meta) as [certs [e' |]] eqn:Hcerts.
  { erewrite ssl_create_badcert by done. intros _. left. split; [done |]. set_solver. }
  destruct (Do meta (TargetSslProxies_Insert project (sslProxyOf d certs)) w)
    as [[op [e' |]] w1] eqn:Hdo.
  { erewrite ssl_create_rejected by done. intros _. left. split; [done |].
    cbn. set_solver. }
  destruct (computeOperationWait meta op project "Creating Target Ssl Proxy" w1)
    as [[e' |] w2] eqn:Hwait.
  { erewrite ssl_create_wait_failed by done. intros _. left. split; [done |].
    cbn. set_solver. }
  intros Hreturned. right.
  destruct (GetOk_string d "ssl_policy") as [v [|]] eqn:Hok.
  - destruct (ParseSslPolicyFieldValue v (SetId (Get_string d "name") d) meta)
      as [pol perr] eqn:Hparse.
    destruct (Do meta (TargetSslProxies_SetSslPolicy project (Get_string d "name")
                         (RelativeLink pol)) w2) as [[op' err'] w3] eqn:Hattach.
    destruct (computeSharedOperationWait meta op' project
                "Adding Target SSL Proxy SSL Policy" w3) as [werr w4] eqn:Hshared.
    erewrite ssl_create_policy in * by done.
    destruct err' as [e' |]; [| destruct werr as [e'' |]].
    + split; [done |]. exists project, certs, op. by eexists.
    + split; [done |]. exists project, certs, op. by eexists.
    + apply ssl_read_failure in Hreturned as [-> _]. split; [done |].
      exists project, certs, op. etrans; [| apply ssl_read_extends]. by eexists.
  - erewrite ssl_create_nopolicy in * by done.
    apply ssl_read_failure in Hreturned as [-> _]. split; [done |].
    exists project, certs, op. etrans; [| apply ssl_read_extends]. by eexists.
Qed.

(** X7. What a failed Create leaves in [d].  When Create returns an
    error, either nothing of [d] has changed and the identity was never
    set (the failure came before the insert call was confirmed), or the
    run began with a successful insert call, a successful wait and the
    setting of the identity, and [d] differs from the declaration in the
    identity only, which is the declared name: a failure of the policy
    stage or of the final Read leaves the resource identified, and
    nothing is undone.  Both resources. *)
Theorem X7_create_failure_keeps_identity meta d w e :
  let name := Get_string d "name" in
  (let r := resourceComputeTargetHttpsProxyCreate meta (start d w) in
   returned r = Some e →
   (rd (final r) = d ∧ ∀ id, EvSetId id ∉ trace (final r))
   ∨ (rd (final r) = SetId name d
      ∧ ∃ project certs op,
          [EvDo (TargetHttpsProxies_Insert project (httpsProxyOf d certs)) op None;
           EvWait op project "Creating Target Https Proxy" None;
           EvSetId name] `prefix_of` trace (final r)))
  ∧ (let r := resourceComputeTargetSslProxyCreate meta (start d w) in
     returned r = Some e →
     (rd (final r) = d ∧ ∀ id, EvSetId id ∉ trace (final r))
     ∨ (rd (final r) = SetId name d
        ∧ ∃ project certs op,
            [EvDo (TargetSslProxies_Insert project (sslProxyOf d certs)) op None;
             EvWait op project "Creating Target Ssl Proxy" None;
             EvSetId name] `prefix_of` trace (final r))).
Proof.
  intros name. split.
  - apply https_create_failure.
  - apply ssl_create_failure.
Qed.

(** *** The error Create returns *)

Lemma read_last (tr evs : list Event) ev e :
  Forall (λ ev, isGet ev = true ∨ failure ev = None) evs →
  last (tr ++ evs) = Some ev → failure ev = Some e → isGet ev = false →
  last tr = Some ev.
Proof.
  intros Hall Hlast Hfail Hget.
  destruct evs as [| x evs _] using rev_ind; [by rewrite app_nil_r in Hlast |].
  rewrite app_assoc, last_snoc in Hlast. simplify_eq.
  apply Forall_app in Hall as [_ Hall]. apply Forall_cons in Hall as [[? | ?] _]; congruence.
Qed.

Lemma https_read_last meta s ev e :
  last (trace (final (resourceComputeTargetHttpsProxyRead meta s))) = Some ev →
  failure ev = Some e → isGet ev = false → last (trace s) = Some ev.
Proof.
  destruct (https_read_events meta s) as (evs & -> & Hall). by apply read_last.
Qed.

Lemma ssl_read_last meta s ev e :
  last (trace (final (resourceComputeTargetSslProxyRead meta s))) = Some ev →
  failure ev = Some e → isGet ev = false → last (trace s) = Some ev.
Proof.
  destruct (ssl_read_events meta s) as (evs & -> & Hall). by apply read_last.
Qed.

Ltac last_leaf :=
  let Hlast := fresh "Hlast" in let Hfail := fresh "Hfail" in let Hget := fresh "Hget" in
  intros Hlast Hfail Hget;
  try (first [ apply (https_read_last _ _ _ _ Hlast Hfail) in Hget
             | apply (ssl_read_last _ _ _ _ Hlast Hfail) in Hget ];
       clear Hlast; rename Hget into Hlast);
  cbn [trace app last] in Hlast; simplify_eq; cbn in Hfail; by simplify_eq.

Lemma https_create_error meta d w ev e :
  let r := resourceComputeTargetHttpsProxyCreate meta (start d w) in
  last (trace (final r)) = Some ev → failure ev = Some e → isGet ev = false →
  returned r = Some (createError ev e).
Proof.
  cbv zeta. hold_property (resourceComputeTargetHttpsProxyCreate meta (start d w)).
  unfold resourceComputeTargetHttpsProxyCreate. run_go.
  all: release_property; cbn [final snd rd trace returned fst].
  all: last_leaf.
Qed.

Lemma ssl_create_error meta d w ev e :
  let r := resourceComputeTargetSslProxyCreate meta (start d w) in
  last (trace (final r)) = Some ev → failure ev = Some e → isGet ev = false →
  returned r = Some (createError ev e).
Proof.
  cbv zeta. hold_property (resourceComputeTargetSslProxyCreate meta (start d w)).
  unfold resourceComputeTargetSslProxyCreate. run_go.
  all: release_property; cbn [final snd rd trace returned fst].
  all: last_leaf.
Qed.

(** X8. The error Create returns, by the call that failed.  When the
    last event of a run of Create is a call or a wait that was answered
    with an error, Create returns: for the insert call, a plain error with
    the text behind "Error creating TargetHttpsProxy: " (or
    "...TargetSslProxy: "); for the policy-attach call, the error wrapped
    with [errwrap.Wrapf], the original error kept inside; for either wait,
    the error as it is.  Both resources. *)
Theorem X8_create_error_by_failing_call meta d w ev e :
  (let r := resourceComputeTargetHttpsProxyCreate meta (start d w) in
   last (trace (final r)) = Some ev → failure ev = Some e → isGet ev = false →
   returned r = Some (createError ev e))
  ∧ (let r := resourceComputeTargetSslProxyCreate meta (start d w) in
     last (trace (final r)) = Some ev → failure ev = Some e → isGet ev = false →
     returned r = Some (createError ev e)).
Proof. split; [apply https_create_error | apply ssl_create_error]. Qed.

(** ** Update *)

(** *** Partial mode *)

Lemma https_read_partial meta s :
  rd_partial (rd (final (resourceComputeTargetHttpsProxyRead meta s))) = rd_partial (rd s)
  ∧ rd_partialMap (rd (final (resourceComputeTargetHttpsProxyRead meta s)))
    = rd_partialMap (rd s).
Proof.
  by destruct (https_read_rd meta s) as [Hd | [Hd | (project & proxy & Hd)]];
    cbv zeta in Hd; rewrite Hd.
Qed.

Lemma ssl_read_partial meta s :
  rd_partial (rd (final (resourceComputeTargetSslProxyRead meta s))) = rd_partial (rd s)
  ∧ rd_partialMap (rd (final (resourceComputeTargetSslProxyRead meta s)))
    = rd_partialMap (rd s).
Proof.
  by destruct (ssl_read_rd meta s) as [Hd | [Hd | (project & proxy & Hd)]];
    cbv zeta in Hd; rewrite Hd.
Qed.

Ltac after_read lem :=
  match goal with
  | |- context [resourceComputeTargetHttpsProxyRead ?m ?s] =>
      destruct (lem m s) as [-> ->]
  | |- context [resourceComputeTargetSslProxyRead ?m ?s] =>
      destruct (lem m s) as [-> ->]
  end.

Ltac completed_at tr1 :=
  solve [eexists; split; [eexists _, _, _, tr1, _; reflexivity | reflexivity]].

Ltac find_completed :=
  first [ completed_at uconstr:([]) | completed_at uconstr:([_; _])
        | completed_at uconstr:([_; _; _; _]) | completed_at uconstr:([_; _; _; _; _; _]) ].

Ltac recorded_leaf :=
  cbn [rd_partialMap rd_partial SetPartial Partial app];
  split_and!;
    [ try done
    | set_solver
    | let k := fresh "k" in let Hk := fresh "Hk" in let Hnew := fresh "Hnew" in
      intros k Hk Hnew;
      repeat (apply elem_of_union in Hk as [Hk | Hk]);
      try (by apply elem_of_empty in Hk); try done;
      try (apply elem_of_singleton in Hk as ->; find_completed) ].

Lemma https_update_recorded meta d w :
  let r := resourceComputeTargetHttpsProxyUpdate meta (start d w) in
  let recorded := rd_partialMap (rd (final r)) in
  (returned r = None → rd_partial (rd (final r)) = false ∧ recorded = ∅)
  ∧ recorded ⊆ rd_partialMap d ∪ {["url_map"; "ssl_certificate"]}
  ∧ (∀ k, k ∈ recorded → k ∉ rd_partialMap d →
       ∃ req, completed req (trace (final r)) ∧ recordedKey req = Some k).
Proof.
  cbv zeta. hold_property (resourceComputeTargetHttpsProxyUpdate meta (start d w)).
  unfold resourceComputeTargetHttpsProxyUpdate. run_go.
  all: release_property; cbn [final snd rd trace returned fst].
  all: try after_read https_read_partial.
  all: recorded_leaf.
Qed.

Lemma ssl_update_recorded meta d w :
  let r := resourceComputeTargetSslProxyUpdate meta (start d w) in
  let recorded := rd_partialMap (rd (final r)) in
  (returned r = None → rd_partial (rd (final r)) = false ∧ recorded = ∅)
  ∧ recorded ⊆ rd_partialMap d ∪ {["proxy_header"; "backend_service"; "ssl_certificates"]}
  ∧ (∀ k, k ∈ recorded → k ∉ rd_partialMap d →
       ∃ req, completed req (trace (final r)) ∧ recordedKey req = Some k).
Proof.
  cbv zeta. hold_property (resourceComputeTargetSslProxyUpdate meta (start d w)).
  unfold resourceComputeTargetSslProxyUpdate. run_go.
  all: release_property; cbn [final snd rd trace returned fst].
  all: try after_read ssl_read_partial.
  all: recorded_leaf.
Qed.

(** X9. The keys Update records in partial mode.  A key is recorded only
    after the call of its group and the wait for it have both succeeded,
    and no key is recorded for the security-policy group.  The HTTPS proxy
    records the certificate group under the key ["ssl_certificate"], so
    ["ssl_certificates"] is never among its recorded keys; the SSL proxy
    records ["ssl_certificates"].  When Update returns no error, partial
    mode is off and no key is recorded.  Both resources. *)
Theorem X9_update_records_completed_groups meta d w :
  (let r := resourceComputeTargetHttpsProxyUpdate meta (start d w) in
   let recorded := rd_partialMap (rd (final r)) in
   (returned r = None → rd_partial (rd (final r)) = false ∧ recorded = ∅)
   ∧ recorded ⊆ rd_partialMap d ∪ {["url_map"; "ssl_certificate"]}
   ∧ (∀ k, k ∈ recorded → k ∉ rd_partialMap d →
        ∃ req, completed req (trace (final r)) ∧ recordedKey req = Some k))
  ∧ (let r := resourceComputeTargetSslProxyUpdate meta (start d w) in
     let recorded := rd_partialMap (rd (final r)) in
     (returned r = None → rd_partial (rd (final r)) = false ∧ recorded = ∅)
     ∧ recorded
       ⊆ rd_partialMap d ∪ {["proxy_header"; "backend_service"; "ssl_certificates"]}
     ∧ (∀ k, k ∈ recorded → k ∉ rd_partialMap d →
          ∃ req, completed req (trace (final r)) ∧ recordedKey req = Some k)).
Proof. split; [apply https_update_recorded | apply ssl_update_recorded]. Qed.

(** *** The error Update returns *)

Lemma https_update_error meta d w ev e :
  let r := resourceComputeTargetHttpsProxyUpdate meta (start d w) in
  last (trace (final r)) = Some ev → failure ev = Some e → isGet ev = false →
  returned r = Some (updateError ev e).
Proof.
  cbv zeta. hold_property (resourceComputeTargetHttpsProxyUpdate meta (start d w)).
  unfold resourceComputeTargetHttpsProxyUpdate. run_go.
  all: release_property; cbn [final snd rd trace returned fst].
  all: last_leaf.
Qed.

Lemma ssl_update_error meta d w ev e :
  let r := resourceComputeTargetSslProxyUpdate meta (start d w) in
  last (trace (final r)) = Some ev → failure ev = Some e → isGet ev = false →
  returned r = Some (updateError ev e).
Proof.
  cbv zeta. hold_property (resourceComputeTargetSslProxyUpdate meta (start d w)).
  unfold resourceComputeTargetSslProxyUpdate. run_go.
  all: release_property; cbn [final snd rd trace returned fst].
  all: last_leaf.
Qed.


(** X10. The error Update returns, by the call that failed.  When the
    last event of a run of Update is a call or a wait that was answered
    with an error, Update returns: for the calls that set the URL map, the
    proxy header, the backend service or the certificates, a plain error
    with the text behind the context of [updateContext], where the SSL
    proxy uses "Error updating backend_service: " for the certificate call
    too; for the policy call and for every wait, the error as it is.  Both
    resources. *)
Theorem X10_update_error_by_failing_call meta d w ev e :
  (let r := resourceComputeTargetHttpsProxyUpdate meta (start d w) in
   last (trace (final r)) = Some ev → failure ev = Some e → isGet ev = false →
   returned r = Some (updateError ev e))
  ∧ (let r := resourceComputeTargetSslProxyUpdate meta (start d w) in
     last (trace (final r)) = Some ev → failure ev = Some e → isGet ev = false →
     returned r = Some (updateError ev e)).
Proof. split; [apply https_update_error | apply ssl_update_error]. Qed.

(** *** References that do not parse *)

Ltac lazy_leaf :=
  cbv beta; cbn [final snd rd trace returned fst app requests];
  rewrite ?requests_read_https, ?requests_read_ssl;
  cbn [trace app requests];
  split_and!;
    [ try done
    | try done
    | try done;
      let Hok := fresh "Hok" in
      intros Hok; try done; no_failure Hok ].

Lemma https_update_bad_certificate meta d w project certs e :
  let d1 := Partial true d in
  let d2 := if HasChange d "url_map" then SetPartial "url_map" d1 else d1 in
  let r := resourceComputeTargetHttpsProxyUpdate meta (start d w) in
  getProject d meta = (project, None) →
  HasChange d "ssl_certificates" = true →
  expandSslCertificates d2 meta = (certs, Some e) →
  requests (trace (final r))
  = (if HasChange d "url_map"
     then [TargetHttpsProxies_SetUrlMap project (Id d) (Get_string d "url_map")] else [])
  ∧ returned r ≠ None
  ∧ (Forall succeeded (trace (final r)) → returned r = Some e).
Proof.
  cbv zeta. intros Hproject Hchanged. revert Hproject.
  hold_property (resourceComputeTargetHttpsProxyUpdate meta (start d w)).
  unfold resourceComputeTargetHttpsProxyUpdate. run_go.
  all: release_property.
  all: intros; simplify_eq.
  all: lazy_leaf.
Qed.

Lemma ssl_update_bad_certificate meta d w project certs e :
  let d1 := Partial true d in
  let d2 := if HasChange d "proxy_header" then SetPartial "proxy_header" d1 else d1 in
  let d3 := if HasChange d "backend_service" then SetPartial "backend_service" d2 else d2 in
  let r := resourceComputeTargetSslProxyUpdate meta (start d w) in
  let earlier :=
    (if HasChange d "proxy_header"
     then [TargetSslProxies_SetProxyHeader project (Id d) (Get_string d "proxy_header")]
     else [])
    ++ (if HasChange d "backend_service"
        then [TargetSslProxies_SetBackendService project (Id d)
                (Get_string d "backend_service")]
        else []) in
  getProject d meta = (project, None) →
  HasChange d "ssl_certificates" = true →
  expandSslCertificates d3 meta = (certs, Some e) →
  requests (trace (final r)) `prefix_of` earlier
  ∧ returned r ≠ None
  ∧ (Forall succeeded (trace (final r)) →
     requests (trace (final r)) = earlier ∧ returned r = Some e).
Proof.
  cbv zeta. intros Hproject Hchanged. revert Hproject.
  hold_property (resourceComputeTargetSslProxyUpdate meta (start d w)).
  unfold resourceComputeTargetSslProxyUpdate. run_go.
  all: release_property.
  all: intros; simplify_eq.
  all: cbv beta; cbn [final snd rd trace returned fst app requests].
  all: split_and!; [by eexists | done |].
  all: let Hok := fresh "Hok" in intros Hok; first [done | no_failure Hok].
Qed.

(** X11. A certificate reference that does not parse, in Update.  The
    references are expanded when the certificate group is reached, not
    before: with a changed certificate list that does not expand, Update
    returns an error in every run and issues no certificate or policy
    call.  The calls it issues are an initial part of the calls of the
    changed groups that come before (for the HTTPS proxy the call that
    sets the URL map, which is issued whenever [url_map] changed; for the
    SSL proxy proxy header, then backend service).  When every call and
    wait of the run is answered without error, all the calls of those
    groups were issued, so the remote side has their new values, and the
    error returned is the one of the expansion.  Both resources. *)
Theorem X11_update_expands_certificates_late meta d w project certs e :
  let d1 := Partial true d in
  getProject d meta = (project, None) →
  HasChange d "ssl_certificates" = true →
  (let d2 := if HasChange d "url_map" then SetPartial "url_map" d1 else d1 in
   let r := resourceComputeTargetHttpsProxyUpdate meta (start d w) in
   expandSslCertificates d2 meta = (certs, Some e) →
   requests (trace (final r))
   = (if HasChange d "url_map"
      then [TargetHttpsProxies_SetUrlMap project (Id d) (Get_string d "url_map")] else [])
   ∧ returned r ≠ None
   ∧ (Forall succeeded (trace (final r)) → returned r = Some e))
  ∧ (let d2 := if HasChange d "proxy_header" then SetPartial "proxy_header" d1 else d1 in
     let d3 := if HasChange d "backend_service" then SetPartial "backend_service" d2 else d2 in
     let r := resourceComputeTargetSslProxyUpdate meta (start d w) in
     let earlier :=
       (if HasChange d "proxy_header"
        then [TargetSslProxies_SetProxyHeader project (Id d) (Get_string d "proxy_header")]
        else [])
       ++ (if HasChange d "backend_service"
           then [TargetSslProxies_SetBackendService project (Id d)
                   (Get_string d "backend_service")]
           else []) in
     expandSslCertificates d3 meta = (certs, Some e) →
     requests (trace (final r)) `prefix_of` earlier
     ∧ returned r ≠ None
     ∧ (Forall succeeded (trace (final r)) →
        requests (trace (final r)) = earlier ∧ returned r = Some e)).
Proof.
  intros d1 Hproject Hchanged. split; cbv zeta.
  - by apply https_update_bad_certificate.
  - by apply ssl_update_bad_certificate.
Qed.

Ltac policy_leaf :=
  cbv beta; cbn [final snd rd trace returned fst app];
  rewrite ?attachCalls_read_https, ?attachCalls_read_ssl;
  cbn [trace app];
  split_and!;
    [ reflexivity
    | done
    | let Hok := fresh "Hok" in
      intros Hok;
      first [ by left | by right; eexists | no_failure Hok ] ].

Lemma https_update_bad_policy meta d w project pol e :
  let d1 := Partial true d in
  let d2 := if HasChange d "url_map" then SetPartial "url_map" d1 else d1 in
  let d3 := if HasChange d "ssl_certificates" then SetPartial "ssl_certificate" d2 else d2 in
  let r := resourceComputeTargetHttpsProxyUpdate meta (start d w) in
  getProject d meta = (project, None) →
  HasChange d "ssl_policy" = true →
  ParseSslPolicyFieldValue (Get_string d "ssl_policy") d3 meta = (pol, Some e) →
  attachCalls (trace (final r)) = []
  ∧ returned r ≠ None
  ∧ (Forall succeeded (trace (final r)) →
     returned r = Some e ∨ ∃ e', (expandSslCertificates d2 meta).2 = Some e'
                                  ∧ returned r = Some e').
Proof.
  cbv zeta. intros Hproject Hchanged. revert Hproject.
  hold_property (resourceComputeTargetHttpsProxyUpdate meta (start d w)).
  unfold resourceComputeTargetHttpsProxyUpdate. run_go.
  all: release_property.
  all: intros; simplify_eq.
  all: policy_leaf.
Qed.

Lemma ssl_update_bad_policy meta d w project pol e :
  let d1 := Partial true d in
  let d2 := if HasChange d "proxy_header" then SetPartial "proxy_header" d1 else d1 in
  let d3 := if HasChange d "backend_service" then SetPartial "backend_service" d2 else d2 in
  let d4 := if HasChange d "ssl_certificates" then SetPartial "ssl_certificates" d3 else d3 in
  let r := resourceComputeTargetSslProxyUpdate meta (start d w) in
  getProject d meta = (project, None) →
  HasChange d "ssl_policy" = true →
  ParseSslPolicyFieldValue (Get_string d "ssl_policy") d4 meta = (pol, Some e) →
  attachCalls (trace (final r)) = []
  ∧ returned r ≠ None
  ∧ (Forall succeeded (trace (final r)) →
     returned r = Some e ∨ ∃ e', (expandSslCertificates d3 meta).2 = Some e'
                                  ∧ returned r = Some e').
Proof.
  cbv zeta. intros Hproject Hchanged. revert Hproject.
  hold_property (resourceComputeTargetSslProxyUpdate meta (start d w)).
  unfold resourceComputeTargetSslProxyUpdate. run_go.
  all: release_property.
  all: intros; simplify_eq.
  all: policy_leaf.
Qed.

(** X12. A policy reference that does not parse, in Update.  Unlike
    Create, Update tests the error of the parser: with a changed security
    policy whose reference does not parse, no run of Update issues a
    policy call, every run returns an error, and when nothing before
    failed on the remote side the error is the one of the parser (or the
    one of the certificate expansion, which comes first).  Both
    resources. *)
Theorem X12_update_tests_policy_reference meta d w project pol e :
  let d1 := Partial true d in
  getProject d meta = (project, None) →
  HasChange d "ssl_policy" = true →
  (let d2 := if HasChange d "url_map" then SetPartial "url_map" d1 else d1 in
   let d3 := if HasChange d "ssl_certificates" then SetPartial "ssl_certificate" d2 else d2 in
   let r := resourceComputeTargetHttpsProxyUpdate meta (start d w) in
   ParseSslPolicyFieldValue (Get_string d "ssl_policy") d3 meta = (pol, Some e) →
   attachCalls (trace (final r)) = []
   ∧ returned r ≠ None
   ∧ (Forall succeeded (trace (final r)) →
      returned r = Some e ∨ ∃ e', (expandSslCertificates d2 meta).2 = Some e'
                                   ∧ returned r = Some e'))
  ∧ (let d2 := if HasChange d "proxy_header" then SetPartial "proxy_header" d1 else d1 in
     let d3 := if HasChange d "backend_service" then SetPartial "backend_service" d2 else d2 in
     let d4 := if HasChange d "ssl_certificates" then SetPartial "ssl_certificates" d3 else d3 in
     let r := resourceComputeTargetSslProxyUpdate meta (start d w) in
     ParseSslPolicyFieldValue (Get_string d "ssl_policy") d4 meta = (pol, Some e) →
     attachCalls (trace (final r)) = []
     ∧ returned r ≠ None
     ∧ (Forall succeeded (trace (final r)) →
        returned r = Some e ∨ ∃ e', (expandSslCertificates d3 meta).2 = Some e'
                                     ∧ returned r = Some e')).
Proof.
  intros d1 Hproject Hchanged. split; cbv zeta.
  - apply (https_update_bad_policy _ _ _ _ _ _ Hproject Hchanged).
  - apply (ssl_update_bad_policy _ _ _ _ _ _ Hproject Hchanged).
Qed.

(** *** Update and the schema *)

Lemma https_updatable_groups k :
  k ∈ httpsGroups ↔
  ∃ s, resourceComputeTargetHttpsProxy_Schema !! k = Some s ∧ updatable s = true.
Proof.
  split.
  - unfold httpsGroups. intros Hk.
    repeat (apply elem_of_cons in Hk as [-> | Hk]); [| | | by apply elem_of_nil in Hk].
    all: by eexists.
  - intros (s & Hlookup & Hs). unfold resourceComputeTargetHttpsProxy_Schema in Hlookup.
    apply elem_of_list_to_map_2 in Hlookup.
    repeat (apply elem_of_cons in Hlookup as [[= -> ->] | Hlookup]);
      try (by apply elem_of_nil in Hlookup); try discriminate Hs.
    all: unfold httpsGroups; set_solver.
Qed.

Lemma ssl_updatable_groups k :
  k ∈ sslGroups ↔
  ∃ s, resourceComputeTargetSslProxy_Schema !! k = Some s ∧ updatable s = true.
Proof.
  split.
  - unfold sslGroups. intros Hk.
    repeat (apply elem_of_cons in Hk as [-> | Hk]); [| | | | by apply elem_of_nil in Hk].
    all: by eexists.
  - intros (s & Hlookup & Hs). unfold resourceComputeTargetSslProxy_Schema in Hlookup.
    apply elem_of_list_to_map_2 in Hlookup.
    repeat (apply elem_of_cons in Hlookup as [[= -> ->] | Hlookup]);
      try (by apply elem_of_nil in Hlookup); try discriminate Hs.
    all: unfold sslGroups; set_solver.
Qed.

Lemma https_update_issued_changed meta d w k :
  issued k (trace (final (resourceComputeTargetHttpsProxyUpdate meta (start d w)))) →
  k ∈ httpsGroups ∧ HasChange d k = true.
Proof.
  intros (req & Hin & Hg).
  destruct (getProject d meta) as [project [e |]] eqn:Hproject.
  { erewrite https_update_noproject in Hin by done. by apply elem_of_nil in Hin. }
  destruct (updateOutcome_prefix _ _ _ _ (requests_read_https meta)
              (https_update_outcome meta d w project Hproject)) as [rest Hp].
  destruct (httpsUpdateRequests_changed meta d project req) as (k' & Hk' & Hg' & Hc).
  - rewrite Hp. apply elem_of_app. by left.
  - by simplify_eq.
Qed.

Lemma ssl_update_issued_changed meta d w k :
  issued k (trace (final (resourceComputeTargetSslProxyUpdate meta (start d w)))) →
  k ∈ sslGroups ∧ HasChange d k = true.
Proof.
  intros (req & Hin & Hg).
  destruct (getProject d meta) as [project [e |]] eqn:Hproject.
  { erewrite ssl_update_noproject in Hin by done. by apply elem_of_nil in Hin. }
  destruct (updateOutcome_prefix _ _ _ _ (requests_read_ssl meta)
              (ssl_update_outcome meta d w project Hproject)) as [rest Hp].
  destruct (sslUpdateRequests_changed meta d project req) as (k' & Hk' & Hg' & Hc).
  - rewrite Hp. apply elem_of_app. by left.
  - by simplify_eq.
Qed.

(** X13. Update and the schema cover each other.  A call of Update belongs
    to a field of the schema that the configuration can set (required or
    optional) and that is not marked as forcing a new resource; and for
    every such field, when it changed and Update returns no error, the
    call of its group was issued.  So no field that can change in place is
    left out of Update, and Update touches no other.  Both resources. *)
Theorem X13_update_covers_updatable_fields meta d w :
  (∀ k, issued k (trace (final (resourceComputeTargetHttpsProxyUpdate meta (start d w)))) →
        ∃ s, resourceComputeTargetHttpsProxy_Schema !! k = Some s ∧ updatable s = true)
  ∧ (∀ k, issued k (trace (final (resourceComputeTargetSslProxyUpdate meta (start d w)))) →
          ∃ s, resourceComputeTargetSslProxy_Schema !! k = Some s ∧ updatable s = true)
  ∧ (∀ k s,
       resourceComputeTargetHttpsProxy_Schema !! k = Some s → updatable s = true →
       HasChange d k = true →
       returned (resourceComputeTargetHttpsProxyUpdate meta (start d w)) = None →
       issued k (trace (final (resourceComputeTargetHttpsProxyUpdate meta (start d w)))))
  ∧ (∀ k s,
       resourceComputeTargetSslProxy_Schema !! k = Some s → updatable s = true →
       HasChange d k = true →
       returned (resourceComputeTargetSslProxyUpdate meta (start d w)) = None →
       issued k (trace (final (resourceComputeTargetSslProxyUpdate meta (start d w))))).
Proof.
  split_and!.
  - intros k [Hk _]%https_update_issued_changed. by apply https_updatable_groups.
  - intros k [Hk _]%ssl_update_issued_changed. by apply ssl_updatable_groups.
  - intros k s Hlookup Hs Hchanged Hnone.
    assert (k ∈ httpsGroups) as Hk by (apply https_updatable_groups; eauto).
    destruct (getProject d meta) as [project [e |]] eqn:Hproject.
    { by erewrite https_update_noproject in Hnone. }
    destruct (updateOutcome_complete _ _ _ _ (requests_read_https meta)
                (https_update_outcome meta d w project Hproject) Hnone) as [Heq _].
    unfold issued. rewrite Heq. by apply httpsUpdateRequests_issued.
  - intros k s Hlookup Hs Hchanged Hnone.
    assert (k ∈ sslGroups) as Hk by (apply ssl_updatable_groups; eauto).
    destruct (getProject d meta) as [project [e |]] eqn:Hproject.
    { by erewrite ssl_update_noproject in Hnone. }
    destruct (updateOutcome_complete _ _ _ _ (requests_read_ssl meta)
                (ssl_update_outcome meta d w project Hproject) Hnone) as [Heq _].
    unfold issued. rewrite Heq. by apply sslUpdateRequests_issued.
Qed.

(** ** The identity *)

Lemma https_read_identity meta s :
  let d' := rd (final (resourceComputeTargetHttpsProxyRead meta s)) in
  Id d' = Id (rd s) ∨ Id d' = "".
Proof.
  intros d'. destruct (https_read_rd meta s) as [Hd | [Hd | (project & proxy & Hd)]];
    fold d' in Hd; rewrite Hd; auto.
Qed.

Lemma ssl_read_identity meta s :
  let d' := rd (final (resourceComputeTargetSslProxyRead meta s)) in
  Id d' = Id (rd s) ∨ Id d' = "".
Proof.
  intros d'. destruct (ssl_read_rd meta s) as [Hd | [Hd | (project & proxy & Hd)]];
    fold d' in Hd; rewrite Hd; auto.
Qed.

Ltac identity_leaf :=
  cbn [final snd rd];
  first
    [ match goal with
      | |- context [resourceComputeTargetHttpsProxyRead ?m ?s] =>
          destruct (https_read_identity m s) as [-> | ->]
      | |- context [resourceComputeTargetSslProxyRead ?m ?s] =>
          destruct (ssl_read_identity m s) as [-> | ->]
      end
    | idtac ];
  cbn [rd]; rewrite ?Id_Partial, ?Id_SetPartial, ?Id_SetId; auto.

Lemma https_update_identity meta d w :
  let d' := rd (final (resourceComputeTargetHttpsProxyUpdate meta (start d w))) in
  Id d' = Id d ∨ Id d' = "".
Proof.
  cbv zeta. hold_property (resourceComputeTargetHttpsProxyUpdate meta (start d w)).
  unfold resourceComputeTargetHttpsProxyUpdate. run_go.
  all: release_property; identity_leaf.
Qed.

Lemma ssl_update_identity meta d w :
  let d' := rd (final (resourceComputeTargetSslProxyUpdate meta (start d w))) in
  Id d' = Id d ∨ Id d' = "".
Proof.
  cbv zeta. hold_property (resourceComputeTargetSslProxyUpdate meta (start d w)).
  unfold resourceComputeTargetSslProxyUpdate. run_go.
  all: release_property; identity_leaf.
Qed.

Lemma https_create_identity meta d w :
  let r := resourceComputeTargetHttpsProxyCreate meta (start d w) in
  (Id (rd (final r)) = Id d ∧ returned r ≠ None)
  ∨ Id (rd (final r)) = Get_string d "name"
  ∨ Id (rd (final r)) = "".
Proof.
  cbv zeta. hold_property (resourceComputeTargetHttpsProxyCreate meta (start d w)).
  unfold resourceComputeTargetHttpsProxyCreate. run_go.
  all: release_property; identity_leaf.
Qed.

Lemma ssl_create_identity meta d w :
  let r := resourceComputeTargetSslProxyCreate meta (start d w) in
  (Id (rd (final r)) = Id d ∧ returned r ≠ None)
  ∨ Id (rd (final r)) = Get_string d "name"
  ∨ Id (rd (final r)) = "".
Proof.
  cbv zeta. hold_property (resourceComputeTargetSslProxyCreate meta (start d w)).
  unfold resourceComputeTargetSslProxyCreate. run_go.
  all: release_property; identity_leaf.
Qed.
Lemma https_delete_identity meta s :
  let r := resourceComputeTargetHttpsProxyDelete meta s in
  match returned r with
  | None => Id (rd (final r)) = ""
  | Some _ => rd (final r) = rd s
  end.
Proof.
  cbv zeta.
  destruct (getProject (rd s) meta) as [project [e |]] eqn:Hproject;
    [by erewrite https_delete_noproject |].
  destruct (Do meta (TargetHttpsProxies_Delete project (Id (rd s))) (world s))
    as [[op [e |]] w1] eqn:Hdo; [by erewrite https_delete_rejected |].
  destruct (computeOperationWait meta op project "Deleting Target Https Proxy" w1)
    as [werr w2] eqn:Hwait.
  erewrite https_delete_waited by done. by destruct werr.
Qed.

Lemma ssl_delete_identity meta s :
  let r := resourceComputeTargetSslProxyDelete meta s in
  match returned r with
  | None => Id (rd (final r)) = ""
  | Some _ => rd (final r) = rd s
  end.
Proof.
  cbv zeta.
  destruct (getProject (rd s) meta) as [project [e |]] eqn:Hproject;
    [by erewrite ssl_delete_noproject |].
  destruct (Do meta (TargetSslProxies_Delete project (Id (rd s))) (world s))
    as [[op [e |]] w1] eqn:Hdo; [by erewrite ssl_delete_rejected |].
  destruct (computeOperationWait meta op project "Deleting Target SSL Proxy" w1)
    as [werr w2] eqn:Hwait.
  erewrite ssl_delete_waited by done. by destruct werr.
Qed.

(** X14. The identity through the lifecycle.  Read, Update and Delete
    leave the identity as it was or empty; only Create gives one, and
    after a Create that returns no error the identity is the declared name
    (the name sent in the insert call) or, when the final fetch did not
    find the proxy, empty.  Both resources. *)
Theorem X14_identity_lifecycle meta d w :
  (keepsOrClears d (final (resourceComputeTargetHttpsProxyRead meta (start d w)))
   ∧ keepsOrClears d (final (resourceComputeTargetHttpsProxyUpdate meta (start d w)))
   ∧ keepsOrClears d (final (resourceComputeTargetHttpsProxyDelete meta (start d w)))
   ∧ keepsOrClears d (final (resourceComputeTargetSslProxyRead meta (start d w)))
   ∧ keepsOrClears d (final (resourceComputeTargetSslProxyUpdate meta (start d w)))
   ∧ keepsOrClears d (final (resourceComputeTargetSslProxyDelete meta (start d w))))
  ∧ (let r := resourceComputeTargetHttpsProxyCreate meta (start d w) in
     returned r = None →
     Id (rd (final r)) = Get_string d "name" ∨ Id (rd (final r)) = "")
  ∧ (let r := resourceComputeTargetSslProxyCreate meta (start d w) in
     returned r = None →
     Id (rd (final r)) = Get_string d "name" ∨ Id (rd (final r)) = "").
Proof.
  unfold keepsOrClears. split_and!.
  - apply https_read_identity.
  - apply https_update_identity.
  - pose proof (https_delete_identity meta (start d w)) as Hd. cbv zeta in Hd.
    destruct (returned _); [left; by rewrite Hd | by right].
  - apply ssl_read_identity.
  - apply ssl_update_identity.
  - pose proof (ssl_delete_identity meta (start d w)) as Hd. cbv zeta in Hd.
    destruct (returned _); [left; by rewrite Hd | by right].
  - cbv zeta. intros Hnone. destruct (https_create_identity meta d w) as [[_ ?] | ?]; done.
  - cbv zeta. intros Hnone. destruct (ssl_create_identity meta d w) as [[_ ?] | ?]; done.
Qed.


End Further.

(** * Concrete runs

    The properties above at runs of the reference implementation. *)

#[local] Existing Instance Sim.externals.

(** C7 at a run: the HTTPS proxy exists, Delete is answered with an
    operation that ends well. *)
Lemma C7_delete_witness :
  let r := resourceComputeTargetHttpsProxyDelete Sim.defaultConfig
             (start Sim.httpsSame Sim.created) in
  returned r = None
  ∧ Id (rd (final r)) = ""
  ∧ requests (trace (final r)) = [TargetHttpsProxies_Delete "my-project" "px"].
Proof.
  intros r.
  destruct (C7_delete (H := Sim.externals) Sim.defaultConfig
              (start (H := Sim.externals) Sim.httpsSame Sim.created) "my-project")
    as [_ Hproject].
  destruct Hproject as [Hh _]; [vm_compute; reflexivity |].
  eassert (Hdo : Do Sim.defaultConfig (TargetHttpsProxies_Delete "my-project" "px")
                   Sim.created = _) by (vm_compute; reflexivity).
  eassert (Hwait : computeOperationWait Sim.defaultConfig _ "my-project"
                     "Deleting Target Https Proxy" _ = _) by (vm_compute; reflexivity).
  destruct (Hh _ _ _ _ _ Hdo Hwait) as (Hret & Hrd & Htrace).
  fold r in Hret, Hrd, Htrace.
  split; [exact Hret |]. split; [by rewrite Hrd | by rewrite Htrace].
Defined.

(** C3 at two runs: Read after Create finds the proxy; Read of a proxy the
    remote side does not have clears the identity. *)
Lemma C3_read_witness :
  let found := resourceComputeTargetHttpsProxyRead Sim.defaultConfig
                 (start Sim.httpsSame Sim.created) in
  let absent := resourceComputeTargetSslProxyRead Sim.defaultConfig
                  (start Sim.sslSame Sim.emptyRemote) in
  (returned found = None
   ∧ Get_string (rd (final found)) "proxy_id" = "1"
   ∧ Get_string (rd (final found)) "self_link"
     = "https://www.googleapis.com/compute/v1/projects/my-project/global/targetHttpsProxies/px")
  ∧ (returned absent = None ∧ Id (rd (final absent)) = "").
Proof.
  intros found absent. split.
  - destruct (C3_read_reconciles (H := Sim.externals) Sim.defaultConfig
                (start (H := Sim.externals) Sim.httpsSame Sim.created) "my-project")
      as [Hh _]; [vm_compute; reflexivity |].
    eassert (Hget : TargetHttpsProxies_Get Sim.defaultConfig "my-project" "px"
                      Sim.created = _) by (vm_compute; reflexivity).
    destruct (Hh _ _ _ Hget) as (Hret & _ & Hid & Hlink & _).
    fold found in Hret, Hid, Hlink.
    split; [exact Hret |]. split; [by rewrite Hid | by rewrite Hlink].
  - destruct (C3_read_reconciles (H := Sim.externals) Sim.defaultConfig
                (start (H := Sim.externals) Sim.sslSame Sim.emptyRemote) "my-project")
      as [_ Hs]; [vm_compute; reflexivity |].
    eassert (Hget : TargetSslProxies_Get Sim.defaultConfig "my-project" "sx"
                      Sim.emptyRemote = _) by (vm_compute; reflexivity).
    destruct (Hs _ _ _ Hget) as (Hret & Hid & _); [vm_compute; reflexivity |].
    fold absent in Hret, Hid. by split.
Defined.

(** C1 at a run: Create and Read of the HTTPS declaration with two
    certificate references. *)
Lemma C1_local_state_witness :
  let r1 := resourceComputeTargetHttpsProxyCreate Sim.defaultConfig
              (start Sim.httpsDecl Sim.emptyRemote) in
  let r2 := resourceComputeTargetHttpsProxyRead Sim.defaultConfig (final r1) in
  Get_list (rd (final r2)) "ssl_certificates"
  = ["projects/my-project/global/sslCertificates/c1";
     "projects/p/global/sslCertificates/c2"]
  ∧ httpsReconciled (final r1).
Proof.
  intros r1 r2.
  destruct (C1_local_state_matches_remote (H := Sim.externals) Sim.defaultConfig
              Sim.httpsDecl Sim.emptyRemote) as (Hcerts & _ & Hcycle & _).
  split.
  - refine (proj1 (Hcerts _ _ _ _)); vm_compute; reflexivity.
  - apply Hcycle; [by left | vm_compute; reflexivity].
Defined.

(** C4 at two runs: with a declared policy Create attaches it once, after
    insert, wait and identity; without one it attaches none. *)
Lemma C4_policy_attach_witness :
  attachCalls (trace (final (resourceComputeTargetHttpsProxyCreate Sim.defaultConfig
                               (start Sim.httpsDecl Sim.emptyRemote))))
  = [TargetHttpsProxies_SetSslPolicy "my-project" "px"
       "projects/my-project/global/sslPolicies/pol"]
  ∧ attachCalls (trace (final (resourceComputeTargetSslProxyCreate Sim.defaultConfig
                                 (start Sim.sslNoCerts Sim.emptyRemote))))
    = [].
Proof.
  split.
  - destruct (C4_create_policy_attach (H := Sim.externals) Sim.defaultConfig
                Sim.httpsDecl Sim.emptyRemote) as [_ Hb].
    pose (certs := ["projects/my-project/global/sslCertificates/c1";
                    "projects/p/global/sslCertificates/c2"]).
    pose (pol := "projects/my-project/global/sslPolicies/pol").
    pose (req := TargetHttpsProxies_Insert "my-project" (httpsProxyOf Sim.httpsDecl certs)).
    pose (attach := TargetHttpsProxies_SetSslPolicy "my-project" "px" pol).
    pose (w1 := (Sim.send Sim.defaultConfig req Sim.emptyRemote).2).
    pose (w3 := (Sim.send Sim.defaultConfig attach w1).2).
    assert (getProject Sim.httpsDecl Sim.defaultConfig = ("my-project", None)) as Hproject
      by (vm_compute; reflexivity).
    assert (expandSslCertificates Sim.httpsDecl Sim.defaultConfig = (certs, None))
      as Hcerts by (vm_compute; reflexivity).
    assert (GetOk_string Sim.httpsDecl "ssl_policy" = ("pol", true)) as Hok
      by (vm_compute; reflexivity).
    assert (ParseSslPolicyFieldValue "pol" (SetId "px" Sim.httpsDecl) Sim.defaultConfig
            = (pol, None)) as Hparse by (vm_compute; reflexivity).
    assert (Do Sim.defaultConfig req Sim.emptyRemote = (Some req, None, w1)) as Hdo
      by (vm_compute; reflexivity).
    assert (computeOperationWait Sim.defaultConfig (Some req) "my-project"
              "Creating Target Https Proxy" w1 = (None, w1)) as Hwait
      by (vm_compute; reflexivity).
    assert (Do Sim.defaultConfig attach w1 = (Some attach, None, w3)) as Hattach
      by (vm_compute; reflexivity).
    destruct (Hb "my-project" certs "pol" pol None "px" Hproject Hcerts eq_refl Hok Hparse)
      as [Hh _].
    exact (proj1 (Hh (Some req) w1 w1 (Some attach) None w3 Hdo Hwait Hattach)).
  - destruct (C4_create_policy_attach (H := Sim.externals) Sim.defaultConfig
                Sim.sslNoCerts Sim.emptyRemote) as [Ha _].
    apply Ha. vm_compute; reflexivity.
Defined.

(** C9 at a run: the parser refuses the policy reference, Create attaches
    the unchecked result all the same and returns no error. *)
Lemma C9_policy_parse_error_witness :
  let r := resourceComputeTargetHttpsProxyCreate Sim.refusesBadPolicy
             (start Sim.httpsBadPolicy Sim.emptyRemote) in
  ParseSslPolicyFieldValue "bad policy" (SetId "px" Sim.httpsBadPolicy)
    Sim.refusesBadPolicy
  = ("", Some (errorString "Invalid sslPolicies reference: bad policy"))
  ∧ EvDo (TargetHttpsProxies_SetSslPolicy "my-project" "px" "")
      (Some (TargetHttpsProxies_SetSslPolicy "my-project" "px" "")) None
    ∈ trace (final r)
  ∧ returned r = None.
Proof.
  intros r.
  pose (certs := ["projects/my-project/global/sslCertificates/c1"]).
  pose (e := errorString "Invalid sslPolicies reference: bad policy").
  pose (req := TargetHttpsProxies_Insert "my-project"
                 (httpsProxyOf Sim.httpsBadPolicy certs)).
  pose (attach := TargetHttpsProxies_SetSslPolicy "my-project" "px" "").
  pose (w1 := (Sim.send Sim.refusesBadPolicy req Sim.emptyRemote).2).
  pose (w3 := (Sim.send Sim.refusesBadPolicy attach w1).2).
  assert (getProject Sim.httpsBadPolicy Sim.refusesBadPolicy = ("my-project", None))
    as Hproject by (vm_compute; reflexivity).
  assert (expandSslCertificates Sim.httpsBadPolicy Sim.refusesBadPolicy = (certs, None))
    as Hcerts by (vm_compute; reflexivity).
  assert (GetOk_string Sim.httpsBadPolicy "ssl_policy" = ("bad policy", true)) as Hok
    by (vm_compute; reflexivity).
  assert (ParseSslPolicyFieldValue "bad policy" (SetId "px" Sim.httpsBadPolicy)
            Sim.refusesBadPolicy = ("", Some e)) as Hparse by (vm_compute; reflexivity).
  assert (Do Sim.refusesBadPolicy req Sim.emptyRemote = (Some req, None, w1)) as Hdo
    by (vm_compute; reflexivity).
  assert (computeOperationWait Sim.refusesBadPolicy (Some req) "my-project"
            "Creating Target Https Proxy" w1 = (None, w1)) as Hwait
    by (vm_compute; reflexivity).
  assert (Do Sim.refusesBadPolicy attach w1 = (Some attach, None, w3)) as Hattach
    by (vm_compute; reflexivity).
  assert (computeSharedOperationWait Sim.refusesBadPolicy (Some attach) "my-project"
            "Adding Target HTTPS Proxy SSL Policy" w3 = (None, w3)) as Hshared
    by (vm_compute; reflexivity).
  destruct (C9_create_drops_policy_parse_error (H := Sim.externals) Sim.refusesBadPolicy
              Sim.httpsBadPolicy Sim.emptyRemote "my-project" certs "bad policy" "" e "px"
              Hproject Hcerts eq_refl Hok Hparse) as [Hh _].
  destruct (Hh (Some req) w1 w1 (Some attach) None w3 None w3 Hdo Hwait Hattach Hshared)
    as [Hin Hret].
  split; [exact Hparse |]. split; [exact Hin |].
  fold r in Hret. rewrite Hret. vm_compute. reflexivity.
Defined.

(** C5 at a run: only [proxy_header] differs; Update sets the proxy header
    and nothing else, and returns no error. *)
Lemma C5_update_witness :
  let r := resourceComputeTargetSslProxyUpdate Sim.defaultConfig
             (start Sim.sslNewHeader Sim.created) in
  requests (trace (final r))
  = [TargetSslProxies_SetProxyHeader "my-project" "sx" "PROXY_V1"]
  ∧ (issued "proxy_header" (trace (final r)) ↔ HasChange Sim.sslNewHeader "proxy_header" = true)
  ∧ (issued "ssl_policy" (trace (final r)) ↔ HasChange Sim.sslNewHeader "ssl_policy" = true).
Proof.
  intros r.
  assert (getProject Sim.sslNewHeader Sim.defaultConfig = ("my-project", None)) as Hproject
    by (vm_compute; reflexivity).
  assert (HasChange Sim.sslNewHeader "proxy_header" = true) as H1
    by (vm_compute; reflexivity).
  assert (HasChange Sim.sslNewHeader "backend_service" = false) as H2
    by (vm_compute; reflexivity).
  assert (HasChange Sim.sslNewHeader "ssl_certificates" = false) as H3
    by (vm_compute; reflexivity).
  assert (HasChange Sim.sslNewHeader "ssl_policy" = false) as H4
    by (vm_compute; reflexivity).
  assert (returned r = None) as Hnone by (vm_compute; reflexivity).
  destruct (C5_update_calls_follow_changes (H := Sim.externals) Sim.defaultConfig
              Sim.sslNewHeader Sim.created) as [_ Hresolved].
  destruct (Hresolved "my-project" Hproject) as (_ & _ & Hssl & Honly & _).
  split.
  - unfold r. rewrite (Honly H1 H2 H3 H4). vm_compute. reflexivity.
  - destruct (Hssl Hnone) as [_ Hiff].
    split; apply Hiff; unfold sslGroups.
    + apply list_elem_of_here.
    + do 3 apply list_elem_of_further. apply list_elem_of_here.
Defined.

(** C6 at a run: [proxy_header] and [backend_service] differ and the API
    rejects the new backend service.  The proxy header stays set, the
    rejected call is the last event and its error comes back behind the
    context string. *)
Lemma C6_update_failure_witness :
  let r := resourceComputeTargetSslProxyUpdate Sim.rejectsBackend
             (start Sim.sslNewHeaderAndBackend Sim.created) in
  let header := TargetSslProxies_SetProxyHeader "my-project" "sx" "PROXY_V1" in
  let e := apiError 400 "googleapi: Error 400: invalid backend service" in
  trace (final r)
  = [EvDo header (Some header) None;
     EvWait (Some header) "my-project" "Updating Target SSL Proxy" None]
    ++ [EvDo (TargetSslProxies_SetBackendService "my-project" "sx" "be2") None (Some e)]
  ∧ (∃ e', returned r = Some e' ∧ surfaces e e')
  ∧ rd_partial (rd (final r)) = true.
Proof.
  intros r header e.
  pose (tr1 := [EvDo (H := Sim.externals) header (Some header) None;
                EvWait (Some header) "my-project" "Updating Target SSL Proxy" None]).
  pose (ev := EvDo (H := Sim.externals)
                (TargetSslProxies_SetBackendService "my-project" "sx" "be2") None (Some e)).
  assert (trace (final r) = tr1 ++ ev :: []) as Htrace by reflexivity.
  assert (isGet ev = false) as Hget by reflexivity.
  assert (failure ev = Some e) as Hfail by reflexivity.
  destruct (C6_update_stops_at_first_failure (H := Sim.externals) Sim.rejectsBackend
              Sim.sslNewHeaderAndBackend Sim.created tr1 ev [] e Hget Hfail)
    as [_ Hssl].
  destruct (Hssl Htrace) as (_ & _ & Hret & Hpartial & _).
  split; [exact Htrace |]. split; [exact Hret | exact Hpartial].
Defined.

(** C8 at a run: Create of an HTTPS declaration with no certificate
    reference sends the insert call. *)
Lemma C8_schema_witness :
  expandSslCertificates Sim.httpsNoCerts Sim.defaultConfig = ([], None)
  ∧ ∃ op err rest,
      trace (final (resourceComputeTargetHttpsProxyCreate Sim.defaultConfig
                      (start Sim.httpsNoCerts Sim.emptyRemote)))
      = EvDo (TargetHttpsProxies_Insert "my-project" (httpsProxyOf Sim.httpsNoCerts []))
          op err :: rest.
Proof.
  destruct (C8_ssl_certificates_schema (H := Sim.externals) Sim.defaultConfig
              Sim.httpsNoCerts Sim.emptyRemote "my-project") as (_ & _ & Hcreate).
  destruct Hcreate as (Hexpand & Hhttps & _); [vm_compute; reflexivity.. |].
  by split.
Defined.


(** C10 at a run: nothing differs; Update is one Read. *)
Lemma C10_update_unchanged_witness :
  let r := resourceComputeTargetHttpsProxyUpdate Sim.defaultConfig
             (start Sim.httpsSame Sim.created) in
  requests (trace (final r)) = []
  ∧ r = resourceComputeTargetHttpsProxyRead Sim.defaultConfig
          (mkState (resetPartial Sim.httpsSame) Sim.created [])
  ∧ rd_state (rd (final r)) = rd_state Sim.httpsSame.
Proof.
  intros r.
  destruct (C10_update_without_changes (H := Sim.externals) Sim.defaultConfig
              Sim.httpsSame Sim.created) as [Hh _].
  destruct Hh as (Hreq & _ & Hread & _ & _ & Hstate & _).
  { unfold httpsGroups. repeat constructor. }
  split; [exact Hreq |]. split; [| exact Hstate].
  apply (Hread "my-project"). vm_compute. reflexivity.
Defined.


(** C8 as stated fails: the list checks of both schemas accept the empty
    list, and Create with an empty list reaches the API. *)
Lemma C8_empty_list_is_accepted :
  (∃ s, resourceComputeTargetHttpsProxy_Schema !! "ssl_certificates" = Some s
        ∧ validateField s (Some (VList [])) = true)
  ∧ (∃ s, resourceComputeTargetSslProxy_Schema !! "ssl_certificates" = Some s
          ∧ validateField s (Some (VList [])) = true)
  ∧ requests (trace (final (resourceComputeTargetHttpsProxyCreate Sim.defaultConfig
                              (start Sim.httpsNoCerts Sim.emptyRemote))))
    = [TargetHttpsProxies_Insert "my-project"
         (TargetHttpsProxy.mk "px" "um" [] "" 0 "" "")]
  ∧ requests (trace (final (resourceComputeTargetSslProxyCreate Sim.defaultConfig
                              (start Sim.sslNoCerts Sim.emptyRemote))))
    = [TargetSslProxies_Insert "my-project"
         (TargetSslProxy.mk "sx" "be" "NONE" "" [] 0 "" "")].
Proof.
  split_and!.
  - eexists. split; vm_compute; reflexivity.
  - eexists. split; vm_compute; reflexivity.
  - vm_compute. reflexivity.
  - vm_compute. reflexivity.
Qed.


(** C2 at the failing input: the parser refuses the declared policy
    reference with an error, and Create returns no error, for both
    resources; the attach call goes out with the empty link of the
    unchecked result. *)
Theorem C2_create_swallows_policy_parse_error :
  let https := resourceComputeTargetHttpsProxyCreate Sim.refusesBadPolicy
                 (start Sim.httpsBadPolicy Sim.emptyRemote) in
  let ssl := resourceComputeTargetSslProxyCreate Sim.refusesBadPolicy
               (start Sim.sslBadPolicy Sim.emptyRemote) in
  (ParseSslPolicyFieldValue "bad policy" (SetId "px" Sim.httpsBadPolicy)
     Sim.refusesBadPolicy).2
  = Some (errorString "Invalid sslPolicies reference: bad policy")
  ∧ (ParseSslPolicyFieldValue "bad policy" (SetId "sx" Sim.sslBadPolicy)
       Sim.refusesBadPolicy).2
    = Some (errorString "Invalid sslPolicies reference: bad policy")
  ∧ returned https = None
  ∧ returned ssl = None
  ∧ attachCalls (trace (final https))
    = [TargetHttpsProxies_SetSslPolicy "my-project" "px" ""]
  ∧ attachCalls (trace (final ssl))
    = [TargetSslProxies_SetSslPolicy "my-project" "sx" ""].
Proof. split_and!; vm_compute; reflexivity. Qed.

(** The HTTPS Update records the key ["ssl_certificate"] for the
    certificate group, which is not a key of the schema: when the policy
    call fails after the certificates were set, the remote side has the new
    certificates and the keys recorded for partial state do not contain
    ["ssl_certificates"]. *)
Example https_update_records_ssl_certificate :
  let r := resourceComputeTargetHttpsProxyUpdate Sim.rejectsPolicy
             (start Sim.httpsNewCertsAndPolicy Sim.created) in
  requests (trace (final r))
  = [TargetHttpsProxies_SetSslCertificates "my-project" "px"
       ["projects/my-project/global/sslCertificates/c3"];
     TargetHttpsProxies_SetSslPolicy "my-project" "px"
       "projects/my-project/global/sslPolicies/pol2"]
  ∧ rd_partial (rd (final r)) = true
  ∧ elements (rd_partialMap (rd (final r))) = ["ssl_certificate"]
  ∧ resourceComputeTargetHttpsProxy_Schema !! "ssl_certificate" = None.
Proof. split_and!; vm_compute; reflexivity. Qed.

(** C1 as stated fails: the remote side answers the fetch with the
    certificate references as self links.  Create and Read return no
    error, and the local [ssl_certificates] is what the fetch answered,
    not the declared list in canonical relative-path form. *)
Lemma C1_fetch_answers_self_links :
  let r1 := resourceComputeTargetHttpsProxyCreate (H := Sim.answersSelfLinks)
              Sim.defaultConfig (start (H := Sim.answersSelfLinks) Sim.httpsDecl
                                   Sim.emptyRemote) in
  let r2 := resourceComputeTargetHttpsProxyRead (H := Sim.answersSelfLinks)
              Sim.defaultConfig (final r1) in
  returned r1 = None
  ∧ returned r2 = None
  ∧ map (canonical (H := Sim.answersSelfLinks) Sim.httpsDecl Sim.defaultConfig)
      (Get_list Sim.httpsDecl "ssl_certificates")
    = ["projects/my-project/global/sslCertificates/c1";
       "projects/p/global/sslCertificates/c2"]
  ∧ Get_list (rd (final r2)) "ssl_certificates"
    = ["https://www.googleapis.com/compute/v1/projects/my-project/global/sslCertificates/c1";
       "https://www.googleapis.com/compute/v1/projects/p/global/sslCertificates/c2"]
  ∧ Get_list (rd (final r2)) "ssl_certificates"
    ≠ map (canonical (H := Sim.answersSelfLinks) Sim.httpsDecl Sim.defaultConfig)
        (Get_list Sim.httpsDecl "ssl_certificates").
Proof.
  split_and!; try (vm_compute; reflexivity).
  vm_compute. discriminate.
Qed.

(** C5 as stated fails: [proxy_header] and [backend_service] differ and the
    API rejects the new proxy header; the backend service changed and its
    call is not issued.  And a changed [ssl_policy] whose reference does
    not parse issues no call at all. *)
Lemma C5_changed_group_without_call :
  let r := resourceComputeTargetSslProxyUpdate Sim.rejectsHeader
             (start Sim.sslNewHeaderAndBackend Sim.created) in
  let r' := resourceComputeTargetSslProxyUpdate Sim.refusesBadPolicy
              (start Sim.sslNewBadPolicy Sim.created) in
  (HasChange Sim.sslNewHeaderAndBackend "backend_service" = true
   ∧ requests (trace (final r))
     = [TargetSslProxies_SetProxyHeader "my-project" "sx" "PROXY_V1"]
   ∧ ¬ issued "backend_service" (trace (final r)))
  ∧ (HasChange Sim.sslNewBadPolicy "ssl_policy" = true
     ∧ requests (trace (final r')) = []
     ∧ ¬ issued "ssl_policy" (trace (final r'))).
Proof.
  intros r r'.
  assert (requests (trace (final r))
          = [TargetSslProxies_SetProxyHeader "my-project" "sx" "PROXY_V1"]) as Hreq
    by (vm_compute; reflexivity).
  assert (requests (trace (final r')) = []) as Hreq' by (vm_compute; reflexivity).
  split; split_and!; try done; try (vm_compute; reflexivity).
  - intros (req & Hin & Hgroup). rewrite Hreq in Hin.
    apply list_elem_of_singleton in Hin. by subst req.
  - intros (req & Hin & _). rewrite Hreq' in Hin. by apply elem_of_nil in Hin.
Qed.

(** ** The further properties at runs *)

(** X1 at a declaration with two references, one by name and one by
    path. *)
Lemma X1_expand_witness :
  (expandSslCertificates Sim.httpsDecl Sim.defaultConfig).1
  = ["projects/my-project/global/sslCertificates/c1";
     "projects/p/global/sslCertificates/c2"]
  ∧ Get_list Sim.httpsDecl "ssl_certificates" !! 1%nat
    = Some "projects/p/global/sslCertificates/c2".
Proof.
  pose proof (X1_expand_succeeds_iff_all_parse (H := Sim.externals) Sim.httpsDecl
                Sim.defaultConfig) as HX.
  cbv zeta in HX. destruct HX as [Hiff Hall].
  assert (Forall (λ c, (ParseSslCertificateFieldValue c Sim.httpsDecl Sim.defaultConfig).2
                       = None) (Get_list Sim.httpsDecl "ssl_certificates")) as Hparse.
  { apply Hiff. vm_compute. reflexivity. }
  destruct (Hall Hparse) as (Hcerts & _ & _).
  split; [rewrite Hcerts |]; vm_compute; reflexivity.
Defined.

(** X2 at a declaration whose second reference the parser refuses. *)
Lemma X2_expand_witness :
  expandSslCertificates Sim.httpsBadCert Sim.refusesBadCert
  = ([], Some (errorString
                 "Invalid ssl certificate: Invalid sslCertificates reference: bad cert"))
  ∧ ∃ pre c post, Get_list Sim.httpsBadCert "ssl_certificates" = pre ++ c :: post
      ∧ (ParseSslCertificateFieldValue c Sim.httpsBadCert Sim.refusesBadCert).2 ≠ None.
Proof.
  destruct (X2_expand_fails_at_first_bad_reference (H := Sim.externals) Sim.httpsBadCert
              Sim.refusesBadCert) as [Hfirst Hevery].
  assert (expandSslCertificates Sim.httpsBadCert Sim.refusesBadCert
          = ([], Some (errorString
                "Invalid ssl certificate: Invalid sslCertificates reference: bad cert")))
    as Hrun.
  { refine (Hfirst ["c1"] "bad cert" ["c3"] ""
              (errorString "Invalid sslCertificates reference: bad cert") _ _ _).
    - vm_compute. reflexivity.
    - apply Forall_cons_2; [vm_compute; reflexivity | apply Forall_nil_2].
    - vm_compute. reflexivity. }
  split; [exact Hrun |].
  destruct (Hevery _ _ Hrun) as (_ & pre & c & post & fv & e0 & Hlist & _ & Hc & _).
  exists pre, c, post. split; [exact Hlist |]. by rewrite Hc.
Defined.

(** X3 at two runs: Read of a proxy the remote side has, and Read with no
    project to resolve. *)
Lemma X3_read_witness :
  let found := resourceComputeTargetHttpsProxyRead Sim.defaultConfig
                 (start Sim.httpsSame Sim.created) in
  let failed := resourceComputeTargetSslProxyRead Sim.noProject
                  (start Sim.sslDecl Sim.emptyRemote) in
  (∃ proxy err,
      trace (final found) = [EvGetHttps "my-project" "px" proxy err]
      ∨ trace (final found) = [EvGetHttps "my-project" "px" proxy err; EvSetId ""])
  ∧ final failed = start Sim.sslDecl Sim.emptyRemote
  ∧ rd (final failed) = Sim.sslDecl.
Proof.
  intros found failed.
  destruct (X3_read_only_reads (H := Sim.externals) Sim.defaultConfig
              (start (H := Sim.externals) Sim.httpsSame Sim.created))
    as [(_ & _ & Hresolved & _) _].
  destruct (X3_read_only_reads (H := Sim.externals) Sim.noProject
              (start (H := Sim.externals) Sim.sslDecl Sim.emptyRemote))
    as [_ (_ & Hunresolved & _ & Herror)].
  split_and!.
  - destruct Hresolved as (proxy & err & _ & Htrace); [vm_compute; reflexivity |].
    exists proxy, err. exact Htrace.
  - apply Hunresolved. vm_compute. discriminate.
  - apply (Herror (errorString "project: required field is not set")).
    vm_compute. reflexivity.
Defined.

(** X4 at a run: Read twice of the same remote proxy. *)
Lemma X4_read_twice_witness :
  let s1 := final (resourceComputeTargetHttpsProxyRead Sim.defaultConfig
                     (start Sim.httpsSame Sim.created)) in
  rd (final (resourceComputeTargetHttpsProxyRead Sim.defaultConfig s1)) = rd s1.
Proof.
  intros s1.
  pose (proxy := (Sim.getHttps Sim.defaultConfig "my-project" "px" Sim.created).1.1).
  destruct (X4_read_twice (H := Sim.externals) Sim.defaultConfig
              (start (H := Sim.externals) Sim.httpsSame Sim.created)) as [Hh _].
  refine (proj2 (Hh "my-project" proxy Sim.created "my-project" proxy Sim.created
                   _ _ _ _) eq_refl); vm_compute; reflexivity.
Defined.

(** X5 at a run: after Read the computed field [proxy_id] holds a string,
    and a key that is not in the schema is left alone. *)
Lemma X5_read_schema_witness :
  let r := resourceComputeTargetHttpsProxyRead Sim.defaultConfig
             (start Sim.httpsSame Sim.created) in
  (∃ v, Get (rd (final r)) "proxy_id" = Some v ∧ valueType v = TypeString)
  ∧ Get (rd (final r)) "ssl_certificate" = Get Sim.httpsSame "ssl_certificate".
Proof.
  intros r.
  pose (proxy := (Sim.getHttps Sim.defaultConfig "my-project" "px" Sim.created).1.1).
  destruct (X5_read_writes_the_schema (H := Sim.externals) Sim.defaultConfig
              (start (H := Sim.externals) Sim.httpsSame Sim.created))
    as (Hset & Hframe & _).
  split.
  - refine (Hset "my-project" proxy Sim.created _ _ "proxy_id"
              (withComputed (schemaOf TypeString)) _); vm_compute; reflexivity.
  - apply Hframe. vm_compute. reflexivity.
Defined.

(** X6 at a run: Create of the HTTPS declaration with a policy issues the
    insert call and the attach call. *)
Lemma X6_create_calls_witness :
  let r := resourceComputeTargetHttpsProxyCreate Sim.defaultConfig
             (start Sim.httpsDecl Sim.emptyRemote) in
  requests (trace (final r)) = httpsCreateRequests Sim.defaultConfig Sim.httpsDecl
  ∧ List.length (httpsCreateRequests Sim.defaultConfig Sim.httpsDecl) = 2%nat.
Proof.
  intros r.
  destruct (X6_create_issues_insert_then_attach (H := Sim.externals) Sim.defaultConfig
              Sim.httpsDecl Sim.emptyRemote) as ((_ & Hall & _) & _).
  split; [apply Hall |]; vm_compute; reflexivity.
Defined.

(** X7 at two runs: the API rejects the attach call; the proxies exist
    and [d] has their identity. *)
Lemma X7_create_failure_witness :
  let https := resourceComputeTargetHttpsProxyCreate Sim.rejectsPolicy
                 (start Sim.httpsDecl Sim.emptyRemote) in
  let ssl := resourceComputeTargetSslProxyCreate Sim.rejectsPolicy
               (start Sim.sslDecl Sim.emptyRemote) in
  rd (final https) = SetId "px" Sim.httpsDecl ∧ rd (final ssl) = SetId "sx" Sim.sslDecl.
Proof.
  intros https ssl.
  pose (e0 := apiError 400 "googleapi: Error 400: invalid policy").
  split.
  - destruct (X7_create_failure_keeps_identity (H := Sim.externals) Sim.rejectsPolicy
                Sim.httpsDecl Sim.emptyRemote
                (errwrap_Wrapf "Error setting Target HTTPS Proxy SSL Policy: " e0))
      as [Hh _].
    destruct Hh as [[Hrd _] | [Hrd _]]; [vm_compute; reflexivity | | exact Hrd].
    apply (f_equal Id) in Hrd. vm_compute in Hrd. discriminate Hrd.
  - destruct (X7_create_failure_keeps_identity (H := Sim.externals) Sim.rejectsPolicy
                Sim.sslDecl Sim.emptyRemote
                (errwrap_Wrapf "Error setting SSL Policy: " e0))
      as [_ Hs].
    destruct Hs as [[Hrd _] | [Hrd _]]; [vm_compute; reflexivity | | exact Hrd].
    apply (f_equal Id) in Hrd. vm_compute in Hrd. discriminate Hrd.
Defined.

(** X8 at a run: the API rejects the attach call of Create. *)
Lemma X8_create_error_witness :
  let r := resourceComputeTargetHttpsProxyCreate Sim.rejectsPolicy
             (start Sim.httpsDecl Sim.emptyRemote) in
  let e0 := apiError 400 "googleapi: Error 400: invalid policy" in
  returned r
  = Some (wrappedError
            (errorString
               "Error setting Target HTTPS Proxy SSL Policy: googleapi: Error 400: invalid policy")
            e0).
Proof.
  intros r e0.
  pose (ev := EvDo (H := Sim.externals)
                (TargetHttpsProxies_SetSslPolicy "my-project" "px"
                   "projects/my-project/global/sslPolicies/pol") None (Some e0)).
  assert (last (trace (final r)) = Some ev) as Hlast by reflexivity.
  destruct (X8_create_error_by_failing_call (H := Sim.externals) Sim.rejectsPolicy
              Sim.httpsDecl Sim.emptyRemote ev e0) as [Hh _].
  exact (Hh Hlast eq_refl eq_refl).
Defined.

(** X9 at two runs: the policy call is rejected after the certificates
    were set, and the key recorded is ["ssl_certificate"]; an Update that
    returns no error leaves partial mode off. *)
Lemma X9_recorded_witness :
  let failed := resourceComputeTargetHttpsProxyUpdate Sim.rejectsPolicy
                  (start Sim.httpsNewCertsAndPolicy Sim.created) in
  let done := resourceComputeTargetSslProxyUpdate Sim.defaultConfig
                (start Sim.sslNewHeader Sim.created) in
  (∃ req, completed req (trace (final failed)) ∧ recordedKey req = Some "ssl_certificate")
  ∧ ("ssl_certificates" ∉ rd_partialMap (rd (final failed)))
  ∧ rd_partial (rd (final done)) = false
  ∧ rd_partialMap (rd (final done)) = ∅.
Proof.
  intros failed done.
  destruct (X9_update_records_completed_groups (H := Sim.externals) Sim.rejectsPolicy
              Sim.httpsNewCertsAndPolicy Sim.created) as [(_ & Hsub & Hnew) _].
  destruct (X9_update_records_completed_groups (H := Sim.externals) Sim.defaultConfig
              Sim.sslNewHeader Sim.created) as [_ (Hnone & _)].
  split_and!.
  - apply Hnew; vm_compute; [reflexivity | discriminate].
  - intros Hin. apply Hsub in Hin. vm_compute in Hin. discriminate Hin.
  - apply Hnone. vm_compute. reflexivity.
  - apply Hnone. vm_compute. reflexivity.
Defined.

(** X10 at a run: the API rejects the new certificates of the SSL proxy,
    and the error comes back behind the text of the backend-service
    group. *)
Lemma X10_update_error_witness :
  let r := resourceComputeTargetSslProxyUpdate Sim.rejectsCertificates
             (start Sim.sslNewCerts Sim.created) in
  returned r
  = Some (errorString
            "Error updating backend_service: googleapi: Error 400: invalid certificate").
Proof.
  intros r.
  pose (e0 := apiError 400 "googleapi: Error 400: invalid certificate").
  pose (ev := EvDo (H := Sim.externals)
                (TargetSslProxies_SetSslCertificates "my-project" "sx"
                   ["projects/my-project/global/sslCertificates/c9"]) None (Some e0)).
  assert (last (trace (final r)) = Some ev) as Hlast by reflexivity.
  destruct (X10_update_error_by_failing_call (H := Sim.externals) Sim.rejectsCertificates
              Sim.sslNewCerts Sim.created ev e0) as [_ Hs].
  exact (Hs Hlast eq_refl eq_refl).
Defined.

(** X11 at two runs: the new certificate list has a reference the parser
    refuses; the URL map (the proxy header) is updated on the remote side
    before Update returns the error of the expansion. *)
Lemma X11_update_bad_certificate_witness :
  let https := resourceComputeTargetHttpsProxyUpdate Sim.refusesBadCert
                 (start Sim.httpsNewUrlMapBadCert Sim.created) in
  let ssl := resourceComputeTargetSslProxyUpdate Sim.refusesBadCert
               (start Sim.sslNewHeaderBadCert Sim.created) in
  let e := errorString
             "Invalid ssl certificate: Invalid sslCertificates reference: bad cert" in
  (requests (trace (final https)) = [TargetHttpsProxies_SetUrlMap "my-project" "px" "um2"]
   ∧ returned https = Some e)
  ∧ (requests (trace (final ssl))
     = [TargetSslProxies_SetProxyHeader "my-project" "sx" "PROXY_V1"]
     ∧ returned ssl = Some e).
Proof.
  intros https ssl e.
  split.
  - destruct (X11_update_expands_certificates_late (H := Sim.externals) Sim.refusesBadCert
                Sim.httpsNewUrlMapBadCert Sim.created "my-project" [] e)
      as [Hh _]; [vm_compute; reflexivity.. |].
    destruct Hh as (Hreq & _ & Hret); [vm_compute; reflexivity |].
    split; [exact Hreq |]. apply Hret.
    assert (trace (final https)
            = [EvDo (TargetHttpsProxies_SetUrlMap "my-project" "px" "um2")
                 (Some (TargetHttpsProxies_SetUrlMap "my-project" "px" "um2")) None;
               EvWait (Some (TargetHttpsProxies_SetUrlMap "my-project" "px" "um2"))
                 "my-project" "Updating Target Https Proxy URL Map" None]) as Htrace
      by reflexivity.
    unfold https in Htrace. rewrite Htrace.
    repeat (apply Forall_cons_2; [reflexivity |]). apply Forall_nil_2.
  - destruct (X11_update_expands_certificates_late (H := Sim.externals) Sim.refusesBadCert
                Sim.sslNewHeaderBadCert Sim.created "my-project" [] e)
      as [_ Hs]; [vm_compute; reflexivity.. |].
    destruct Hs as (_ & _ & Hret); [vm_compute; reflexivity |].
    apply Hret.
    assert (trace (final ssl)
            = [EvDo (TargetSslProxies_SetProxyHeader "my-project" "sx" "PROXY_V1")
                 (Some (TargetSslProxies_SetProxyHeader "my-project" "sx" "PROXY_V1")) None;
               EvWait (Some (TargetSslProxies_SetProxyHeader "my-project" "sx" "PROXY_V1"))
                 "my-project" "Updating Target SSL Proxy" None]) as Htrace
      by reflexivity.
    unfold ssl in Htrace. rewrite Htrace.
    repeat (apply Forall_cons_2; [reflexivity |]). apply Forall_nil_2.
Defined.

(** X12 at two runs: the new policy reference is one the parser refuses;
    Update returns the error of the parser and attaches nothing. *)
Lemma X12_update_bad_policy_witness :
  let https := resourceComputeTargetHttpsProxyUpdate Sim.refusesBadPolicy
                 (start Sim.httpsNewBadPolicy Sim.created) in
  let ssl := resourceComputeTargetSslProxyUpdate Sim.refusesBadPolicy
               (start Sim.sslNewBadPolicy Sim.created) in
  (attachCalls (trace (final https)) = [] ∧ returned https ≠ None)
  ∧ (attachCalls (trace (final ssl)) = [] ∧ returned ssl ≠ None).
Proof.
  intros https ssl.
  pose (e := errorString "Invalid sslPolicies reference: bad policy").
  split.
  - destruct (X12_update_tests_policy_reference (H := Sim.externals) Sim.refusesBadPolicy
                Sim.httpsNewBadPolicy Sim.created "my-project" "" e)
      as [Hh _]; [vm_compute; reflexivity.. |].
    destruct Hh as (Hattach & Hret & _); [vm_compute; reflexivity |]. by split.
  - destruct (X12_update_tests_policy_reference (H := Sim.externals) Sim.refusesBadPolicy
                Sim.sslNewBadPolicy Sim.created "my-project" "" e)
      as [_ Hs]; [vm_compute; reflexivity.. |].
    destruct Hs as (Hattach & Hret & _); [vm_compute; reflexivity |]. by split.
Defined.

(** X13 at two runs: [url_map] (or [proxy_header]) changed and Update
    returns no error. *)
Lemma X13_update_schema_witness :
  let https := resourceComputeTargetHttpsProxyUpdate Sim.defaultConfig
                 (start Sim.httpsNewUrlMap Sim.created) in
  let ssl := resourceComputeTargetSslProxyUpdate Sim.defaultConfig
               (start Sim.sslNewHeader Sim.created) in
  (issued "url_map" (trace (final https))
   ∧ ∃ s, resourceComputeTargetHttpsProxy_Schema !! "url_map" = Some s
          ∧ updatable s = true)
  ∧ (issued "proxy_header" (trace (final ssl))
     ∧ ∃ s, resourceComputeTargetSslProxy_Schema !! "proxy_header" = Some s
            ∧ updatable s = true).
Proof.
  intros https ssl.
  destruct (X13_update_covers_updatable_fields (H := Sim.externals) Sim.defaultConfig
              Sim.httpsNewUrlMap Sim.created) as (Hback & _ & Hforth & _).
  destruct (X13_update_covers_updatable_fields (H := Sim.externals) Sim.defaultConfig
              Sim.sslNewHeader Sim.created) as (_ & Hback' & _ & Hforth').
  assert (issued "url_map" (trace (final https))) as Hissued.
  { refine (Hforth "url_map"
              (withDiffSuppress compareSelfLinkRelativePaths
                 (withRequired (schemaOf TypeString))) _ _ _ _); vm_compute; reflexivity. }
  assert (issued "proxy_header" (trace (final ssl))) as Hissued'.
  { refine (Hforth' "proxy_header"
              (withDefault "NONE" (withOptional (schemaOf TypeString))) _ _ _ _);
      vm_compute; reflexivity. }
  split; (split; [done |]).
  - by apply Hback.
  - by apply Hback'.
Defined.

(** X14 at two runs: Create of the two declarations. *)
Lemma X14_identity_witness :
  let https := resourceComputeTargetHttpsProxyCreate Sim.defaultConfig
                 (start Sim.httpsDecl Sim.emptyRemote) in
  let ssl := resourceComputeTargetSslProxyCreate Sim.defaultConfig
               (start Sim.sslDecl Sim.emptyRemote) in
  (Id (rd (final https)) = Get_string Sim.httpsDecl "name" ∨ Id (rd (final https)) = "")
  ∧ (Id (rd (final ssl)) = Get_string Sim.sslDecl "name" ∨ Id (rd (final ssl)) = "").
Proof.
  intros https ssl.
  destruct (X14_identity_lifecycle (H := Sim.externals) Sim.defaultConfig
              Sim.httpsDecl Sim.emptyRemote) as (_ & Hh & _).
  destruct (X14_identity_lifecycle (H := Sim.externals) Sim.defaultConfig
              Sim.sslDecl Sim.emptyRemote) as (_ & _ & Hs).
  split; [apply Hh | apply Hs]; vm_compute; reflexivity.
Defined.
